(** * Model 1b scenario pipeline (src/1b-scenarios.py)

    A shallow embedding of the scenario script: the load phase, the
    per-scenario routine [run_model_1b] and the batch loop of the
    [__main__] block, followed by the properties of the pipeline.

    Python values coming from the JSON bundles are kept dynamically typed
    ([pyval]); numbers are exact rationals (the rounding of binary floats
    is outside this model).  Effects are a writer of [event]s (directory
    creation, console lines, solver calls, pyplot calls) over an error
    monad for Python exceptions.  The Gurobi solver is a parameter
    [optimize] of the development: nothing is assumed about it except
    where a theorem says so. *)

From Stdlib Require Import List String Ascii Bool Arith ZArith QArith Lia Lqa.
From Stdlib Require Import DecimalString.
Import ListNotations.
Local Open Scope string_scope.
Local Open Scope list_scope.
Set Warnings "-register-all".

(* ================================================================== *)
(** ** Python values and exceptions *)

(** What [json.load] returns; a parsed object has distinct keys, kept in
    the order of the file. *)
Inductive pyval : Type :=
| PNone
| PBool (b : bool)
| PNum (q : Q)
| PStr (s : string)
| PList (l : list pyval)
| PDict (kv : list (string * pyval)).

(** The exception classes the script can meet.  An operand that gurobipy
    or Python arithmetic rejects for its type is recorded as
    [TypeError]; a missing solution attribute as [AttributeError]; a
    figure that cannot be written as [OSError] ([FileNotFoundError] is
    one). *)
Inductive exc : Type :=
| KeyError
| IndexError
| TypeError
| ValueError
| AttributeError
| OSError.

Inductive res (A : Type) : Type :=
| Ok (a : A)
| Raise (e : exc).
Arguments Ok {A} a.
Arguments Raise {A} e.

Definition rbind {A B} (c : res A) (k : A -> res B) : res B :=
  match c with
  | Ok a => k a
  | Raise e => Raise e
  end.

Declare Scope py_scope.
Delimit Scope py_scope with py.
Notation "x <- c ;; k" := (rbind c (fun x => k))
  (at level 61, c at next level, right associativity) : py_scope.
Notation "' pat <- c ;; k" := (rbind c (fun x => match x with pat => k end))
  (at level 61, pat pattern, c at next level, right associativity) : py_scope.
Local Open Scope py_scope.

Fixpoint mapM {A B} (f : A -> res B) (l : list A) : res (list B) :=
  match l with
  | [] => Ok []
  | a :: l' => b <- f a ;; bs <- mapM f l' ;; Ok (b :: bs)
  end.

(** [for a in l: s = f(a, s)] in the error monad. *)
Fixpoint forM {A S} (f : A -> S -> res S) (l : list A) (s : S) : res S :=
  match l with
  | [] => Ok s
  | a :: l' => s' <- f a s ;; forM f l' s'
  end.

Fixpoint dict_find (k : string) (kv : list (string * pyval)) : option pyval :=
  match kv with
  | [] => None
  | (k', v) :: kv' => if String.eqb k k' then Some v else dict_find k kv'
  end.

(** [c[k]] for a string key [k]. *)
Definition getitem_str (c : pyval) (k : string) : res pyval :=
  match c with
  | PDict kv =>
      match dict_find k kv with
      | Some v => Ok v
      | None => Raise KeyError
      end
  | _ => Raise TypeError
  end.

(** [c[i]] for a non-negative integer [i].  The keys of a parsed JSON
    object are strings, so an integer key is never found in one. *)
Definition getitem_int (c : pyval) (i : nat) : res pyval :=
  match c with
  | PList l =>
      match nth_error l i with
      | Some v => Ok v
      | None => Raise IndexError
      end
  | PStr s =>
      match String.get i s with
      | Some a => Ok (PStr (String a EmptyString))
      | None => Raise IndexError
      end
  | PDict _ => Raise KeyError
  | _ => Raise TypeError
  end.

(** The values a [for] loop draws from an iterable. *)
Definition py_iter (v : pyval) : res (list pyval) :=
  match v with
  | PList l => Ok l
  | PDict kv => Ok (map (fun p => PStr (fst p)) kv)
  | PStr s => Ok (map (fun a => PStr (String a EmptyString)) (list_ascii_of_string s))
  | _ => Raise TypeError
  end.

(** A Python number read as a rational ([bool] is a subclass of [int]). *)
Definition num_of (v : pyval) : option Q :=
  match v with
  | PNum q => Some q
  | PBool b => Some (if b then 1%Q else 0%Q)
  | _ => None
  end.

Definition as_float (v : pyval) : res Q :=
  match num_of v with
  | Some q => Ok q
  | None => Raise TypeError
  end.

(** [a + b] and [a - b] on numbers. *)
Definition py_add (a b : pyval) : res Q :=
  x <- as_float a ;; y <- as_float b ;; Ok (x + y)%Q.

Definition py_sub (a b : pyval) : res Q :=
  x <- as_float a ;; y <- as_float b ;; Ok (x - y)%Q.

Definition str_of_nat (n : nat) : string :=
  NilEmpty.string_of_uint (Nat.to_uint n).

(* ================================================================== *)
(** ** The gurobipy model object *)

(** A [Var] is its column index, the order in which [addVar] made it. *)
Definition Var : Type := nat.

(** A bound: a number, [float("inf")] or [-float("inf")]. *)
Inductive xfloat : Type :=
| Fin (q : Q)
| PosInf
| NegInf.

Definition xneg (x : xfloat) : xfloat :=
  match x with
  | Fin q => Fin (- q)%Q
  | PosInf => NegInf
  | NegInf => PosInf
  end.

Inductive vtype : Type := CONTINUOUS | BINARY | INTEGER.
Inductive sense : Type := EQUAL | LESS_EQUAL | GREATER_EQUAL.
Inductive objsense : Type := MINIMIZE | MAXIMIZE.

Record VarDecl : Type := mkVar {
  v_lb : xfloat;
  v_ub : xfloat;
  v_vtype : vtype;
  v_name : string
}.

(** Expressions as the script writes them: [a + b], [a - b], [k * e]
    with a number [k], and [nlfunc.square(e)]. *)
Inductive expr : Type :=
| Const (q : Q)
| V (v : Var)
| Plus (a b : expr)
| Minus (a b : expr)
| Scale (k : Q) (e : expr)
| Square (e : expr).

Record Constr : Type := mkConstr {
  c_lhs : expr;
  c_sense : sense;
  c_rhs : expr;
  c_name : string
}.

Record GRBModel : Type := mkModel {
  ModelName : string;
  m_vars : list VarDecl;
  m_constrs : list Constr;
  m_obj : expr;
  m_sense : objsense
}.

(** [gp.Model(name)]: no variables, no constraints, minimise 0. *)
Definition Model (name : string) : GRBModel :=
  mkModel name [] [] (Const 0) MINIMIZE.

(** [model.addVar(lb, ub, vtype=..., name=...)] *)
Definition addVar (m : GRBModel) (lb ub : xfloat) (vt : vtype) (name : string)
  : Var * GRBModel :=
  (List.length (m_vars m),
   mkModel (ModelName m) (m_vars m ++ [mkVar lb ub vt name])
           (m_constrs m) (m_obj m) (m_sense m)).

(** [model.addLConstr(lhs, sense, rhs, name=...)] *)
Definition addLConstr (m : GRBModel) (lhs : expr) (s : sense) (rhs : expr)
  (name : string) : GRBModel :=
  mkModel (ModelName m) (m_vars m)
          (m_constrs m ++ [mkConstr lhs s rhs name]) (m_obj m) (m_sense m).

(** [model.addConstr(lhs == rhs, name=...)] *)
Definition addConstr (m : GRBModel) (lhs rhs : expr) (name : string) : GRBModel :=
  mkModel (ModelName m) (m_vars m)
          (m_constrs m ++ [mkConstr lhs EQUAL rhs name]) (m_obj m) (m_sense m).

(** [model.setObjective(e, sense)] *)
Definition setObjective (m : GRBModel) (e : expr) (s : objsense) : GRBModel :=
  mkModel (ModelName m) (m_vars m) (m_constrs m) e s.

(** [gp.quicksum(...)] *)
Definition quicksum (l : list expr) : expr :=
  fold_left Plus l (Const 0).

(** What [model.optimize()] leaves behind: the status code and, when the
    solver holds a solution, the values behind [Var.X] and
    [model.ObjVal]. *)
Record Solution : Type := mkSolution {
  X : Var -> Q;
  ObjVal : Q
}.

Record Outcome : Type := mkOutcome {
  status : Z;
  solution : option Solution
}.

(** gurobipy's status codes. *)
Definition GRB_OPTIMAL : Z := 2.
Definition GRB_INFEASIBLE : Z := 3.
Definition GRB_INF_OR_UNBD : Z := 4.
Definition GRB_UNBOUNDED : Z := 5.

(** [v.X]: gurobipy raises [AttributeError] when no solution is held. *)
Definition get_X (o : Outcome) (v : Var) : res Q :=
  match solution o with
  | Some s => Ok (X s v)
  | None => Raise AttributeError
  end.

(** [model.ObjVal] *)
Definition get_ObjVal (o : Outcome) : res Q :=
  match solution o with
  | Some s => Ok (ObjVal s)
  | None => Raise AttributeError
  end.

(** A dict keyed by the hour, in insertion order. *)
Definition hdict : Type := list (nat * Var).

Fixpoint hdict_get (d : hdict) (t : nat) : res Var :=
  match d with
  | [] => Raise KeyError
  | (k, v) :: d' => if Nat.eqb t k then Ok v else hdict_get d' t
  end.

(** [{t: f(t) for t in hours}] where [f] adds a variable to the model. *)
Fixpoint dict_comp (f : nat -> GRBModel -> res (Var * GRBModel))
  (hours : list nat) (m : GRBModel) : res (hdict * GRBModel) :=
  match hours with
  | [] => Ok ([], m)
  | t :: hours' =>
      '(v, m1) <- f t m ;;
      '(d, m2) <- dict_comp f hours' m1 ;;
      Ok ((t, v) :: d, m2)
  end.

(* ================================================================== *)
(** ** Effects *)

(** An f-string, piece by piece: literal text and formatted values. *)
Inductive piece : Type :=
| Lit (s : string)
| Fmt (v : pyval) (spec : string).

(** One entry of [results_summary]. *)
Record row : Type := mkRow {
  Scenario : pyval;
  Primal_Objective : option Q
}.

(** What the script does to the outside world, in order.  Of the pyplot
    calls, those that can fail or write are recorded; labels, ticks,
    legends and layout are not. *)
Inductive event : Type :=
| MakeDirs (path : string)
| Optimize (m : GRBModel)
| Print (line : list piece)
| PrintFrame (rows : list row)
| Figure
| Plot (xs : list nat) (ys : pyval) (label : string)
| SaveFig (dir : string) (name : list piece)
| Show
| Close.

Definition M (A : Type) : Type := (list event * res A)%type.

Definition mret {A} (a : A) : M A := ([], Ok a).

Definition mbind {A B} (c : M A) (k : A -> M B) : M B :=
  match c with
  | (tr, Ok a) => let (tr', r) := k a in (tr ++ tr', r)
  | (tr, Raise e) => (tr, Raise e)
  end.

Definition tell (e : event) : M unit := ([e], Ok tt).

Definition lift {A} (r : res A) : M A := ([], r).

Notation "x <-- c ;; k" := (mbind c (fun x => k))
  (at level 61, c at next level, right associativity) : py_scope.
Notation "' pat <-- c ;; k" :=
  (mbind c (fun x => match x with pat => k end))
  (at level 61, pat pattern, c at next level, right associativity) : py_scope.
Notation "c >> k" := (mbind c (fun _ => k))
  (at level 61, right associativity) : py_scope.

(** [for a in l: s = f(a, s)] with effects. *)
Fixpoint mforM {A S} (f : A -> S -> M S) (l : list A) (s : S) : M S :=
  match l with
  | [] => mret s
  | a :: l' => s' <-- f a s ;; mforM f l' s'
  end.

(** [os.makedirs(path, exist_ok=True)] *)
Definition makedirs (path : string) : M unit := tell (MakeDirs path).

(** [plt.plot(xs, ys, label=...)]: matplotlib raises [ValueError] unless
    [ys] is a sequence as long as [xs]. *)
Definition plt_plot (xs : list nat) (ys : pyval) (label : string) : M unit :=
  match ys with
  | PList l =>
      if Nat.eqb (List.length l) (List.length xs)
      then tell (Plot xs ys label)
      else lift (Raise ValueError)
  | _ => lift (Raise ValueError)
  end.

(** [plt.savefig(os.path.join(dir, name))].  Whether the file can be
    written is for the file system to say: [savefig dir name] is [None]
    when it can, and the exception of the failed write otherwise (the
    [FileNotFoundError], an [OSError], of a name that points into a
    directory that is not there). *)
Definition plt_savefig (savefig : string -> list piece -> option exc)
  (dir : string) (name : list piece) : M unit :=
  match savefig dir name with
  | None => tell (SaveFig dir name)
  | Some e => lift (Raise e)
  end.

Definition nl : string := String (ascii_of_nat 10) EmptyString.

(* ================================================================== *)
(** ** [run_model_1b]: building the model *)

Definition HOURS : list nat := seq 0 24.

Record Built : Type := mkBuilt {
  b_model : GRBModel;
  b_Lt : hdict;
  b_ut : hdict;
  b_ct : hdict;
  b_gt_imp : hdict;
  b_gt_exp : hdict;
  b_HCt : hdict;
  b_Dt : hdict
}.

(** [model.update()] changes nothing that the script can see. *)
Definition update (m : GRBModel) : GRBModel := m.

(** The body of the constraint loop (lines 49-52) for hour [t]. *)
Definition add_hour_constraints
  (Lt ut ct gt_imp gt_exp HCt Dt : hdict)
  (Pt_PV pt Lt_ref tau_imp tau_exp : pyval)
  (t : nat) (model : GRBModel) : res GRBModel :=
  u <- hdict_get ut t ;;
  c <- hdict_get ct t ;;
  pv <- getitem_int Pt_PV t ;;
  pv <- as_float pv ;;
  let model := addLConstr model (Plus (V u) (V c)) EQUAL (Const pv)
                 ("PV_allocation_" ++ str_of_nat t) in
  u <- hdict_get ut t ;;
  gi <- hdict_get gt_imp t ;;
  L <- hdict_get Lt t ;;
  ge <- hdict_get gt_exp t ;;
  let model := addLConstr model (Plus (V u) (V gi)) EQUAL (Plus (V L) (V ge))
                 ("Energy_balance_" ++ str_of_nat t) in
  p <- getitem_int pt t ;;
  a <- py_add p tau_imp ;;
  gi <- hdict_get gt_imp t ;;
  p <- getitem_int pt t ;;
  b <- py_sub p tau_exp ;;
  ge <- hdict_get gt_exp t ;;
  hc <- hdict_get HCt t ;;
  let model := addConstr model (Minus (Scale a (V gi)) (Scale b (V ge))) (V hc)
                 ("Hourly_cost_" ++ str_of_nat t) in
  r <- getitem_int Lt_ref t ;;
  L <- hdict_get Lt t ;;
  r <- as_float r ;;
  d <- hdict_get Dt t ;;
  Ok (addConstr model (Square (Minus (Const r) (V L))) (V d)
        ("Discomfort_" ++ str_of_nat t)).

(** One term [alpha * Dt[t] + HCt[t]] of the objective. *)
Definition objective_term (alpha : pyval) (HCt Dt : hdict) (t : nat) : res expr :=
  a <- as_float alpha ;;
  d <- hdict_get Dt t ;;
  hc <- hdict_get HCt t ;;
  Ok (Plus (Scale a (V d)) (V hc)).

(** Lines 36-43: the seven families of decision variables. *)
Definition declare_variables (model : GRBModel)
  (Lmin_t Lmax_t max_import_kW max_export_kW : pyval) : res Built :=
  let lb := Fin 0 in
  let ub := PosInf in
  '(Lt', model) <-
     dict_comp (fun t m =>
       lo <- as_float Lmin_t ;; hi <- as_float Lmax_t ;;
       Ok (addVar m (Fin lo) (Fin hi) CONTINUOUS ("L" ++ str_of_nat t)))
     HOURS model ;;
  '(ut, model) <-
     dict_comp (fun t m => Ok (addVar m lb ub CONTINUOUS ("u" ++ str_of_nat t)))
     HOURS model ;;
  '(ct, model) <-
     dict_comp (fun t m => Ok (addVar m lb ub CONTINUOUS ("c" ++ str_of_nat t)))
     HOURS model ;;
  '(gt_imp, model) <-
     dict_comp (fun t m =>
       hi <- as_float max_import_kW ;;
       Ok (addVar m lb (Fin hi) CONTINUOUS ("g" ++ str_of_nat t ++ "_imp")))
     HOURS model ;;
  '(gt_exp, model) <-
     dict_comp (fun t m =>
       hi <- as_float max_export_kW ;;
       Ok (addVar m lb (Fin hi) CONTINUOUS ("g" ++ str_of_nat t ++ "_exp")))
     HOURS model ;;
  '(HCt, model) <-
     dict_comp (fun t m => Ok (addVar m (xneg ub) ub CONTINUOUS ("HC" ++ str_of_nat t)))
     HOURS model ;;
  '(Dt, model) <-
     dict_comp (fun t m => Ok (addVar m lb ub CONTINUOUS ("D" ++ str_of_nat t)))
     HOURS model ;;
  Ok (mkBuilt model Lt' ut ct gt_imp gt_exp HCt Dt).

(** Lines 31-55: the model handed to [model.optimize()], with the dicts
    of its variables. *)
Definition build_model
  (Lmin_t Lmax_t Pt_PV pt Lt_ref max_import_kW max_export_kW tau_imp tau_exp
     alpha : pyval) : res Built :=
  let model := Model "Model_1b" in
  B <- declare_variables model Lmin_t Lmax_t max_import_kW max_export_kW ;;
  let model := update (b_model B) in
  model <-
     forM (add_hour_constraints (b_Lt B) (b_ut B) (b_ct B) (b_gt_imp B)
             (b_gt_exp B) (b_HCt B) (b_Dt B)
             Pt_PV pt Lt_ref tau_imp tau_exp) HOURS model ;;
  terms <- mapM (objective_term alpha (b_HCt B) (b_Dt B)) HOURS ;;
  let model := setObjective model (quicksum terms) MINIMIZE in
  Ok (mkBuilt model (b_Lt B) (b_ut B) (b_ct B) (b_gt_imp B) (b_gt_exp B)
        (b_HCt B) (b_Dt B)).

(* ================================================================== *)
(** ** [run_model_1b] and the [__main__] block *)

(** The dict returned by [run_model_1b]. *)
Record ScenarioResult : Type := mkResult {
  Lt_values : list Q;
  ut_values : list Q;
  ct_values : list Q;
  gt_imp_values : list Q;
  gt_exp_values : list Q;
  objective : option Q
}.

(** [[d[t].X for t in HOURS]] *)
Definition values_of (o : Outcome) (d : hdict) : res (list Q) :=
  mapM (fun t => v <- hdict_get d t ;; get_X o v) HOURS.

Definition floats (l : list Q) : pyval := PList (map PNum l).

Definition load_phase (appl_params der_production usage_preference : pyval)
  : res (pyval * pyval * pyval * pyval) :=
  let Lmin_t := PNum 0 in
  Lmax_t <- (a <- getitem_str appl_params "load" ;;
             b <- getitem_int a 0 ;;
             getitem_str b "max_load_kWh_per_hour") ;;
  Pt_PV <- (a <- getitem_int der_production 0 ;;
            getitem_str a "hourly_profile_ratio") ;;
  Lt_ref <- (a <- getitem_int usage_preference 0 ;;
             b <- getitem_str a "load_preferences" ;;
             c <- getitem_int b 0 ;;
             getitem_str c "hourly_profile_ratio") ;;
  Ok (Lmin_t, Lmax_t, Pt_PV, Lt_ref).

Section Pipeline.

(** [model.optimize()], the external solver. *)
Variable optimize : GRBModel -> Outcome.

(** The answer of the file system to the write of a figure. *)
Variable savefig : string -> list piece -> option exc.

Definition run_model_1b
  (scenario Lmin_t Lmax_t Pt_PV pt Lt_ref max_import_kW max_export_kW
     tau_imp tau_exp : pyval)
  (alpha : option pyval) (model_prefix : option string) : M ScenarioResult :=
  let alpha := match alpha with Some a => a | None => PNum 10 end in
  let model_prefix := match model_prefix with Some p => p | None => "1b" end in
  let results_folder := "src/scenario-results" in
  makedirs results_folder >>
  B <-- lift (build_model Lmin_t Lmax_t Pt_PV pt Lt_ref
                max_import_kW max_export_kW tau_imp tau_exp alpha) ;;
  let model := b_model B in
  tell (Optimize model) >>
  let o := optimize model in
  (if Z.eqb (status o) GRB_OPTIMAL then
     obj <-- lift (get_ObjVal o) ;;
     tell (Print [Lit "Optimization "; Fmt scenario "";
                  Lit " successful! Objective = "; Fmt (PNum obj) ".3f"])
   else if Z.eqb (status o) GRB_INFEASIBLE then
     tell (Print [Lit "Model "; Fmt scenario ""; Lit " is infeasible."])
   else if Z.eqb (status o) GRB_UNBOUNDED then
     tell (Print [Lit " Model "; Fmt scenario ""; Lit " is unbounded."])
   else
     tell (Print [Lit "Optimization ended with status: ";
                  Fmt (PNum (inject_Z (status o))) ""])) >>
  Lt_values <-- lift (values_of o (b_Lt B)) ;;
  ut_values <-- lift (values_of o (b_ut B)) ;;
  ct_values <-- lift (values_of o (b_ct B)) ;;
  gt_imp_values <-- lift (values_of o (b_gt_imp B)) ;;
  gt_exp_values <-- lift (values_of o (b_gt_exp B)) ;;
  (* plot 1: decision variables *)
  tell Figure >>
  plt_plot HOURS (floats Lt_values) "Load Consumption (Lt)" >>
  plt_plot HOURS (floats ut_values) "PV not curtailed (ut)" >>
  plt_plot HOURS (floats ct_values) "PV Curtailed (ct)" >>
  plt_plot HOURS (floats gt_imp_values) "Grid Import (gt_imp)" >>
  plt_plot HOURS (floats gt_exp_values) "Grid Export (gt_exp)" >>
  plt_plot HOURS Pt_PV "PV Production (Pt_PV)" >>
  plt_plot HOURS Lt_ref "Reference Load (Lt_ref)" >>
  plt_savefig savefig results_folder
    [Lit model_prefix; Lit "-scenario-"; Fmt scenario "";
     Lit "-AllDecisionVariables.png"] >>
  tell Show >>
  tell Close >>
  (* plot 2: energy price against the grid *)
  tell Figure >>
  plt_plot HOURS pt "Energy Price" >>
  plt_plot HOURS (floats gt_imp_values) "Grid Import" >>
  plt_plot HOURS (floats gt_exp_values) "Grid Export" >>
  plt_savefig savefig results_folder
    [Lit model_prefix; Lit "-scenario-"; Fmt scenario "";
     Lit "-EnergyPriceVsGrid.png"] >>
  tell Show >>
  tell Close >>
  obj <-- lift (if Z.eqb (status o) GRB_OPTIMAL
                then (x <- get_ObjVal o ;; Ok (Some x))
                else Ok None) ;;
  mret (mkResult Lt_values ut_values ct_values gt_imp_values gt_exp_values obj).

(** The body of [for sc in scenarios] (lines 147-165). *)
Definition scenario_step (Lmin_t Lmax_t Pt_PV Lt_ref : pyval)
  (sc : pyval) (results_summary : list row) : M (list row) :=
  name <-- lift (getitem_str sc "scenario") ;;
  tell (Print [Lit (nl ++ "--- Running "); Fmt name ""; Lit " ---"]) >>
  scenario <-- lift (getitem_str sc "scenario") ;;
  pt <-- lift (getitem_str sc "energy_price_DKK_per_kWh") ;;
  max_import_kW <-- lift (getitem_str sc "max_import_kW") ;;
  max_export_kW <-- lift (getitem_str sc "max_export_kW") ;;
  tau_imp <-- lift (getitem_str sc "import_tariff_DKK/kWh") ;;
  tau_exp <-- lift (getitem_str sc "export_tariff_DKK/kWh") ;;
  result <-- run_model_1b scenario Lmin_t Lmax_t Pt_PV pt Lt_ref
               max_import_kW max_export_kW tau_imp tau_exp None (Some "1b") ;;
  key <-- lift (getitem_str sc "scenario") ;;
  mret (results_summary ++ [mkRow key (objective result)]).

(** Lines 139-172, on the five parsed bundles; the value is the final
    [results_summary]. *)
Definition main
  (bus_params der_production appl_params usage_preference scenarios : pyval)
  : M (list row) :=
  '(Lmin_t, Lmax_t, Pt_PV, Lt_ref) <--
     lift (load_phase appl_params der_production usage_preference) ;;
  let results_summary := [] in
  scs <-- lift (py_iter scenarios) ;;
  results_summary <-- mforM (scenario_step Lmin_t Lmax_t Pt_PV Lt_ref)
                        scs results_summary ;;
  match results_summary with
  | [] => tell (Print [Lit "No results found. Please run the scenarios first."])
  | _ => tell (Print [Lit (nl ++ "===== RESULTS SUMMARY =====")]) >>
         tell (PrintFrame results_summary)
  end >>
  mret results_summary.

End Pipeline.

(* ================================================================== *)
(** ** What a model means *)

Fixpoint eval (x : Var -> Q) (e : expr) : Q :=
  match e with
  | Const q => q
  | V v => x v
  | Plus a b => eval x a + eval x b
  | Minus a b => eval x a - eval x b
  | Scale k e' => k * eval x e'
  | Square e' => eval x e' * eval x e'
  end%Q.

Definition holds (x : Var -> Q) (c : Constr) : Prop :=
  match c_sense c with
  | EQUAL => eval x (c_lhs c) == eval x (c_rhs c)
  | LESS_EQUAL => eval x (c_lhs c) <= eval x (c_rhs c)
  | GREATER_EQUAL => eval x (c_rhs c) <= eval x (c_lhs c)
  end%Q.

Definition above (lo : xfloat) (q : Q) : Prop :=
  match lo with
  | Fin a => (a <= q)%Q
  | NegInf => True
  | PosInf => False
  end.

Definition below (q : Q) (hi : xfloat) : Prop :=
  match hi with
  | Fin b => (q <= b)%Q
  | PosInf => True
  | NegInf => False
  end.

Definition within (x : Var -> Q) (v : Var) (d : VarDecl) : Prop :=
  above (v_lb d) (x v) /\ below (x v) (v_ub d).

(** [x] respects every bound and every constraint of [m]. *)
Definition feasible (m : GRBModel) (x : Var -> Q) : Prop :=
  (forall v d, nth_error (m_vars m) v = Some d -> within x v d) /\
  Forall (holds x) (m_constrs m).

(** A solver is sound when every solution it holds is feasible. *)
Definition sound (optimize : GRBModel -> Outcome) : Prop :=
  forall m s, solution (optimize m) = Some s -> feasible m (X s).

(** The variables an expression mentions. *)
Fixpoint vars_of (e : expr) : list Var :=
  match e with
  | Const _ => []
  | V v => [v]
  | Plus a b | Minus a b => vars_of a ++ vars_of b
  | Scale _ e' | Square e' => vars_of e'
  end.

Definition constr_vars (c : Constr) : list Var :=
  vars_of (c_lhs c) ++ vars_of (c_rhs c).

(** The columns of hour [t]: the seven families are laid out one after
    the other, 24 columns each, in the order of lines 37-43. *)
Definition L_ (t : nat) : Var := t.
Definition u_ (t : nat) : Var := (24 + t)%nat.
Definition c_ (t : nat) : Var := (48 + t)%nat.
Definition g_imp_ (t : nat) : Var := (72 + t)%nat.
Definition g_exp_ (t : nat) : Var := (96 + t)%nat.
Definition HC_ (t : nat) : Var := (120 + t)%nat.
Definition D_ (t : nat) : Var := (144 + t)%nat.

Definition hour_of (v : Var) : nat := (v mod 24)%nat.

(* ================================================================== *)
(** ** Sample bundles and stand-in solvers *)

Definition profile (q : Q) (n : nat) : pyval := PList (repeat (PNum q) n).

Definition appliance_bundle (Lmax : Q) : pyval :=
  PDict [("load", PList [PDict [("max_load_kWh_per_hour", PNum Lmax)]])].

Definition production_bundle (pv : pyval) : pyval :=
  PList [PDict [("hourly_profile_ratio", pv)]].

Definition preference_bundle (ref : pyval) : pyval :=
  PList [PDict [("load_preferences",
                 PList [PDict [("hourly_profile_ratio", ref)]])]].

Definition scenario_record (name : string) (price : pyval)
  (imp exp tau_i tau_e : Q) : pyval :=
  PDict [("scenario", PStr name);
         ("energy_price_DKK_per_kWh", price);
         ("max_import_kW", PNum imp);
         ("max_export_kW", PNum exp);
         ("import_tariff_DKK/kWh", PNum tau_i);
         ("export_tariff_DKK/kWh", PNum tau_e)].

Definition sc_base : pyval := scenario_record "Base" (profile 1 24) 5 5 (1#2) (1#4).
Definition sc_high : pyval := scenario_record "High" (profile 2 24) 5 5 (1#2) (1#4).
Definition sc_tight : pyval := scenario_record "Tight" (profile 2 24) 2 1 (1#2) (1#4).

(** A solver that gives up on every model: status INFEASIBLE, nothing
    to read back. *)
Definition solver_infeasible (m : GRBModel) : Outcome :=
  mkOutcome GRB_INFEASIBLE None.

(** A solver that answers OPTIMAL with the all-zero point and objective
    [obj]. *)
Definition solver_const (obj : Q) (m : GRBModel) : Outcome :=
  mkOutcome GRB_OPTIMAL (Some (mkSolution (fun _ => 0%Q) obj)).

(** A solver that stops early (status 9, TIME_LIMIT) but holds a point. *)
Definition solver_timeout (m : GRBModel) : Outcome :=
  mkOutcome 9 (Some (mkSolution (fun _ => 0%Q) 7)).

(** A file system on which every figure can be written. *)
Definition disk_ok (dir : string) (name : list piece) : option exc := None.

(** Whether a string holds the character '/'. *)
Fixpoint has_slash (s : string) : bool :=
  match s with
  | EmptyString => false
  | String a s' => Ascii.eqb a "/"%char || has_slash s'
  end.

(** A file system with the results directory and nothing under it: a
    file name with a '/' in it points into a directory that is not
    there. *)
Definition disk_no_subdirs (dir : string) (name : list piece) : option exc :=
  if existsb (fun p => match p with
                       | Lit s => has_slash s
                       | Fmt (PStr s) _ => has_slash s
                       | Fmt _ _ => false
                       end) name
  then Some OSError else None.

(* ================================================================== *)
(** ** The model in closed form and views of a trace *)

(** The value of a successful read (0 when the read fails). *)
Definition val (r : res Q) : Q :=
  match r with
  | Ok q => q
  | Raise _ => 0%Q
  end.

(** [v[t]] read as a number. *)
Definition num_at (v : pyval) (t : nat) : res Q :=
  x <- getitem_int v t ;; as_float x.

(** The dict of one family of variables: hour [t] is column [first + t]. *)
Definition columns (first : nat) : hdict := combine HOURS (seq first 24).

Definition family (lb ub : xfloat) (name : nat -> string) : list VarDecl :=
  map (fun t => mkVar lb ub CONTINUOUS (name t)) HOURS.

(** The 168 declarations in column order, for numeric bounds. *)
Definition declared_vars (Lmin Lmax imp exp : Q) : list VarDecl :=
  family (Fin Lmin) (Fin Lmax) (fun t => ("L" ++ str_of_nat t)%string) ++
  family (Fin 0) PosInf (fun t => ("u" ++ str_of_nat t)%string) ++
  family (Fin 0) PosInf (fun t => ("c" ++ str_of_nat t)%string) ++
  family (Fin 0) (Fin imp) (fun t => ("g" ++ str_of_nat t ++ "_imp")%string) ++
  family (Fin 0) (Fin exp) (fun t => ("g" ++ str_of_nat t ++ "_exp")%string) ++
  family NegInf PosInf (fun t => ("HC" ++ str_of_nat t)%string) ++
  family (Fin 0) PosInf (fun t => ("D" ++ str_of_nat t)%string).

(** The four constraints of hour [t], for the PV production [pv], the two
    cost coefficients [a] and [b] and the reference load [r]. *)
Definition hour_block (pv a b r : Q) (t : nat) : list Constr :=
  [ mkConstr (Plus (V (u_ t)) (V (c_ t))) EQUAL (Const pv)
      ("PV_allocation_" ++ str_of_nat t);
    mkConstr (Plus (V (u_ t)) (V (g_imp_ t))) EQUAL
      (Plus (V (L_ t)) (V (g_exp_ t)))
      ("Energy_balance_" ++ str_of_nat t);
    mkConstr (Minus (Scale a (V (g_imp_ t))) (Scale b (V (g_exp_ t)))) EQUAL
      (V (HC_ t))
      ("Hourly_cost_" ++ str_of_nat t);
    mkConstr (Square (Minus (Const r) (V (L_ t)))) EQUAL (V (D_ t))
      ("Discomfort_" ++ str_of_nat t) ].

(** The reads of one pass of the constraint loop, in the order of lines
    49-52, and the block they give. *)
Definition read_hour (Pt_PV pt Lt_ref tau_imp tau_exp : pyval) (t : nat)
  : res (list Constr) :=
  pv <- getitem_int Pt_PV t ;;
  pv <- as_float pv ;;
  p <- getitem_int pt t ;;
  a <- py_add p tau_imp ;;
  p <- getitem_int pt t ;;
  b <- py_sub p tau_exp ;;
  r <- getitem_int Lt_ref t ;;
  r <- as_float r ;;
  Ok (hour_block pv a b r t).

(** [m] with the constraints [cs] added at the end. *)
Definition with_constrs (m : GRBModel) (cs : list Constr) : GRBModel :=
  mkModel (ModelName m) (m_vars m) (m_constrs m ++ cs) (m_obj m) (m_sense m).

(** The objective term of hour [t] for the weight [a]. *)
Definition cost_term (a : Q) (t : nat) : expr :=
  Plus (Scale a (V (D_ t))) (V (HC_ t)).

(** The sum the objective stands for. *)
Definition total_cost (a : Q) (x : Var -> Q) : Q :=
  fold_left (fun acc t => acc + (a * x (D_ t) + x (HC_ t)))%Q HOURS 0%Q.

(** The result of the solved model, when there is a solution to read. *)
Definition result_of (o : Outcome) (s : Solution) : ScenarioResult :=
  mkResult (map (fun t => X s (L_ t)) HOURS)
           (map (fun t => X s (u_ t)) HOURS)
           (map (fun t => X s (c_ t)) HOURS)
           (map (fun t => X s (g_imp_ t)) HOURS)
           (map (fun t => X s (g_exp_ t)) HOURS)
           (if Z.eqb (status o) GRB_OPTIMAL then Some (ObjVal s) else None).

(** The models handed to the solver, the directories made, the figures
    saved and the console output of a trace. *)
Definition submitted (tr : list event) : list GRBModel :=
  flat_map (fun e => match e with Optimize m => [m] | _ => [] end) tr.

Definition dirs_made (tr : list event) : list string :=
  flat_map (fun e => match e with MakeDirs p => [p] | _ => [] end) tr.

Definition figures_saved (tr : list event) : list (string * list piece) :=
  flat_map (fun e => match e with SaveFig d n => [(d, n)] | _ => [] end) tr.

Definition console (tr : list event) : list event :=
  filter (fun e => match e with Print _ | PrintFrame _ => true | _ => false end) tr.

(** Events that only draw on the current figure or show and close it. *)
Definition is_drawing (e : event) : bool :=
  match e with
  | Figure | Plot _ _ _ | Show | Close => true
  | _ => false
  end.

(** A sequence of exactly 24 entries, as pyplot needs against [HOURS]. *)
Definition has_24 (v : pyval) : bool :=
  match v with
  | PList l => Nat.eqb (List.length l) 24
  | _ => false
  end.

(** Path lookup in a bundle: string keys and list positions. *)
Inductive key : Type :=
| Key (k : string)
| Idx (i : nat).

Fixpoint resolve (v : pyval) (path : list key) : option pyval :=
  match path with
  | [] => Some v
  | Key k :: path' =>
      match v with
      | PDict kv =>
          match dict_find k kv with
          | Some v' => resolve v' path'
          | None => None
          end
      | _ => None
      end
  | Idx i :: path' =>
      match v with
      | PList l =>
          match nth_error l i with
          | Some v' => resolve v' path'
          | None => None
          end
      | _ => None
      end
  end.

Definition path_Lmax : list key := [Key "load"; Idx 0; Key "max_load_kWh_per_hour"].
Definition path_PV : list key := [Idx 0; Key "hourly_profile_ratio"].
Definition path_ref : list key :=
  [Idx 0; Key "load_preferences"; Idx 0; Key "hourly_profile_ratio"].

(** What follows the solver call in [run_model_1b]: console lines,
    drawing, and figures saved under the results folder. *)
Definition after_solve (e : event) : bool :=
  match e with
  | Print _ => true
  | SaveFig d _ => String.eqb d "src/scenario-results"
  | e' => is_drawing e'
  end.

(** The line that reports the status of the solve for [scenario]. *)
Definition status_report (o : Outcome) (scenario : pyval) : list event :=
  if Z.eqb (status o) GRB_OPTIMAL then
    match solution o with
    | Some s => [Print [Lit "Optimization "; Fmt scenario "";
                        Lit " successful! Objective = ";
                        Fmt (PNum (ObjVal s)) ".3f"]]
    | None => []
    end
  else if Z.eqb (status o) GRB_INFEASIBLE then
    [Print [Lit "Model "; Fmt scenario ""; Lit " is infeasible."]]
  else if Z.eqb (status o) GRB_UNBOUNDED then
    [Print [Lit " Model "; Fmt scenario ""; Lit " is unbounded."]]
  else
    [Print [Lit "Optimization ended with status: ";
            Fmt (PNum (inject_Z (status o))) ""]].

(** The model [main] builds for the scenario record [sc] (the arguments
    of lines 148-160; [alpha] takes its default). *)
Definition scenario_model (Lmax_t Pt_PV Lt_ref sc : pyval) : res Built :=
  pt <- getitem_str sc "energy_price_DKK_per_kWh" ;;
  max_import_kW <- getitem_str sc "max_import_kW" ;;
  max_export_kW <- getitem_str sc "max_export_kW" ;;
  tau_imp <- getitem_str sc "import_tariff_DKK/kWh" ;;
  tau_exp <- getitem_str sc "export_tariff_DKK/kWh" ;;
  build_model (PNum 0) Lmax_t Pt_PV pt Lt_ref max_import_kW max_export_kW
    tau_imp tau_exp (PNum 10).

(** The f-string of a figure's file name (lines 89 and 111). *)
Definition figure_name (model_prefix : string) (scenario : pyval)
  (what : string) : list piece :=
  [Lit model_prefix; Lit "-scenario-"; Fmt scenario ""; Lit what].

(** The scenario record [sc] solves to optimality and [r] is its row:
    the record names itself, its price curve has 24 entries, its model
    is built, the solver answers OPTIMAL with a solution whose objective
    is the one in [r], and its two figures can be written. *)
Definition optimal_for (optimize : GRBModel -> Outcome)
  (savefig : string -> list piece -> option exc)
  (Lmax_t Pt_PV Lt_ref : pyval) (sc : pyval) (r : row) : Prop :=
  exists pt B s,
    getitem_str sc "scenario" = Ok (Scenario r) /\
    getitem_str sc "energy_price_DKK_per_kWh" = Ok pt /\
    has_24 pt = true /\
    scenario_model Lmax_t Pt_PV Lt_ref sc = Ok B /\
    status (optimize (b_model B)) = GRB_OPTIMAL /\
    solution (optimize (b_model B)) = Some s /\
    Primal_Objective r = Some (ObjVal s) /\
    savefig "src/scenario-results"
      (figure_name "1b" (Scenario r) "-AllDecisionVariables.png") = None /\
    savefig "src/scenario-results"
      (figure_name "1b" (Scenario r) "-EnergyPriceVsGrid.png") = None.


(** A PV profile whose first hour is negative: [u0 + c0 = -1] cannot
    hold with [u0, c0 >= 0], so the model of every scenario is
    infeasible. *)
Definition negative_pv : pyval := PList (PNum (-1) :: repeat (PNum 1) 23).

(** A lookup failure of Python. *)
Definition lookup_error (e : exc) : Prop :=
  e = KeyError \/ e = IndexError \/ e = TypeError.


Definition sample_model : GRBModel :=
  match scenario_model (PNum 3) (profile 1 24) (profile 1 24) sc_base with
  | Ok B => b_model B
  | Raise _ => Model ""
  end.

(** The batch on the PV profile [pv] and the scenario records [scs]. *)
Definition sample_main (optimize : GRBModel -> Outcome) (pv : pyval)
  (scs : list pyval) : M (list row) :=
  main optimize disk_ok PNone (production_bundle pv) (appliance_bundle 3)
    (preference_bundle (profile 1 24)) (PList scs).

(* ================================================================== *)
(** ** The input files of the script *)

(** What [open(path, "r")] and [json.load] find at a path: no file, a
    file that is not JSON, or a file with its parsed content. *)
Inductive file : Type :=
| Missing
| Garbled
| Parsed (v : pyval).

(** What stops the script: [open] on a missing file, [json.load] on a
    file that is not JSON, or an exception raised further on. *)
Inductive failure : Type :=
| FileNotFoundError (path : string)
| JSONDecodeError (path : string)
| Uncaught (e : exc).

(** [with open(path, "r") as file: v = json.load(file)] *)
Definition load_json (fs : string -> file) (path : string) : failure + pyval :=
  match fs path with
  | Missing => inl (FileNotFoundError path)
  | Garbled => inl (JSONDecodeError path)
  | Parsed v => inr v
  end.

Definition bus_params_json : string := "./data/question_1b/bus_params.json".
Definition DER_production_json : string := "./data/question_1b/DER_production.json".
Definition appliance_params_json : string := "./data/question_1b/appliance_params.json".
Definition usage_preferences_json : string := "./data/question_1b/usage_preferences.json".
Definition scenarios_json : string := "./data/scenarios.json".

(** The five files in the order of lines 128-137. *)
Definition input_files : list string :=
  [bus_params_json; DER_production_json; appliance_params_json;
   usage_preferences_json; scenarios_json].

Section Script.

Variable optimize : GRBModel -> Outcome.
Variable savefig : string -> list piece -> option exc.

(** The [__main__] block from its first line (lines 126-172). *)
Definition script (fs : string -> file) : list event * (failure + list row) :=
  match load_json fs bus_params_json with
  | inl f => ([], inl f)
  | inr bus_params =>
  match load_json fs DER_production_json with
  | inl f => ([], inl f)
  | inr der_production =>
  match load_json fs appliance_params_json with
  | inl f => ([], inl f)
  | inr appl_params =>
  match load_json fs usage_preferences_json with
  | inl f => ([], inl f)
  | inr usage_preference =>
  match load_json fs scenarios_json with
  | inl f => ([], inl f)
  | inr scenarios =>
      let (tr, r) := main optimize savefig bus_params der_production appl_params
                       usage_preference scenarios in
      (tr, match r with
           | Ok rows => inr rows
           | Raise e => inl (Uncaught e)
           end)
  end end end end end.

End Script.

(** A file that [open] and [json.load] accept. *)
Definition readable (f : file) : bool :=
  match f with
  | Parsed _ => true
  | _ => false
  end.

(** A filesystem holding the five bundles. *)
Definition sample_files (bus der appl usage scenarios : file) (path : string) : file :=
  if String.eqb path bus_params_json then bus
  else if String.eqb path DER_production_json then der
  else if String.eqb path appliance_params_json then appl
  else if String.eqb path usage_preferences_json then usage
  else if String.eqb path scenarios_json then scenarios
  else Missing.

(* ================================================================== *)
(** ** Views used by the properties of a run *)

(** The five curves of the solution drawn first on the first figure
    (lines 75-79). *)
Definition solution_curves (s : Solution) : list event :=
  [ Plot HOURS (floats (map (fun t => X s (L_ t)) HOURS)) "Load Consumption (Lt)";
    Plot HOURS (floats (map (fun t => X s (u_ t)) HOURS)) "PV not curtailed (ut)";
    Plot HOURS (floats (map (fun t => X s (c_ t)) HOURS)) "PV Curtailed (ct)";
    Plot HOURS (floats (map (fun t => X s (g_imp_ t)) HOURS)) "Grid Import (gt_imp)";
    Plot HOURS (floats (map (fun t => X s (g_exp_ t)) HOURS)) "Grid Export (gt_exp)" ].

(** The two grid curves of the second figure (lines 103-104). *)
Definition grid_curves (s : Solution) : list event :=
  [ Plot HOURS (floats (map (fun t => X s (g_imp_ t)) HOURS)) "Grid Import";
    Plot HOURS (floats (map (fun t => X s (g_exp_ t)) HOURS)) "Grid Export" ].

(** The keys the loop of [__main__] reads in a scenario record. *)
Definition scenario_keys : list string :=
  ["scenario"; "energy_price_DKK_per_kWh"; "max_import_kW"; "max_export_kW";
   "import_tariff_DKK/kWh"; "export_tariff_DKK/kWh"].

(** The point that leaves the household idle at every hour: no load, no
    exchange with the grid, all PV production curtailed. *)
Definition idle_point (pv ref : nat -> Q) (v : Var) : Q :=
  if Nat.ltb v 48 then 0%Q
  else if Nat.ltb v 72 then pv (v - 48)%nat
  else if Nat.ltb v 144 then 0%Q
  else (ref (v - 144)%nat * ref (v - 144)%nat)%Q.

(** The discomfort and the net energy cost of a point, summed over the
    day. *)
Definition bill (a : Q) (ref price : nat -> Q) (ti te : Q) (x : Var -> Q) : Q :=
  fold_left
    (fun acc t =>
       acc + (a * ((ref t - x (L_ t)) * (ref t - x (L_ t))) +
              ((price t + ti) * x (g_imp_ t) - (price t - te) * x (g_exp_ t))))%Q
    HOURS 0%Q.

(** The output that closes the batch (lines 167-172): a line that is one
    plain string, or the table. *)
Definition summary_output (e : event) : bool :=
  match e with
  | PrintFrame _ => true
  | Print [Lit _] => true
  | _ => false
  end.
(* ================================================================== *)
(** * Properties *)

Local Open Scope nat_scope.

(** ** The error monad and the loops *)

Lemma rbind_Ok_inv {A B} (c : res A) (k : A -> res B) (b : B) :
  rbind c k = Ok b -> exists a, c = Ok a /\ k a = Ok b.
Proof.
  destruct c as [a|e]; simpl; intros H; [exists a; auto | discriminate].
Qed.

Lemma mapM_Ok_length {A B} (f : A -> res B) (l : list A) (bs : list B) :
  mapM f l = Ok bs -> List.length bs = List.length l.
Proof.
  revert bs; induction l as [|a l IH]; simpl; intros bs H.
  - injection H as <-. reflexivity.
  - apply rbind_Ok_inv in H as (b & _ & H).
    apply rbind_Ok_inv in H as (bs' & Hbs & H).
    injection H as <-. simpl. f_equal. apply IH, Hbs.
Qed.

Lemma mapM_Ok_nth {A B} (f : A -> res B) (l : list A) (bs : list B) :
  mapM f l = Ok bs ->
  forall i a, nth_error l i = Some a ->
  exists b, nth_error bs i = Some b /\ f a = Ok b.
Proof.
  revert bs; induction l as [|a0 l IH]; simpl; intros bs H i a Hi.
  - destruct i; discriminate.
  - apply rbind_Ok_inv in H as (b & Hb & H).
    apply rbind_Ok_inv in H as (bs' & Hbs & H).
    injection H as <-.
    destruct i as [|i]; simpl in *.
    + injection Hi as <-. exists b; auto.
    + eapply IH; eauto.
Qed.

Lemma mapM_total {A B} (f : A -> res B) (g : A -> B) (l : list A) :
  (forall a, In a l -> f a = Ok (g a)) -> mapM f l = Ok (map g l).
Proof.
  induction l as [|a l IH]; simpl; intros H; [reflexivity|].
  rewrite (H a (or_introl eq_refl)). simpl.
  rewrite IH by (intros; apply H; auto). reflexivity.
Qed.

Lemma mapM_Ok_map {A B} (f : A -> res B) (g : A -> B) (l : list A) (bs : list B) :
  mapM f l = Ok bs ->
  (forall a b, In a l -> f a = Ok b -> b = g a) -> bs = map g l.
Proof.
  revert bs; induction l as [|a l IH]; simpl; intros bs H Hg.
  - injection H as <-. reflexivity.
  - apply rbind_Ok_inv in H as (b & Hb & H).
    apply rbind_Ok_inv in H as (bs' & Hbs & H).
    injection H as <-. f_equal.
    + eapply Hg; eauto.
    + apply IH; eauto.
Qed.

(** ** Columns *)

Lemma hdict_get_combine (hours : list nat) (first : nat) (i t : nat) :
  NoDup hours -> nth_error hours i = Some t ->
  hdict_get (combine hours (seq first (List.length hours))) t = Ok (first + i)%nat.
Proof.
  revert first i; induction hours as [|h hours IH]; intros first i Hnd Hi.
  - destruct i; discriminate.
  - inversion Hnd as [|? ? Hnotin Hnd']; subst.
    destruct i as [|i]; simpl in *.
    + injection Hi as ->. rewrite Nat.eqb_refl. f_equal. lia.
    + destruct (Nat.eqb_spec t h) as [->|Hne].
      * exfalso. apply Hnotin. eapply nth_error_In; eauto.
      * rewrite (IH (S first) i Hnd' Hi). f_equal. lia.
Qed.

Lemma HOURS_nth (t : nat) : (t < 24)%nat -> nth_error HOURS t = Some t.
Proof.
  intros H. unfold HOURS. rewrite nth_error_nth' with (d := 0%nat).
  - rewrite seq_nth by lia. reflexivity.
  - rewrite length_seq. lia.
Qed.

Lemma In_HOURS (t : nat) : In t HOURS <-> (t < 24)%nat.
Proof. unfold HOURS. rewrite in_seq. lia. Qed.

Lemma columns_get (first t : nat) :
  (t < 24)%nat -> hdict_get (columns first) t = Ok (first + t)%nat.
Proof.
  intros H. unfold columns.
  change 24%nat with (List.length HOURS) at 1.
  apply hdict_get_combine; [apply seq_NoDup | apply HOURS_nth, H].
Qed.

(** ** The variables *)

Lemma declare_variables_eq (Lmin_t Lmax_t max_import_kW max_export_kW : pyval) :
  declare_variables (Model "Model_1b") Lmin_t Lmax_t max_import_kW max_export_kW =
  (lo <- as_float Lmin_t ;;
   hi <- as_float Lmax_t ;;
   im <- as_float max_import_kW ;;
   ex <- as_float max_export_kW ;;
   Ok (mkBuilt (mkModel "Model_1b" (declared_vars lo hi im ex) [] (Const 0) MINIMIZE)
         (columns 0) (columns 24) (columns 48) (columns 72) (columns 96)
         (columns 120) (columns 144))).
Proof.
  unfold declare_variables.
  destruct (as_float Lmin_t) as [lo|e]; [|reflexivity].
  destruct (as_float Lmax_t) as [hi|e]; [|reflexivity].
  destruct (as_float max_import_kW) as [im|e]; [|reflexivity].
  destruct (as_float max_export_kW) as [ex|e]; [|reflexivity].
  reflexivity.
Qed.

(** ** The constraints and the objective *)

Lemma with_constrs_nil (m : GRBModel) : with_constrs m [] = m.
Proof. destruct m; unfold with_constrs; simpl. rewrite app_nil_r. reflexivity. Qed.

Lemma with_constrs_app (m : GRBModel) (cs cs' : list Constr) :
  with_constrs (with_constrs m cs) cs' = with_constrs m (cs ++ cs').
Proof. unfold with_constrs; simpl. rewrite <- app_assoc. reflexivity. Qed.

Lemma add_hour_constraints_eq (Pt_PV pt Lt_ref tau_imp tau_exp : pyval)
  (t : nat) (m : GRBModel) :
  (t < 24)%nat ->
  add_hour_constraints (columns 0) (columns 24) (columns 48) (columns 72)
    (columns 96) (columns 120) (columns 144) Pt_PV pt Lt_ref tau_imp tau_exp t m =
  (blk <- read_hour Pt_PV pt Lt_ref tau_imp tau_exp t ;; Ok (with_constrs m blk)).
Proof.
  intros Ht. unfold add_hour_constraints, read_hour.
  rewrite !columns_get by exact Ht. cbn [rbind].
  destruct (getitem_int Pt_PV t) as [pv|e]; [cbn [rbind]|reflexivity].
  destruct (as_float pv) as [pvq|e]; [cbn [rbind]|reflexivity].
  destruct (getitem_int pt t) as [p|e]; [cbn [rbind]|reflexivity].
  destruct (py_add p tau_imp) as [a|e]; [cbn [rbind]|reflexivity].
  destruct (py_sub p tau_exp) as [b|e]; [cbn [rbind]|reflexivity].
  destruct (getitem_int Lt_ref t) as [r|e]; [cbn [rbind]|reflexivity].
  destruct (as_float r) as [rq|e]; [cbn [rbind]|reflexivity].
  unfold addConstr, addLConstr, with_constrs, hour_block; simpl.
  rewrite <- !app_assoc. reflexivity.
Qed.

Lemma constraint_loop_eq (Pt_PV pt Lt_ref tau_imp tau_exp : pyval)
  (hours : list nat) (m : GRBModel) :
  Forall (fun t => (t < 24)%nat) hours ->
  forM (add_hour_constraints (columns 0) (columns 24) (columns 48) (columns 72)
          (columns 96) (columns 120) (columns 144)
          Pt_PV pt Lt_ref tau_imp tau_exp) hours m =
  (cs <- mapM (read_hour Pt_PV pt Lt_ref tau_imp tau_exp) hours ;;
   Ok (with_constrs m (List.concat cs))).
Proof.
  intros H; revert m; induction H as [|t hours Ht _ IH]; intros m; simpl.
  - rewrite with_constrs_nil. reflexivity.
  - rewrite add_hour_constraints_eq by exact Ht.
    destruct (read_hour Pt_PV pt Lt_ref tau_imp tau_exp t) as [blk|e];
      [cbn [rbind]|reflexivity].
    rewrite IH.
    destruct (mapM (read_hour Pt_PV pt Lt_ref tau_imp tau_exp) hours) as [cs|e];
      [cbn [rbind]|reflexivity].
    rewrite with_constrs_app. reflexivity.
Qed.

Lemma HOURS_lt : Forall (fun t => (t < 24)%nat) HOURS.
Proof. apply Forall_forall. intros t. apply In_HOURS. Qed.

Lemma objective_terms_eq (alpha : pyval) :
  mapM (objective_term alpha (columns 120) (columns 144)) HOURS =
  (a <- as_float alpha ;; Ok (map (cost_term a) HOURS)).
Proof.
  destruct (as_float alpha) as [a|e] eqn:Ha; cbn [rbind].
  - apply mapM_total. intros t Ht. apply In_HOURS in Ht.
    unfold objective_term. rewrite Ha. cbn [rbind].
    rewrite !columns_get by exact Ht. reflexivity.
  - unfold HOURS. simpl. unfold objective_term at 1. rewrite Ha. reflexivity.
Qed.

(** [build_model] is the typed pipeline: four bounds, the 24 blocks of
    reads, the weight, and then the model in closed form. *)
Lemma build_model_eq
  (Lmin_t Lmax_t Pt_PV pt Lt_ref max_import_kW max_export_kW tau_imp tau_exp
     alpha : pyval) :
  build_model Lmin_t Lmax_t Pt_PV pt Lt_ref max_import_kW max_export_kW
    tau_imp tau_exp alpha =
  (lo <- as_float Lmin_t ;;
   hi <- as_float Lmax_t ;;
   im <- as_float max_import_kW ;;
   ex <- as_float max_export_kW ;;
   cs <- mapM (read_hour Pt_PV pt Lt_ref tau_imp tau_exp) HOURS ;;
   a <- as_float alpha ;;
   Ok (mkBuilt
         (mkModel "Model_1b" (declared_vars lo hi im ex) (List.concat cs)
            (quicksum (map (cost_term a) HOURS)) MINIMIZE)
         (columns 0) (columns 24) (columns 48) (columns 72) (columns 96)
         (columns 120) (columns 144))).
Proof.
  unfold build_model. rewrite declare_variables_eq.
  destruct (as_float Lmin_t) as [lo|e]; [cbn [rbind]|reflexivity].
  destruct (as_float Lmax_t) as [hi|e]; [cbn [rbind]|reflexivity].
  destruct (as_float max_import_kW) as [im|e]; [cbn [rbind]|reflexivity].
  destruct (as_float max_export_kW) as [ex|e]; [cbn [rbind]|reflexivity].
  cbn [b_model b_Lt b_ut b_ct b_gt_imp b_gt_exp b_HCt b_Dt update].
  unfold update. rewrite constraint_loop_eq by apply HOURS_lt.
  destruct (mapM (read_hour Pt_PV pt Lt_ref tau_imp tau_exp) HOURS) as [cs|e];
    [cbn [rbind]|reflexivity].
  rewrite objective_terms_eq.
  destruct (as_float alpha) as [a|e]; [cbn [rbind]|reflexivity].
  reflexivity.
Qed.

(** ** The effect monad *)

Lemma mbind_tell {B} (e : event) (k : unit -> M B) :
  mbind (tell e) k = (e :: fst (k tt), snd (k tt)).
Proof. unfold mbind, tell. destruct (k tt); reflexivity. Qed.

Lemma mbind_lift {A B} (r : res A) (k : A -> M B) :
  mbind (lift r) k = match r with Ok a => k a | Raise e => ([], Raise e) end.
Proof. unfold mbind, lift. destruct r as [a|e]; [destruct (k a)|]; reflexivity. Qed.

Lemma mbind_mret {A B} (a : A) (k : A -> M B) : mbind (mret a) k = k a.
Proof. unfold mbind, mret. destruct (k a); reflexivity. Qed.

Lemma mbind_fst {A B} (c : M A) (k : A -> M B) :
  fst (mbind c k) =
  fst c ++ match snd c with Ok a => fst (k a) | Raise _ => [] end.
Proof.
  destruct c as [tr [a|e]]; simpl; [destruct (k a); reflexivity|].
  rewrite app_nil_r. reflexivity.
Qed.

Lemma mbind_snd {A B} (c : M A) (k : A -> M B) :
  snd (mbind c k) = match snd c with Ok a => snd (k a) | Raise e => Raise e end.
Proof. destruct c as [tr [a|e]]; simpl; [destruct (k a)|]; reflexivity. Qed.

Lemma mbind_Ok_inv {A B} (c : M A) (k : A -> M B) (b : B) :
  snd (mbind c k) = Ok b -> exists a, snd c = Ok a /\ snd (k a) = Ok b.
Proof.
  rewrite mbind_snd. destruct (snd c) as [a|e]; [eauto | discriminate].
Qed.

(** Every event of a computation satisfies [P]. *)
Lemma all_mbind {A B} (P : event -> Prop) (c : M A) (k : A -> M B) :
  Forall P (fst c) -> (forall a, Forall P (fst (k a))) ->
  Forall P (fst (mbind c k)).
Proof.
  intros Hc Hk. rewrite mbind_fst. apply Forall_app. split; [exact Hc|].
  destruct (snd c); [apply Hk | constructor].
Qed.

Lemma all_tell (P : event -> Prop) (e : event) : P e -> Forall P (fst (tell e)).
Proof. intros H. simpl. constructor; [exact H | constructor]. Qed.

Lemma all_lift {A} (P : event -> Prop) (r : res A) : Forall P (fst (lift r)).
Proof. constructor. Qed.

Lemma all_mret {A} (P : event -> Prop) (a : A) : Forall P (fst (mret a)).
Proof. constructor. Qed.

Lemma all_plt_plot (P : event -> Prop) (xs : list nat) (ys : pyval) (l : string) :
  P (Plot xs ys l) -> Forall P (fst (plt_plot xs ys l)).
Proof.
  intros H. unfold plt_plot.
  destruct ys; try apply all_lift.
  destruct (Nat.eqb _ _); [apply all_tell, H | apply all_lift].
Qed.

Lemma all_plt_savefig (P : event -> Prop)
  (savefig : string -> list piece -> option exc) (d : string) (n : list piece) :
  P (SaveFig d n) -> Forall P (fst (plt_savefig savefig d n)).
Proof.
  intros H. unfold plt_savefig.
  destruct (savefig d n); [apply all_lift | apply all_tell, H].
Qed.

Lemma mbind_pair {A B} (tr : list event) (a : A) (k : A -> M B) :
  mbind (tr, Ok a) k = (tr ++ fst (k a), snd (k a)).
Proof. unfold mbind. destruct (k a). reflexivity. Qed.

Lemma plt_plot_eq (ys : pyval) (l : string) :
  plt_plot HOURS ys l =
  if has_24 ys then tell (Plot HOURS ys l) else lift (Raise ValueError).
Proof. destruct ys; reflexivity. Qed.

Lemma has_24_floats (f : nat -> Q) : has_24 (floats (map f HOURS)) = true.
Proof. reflexivity. Qed.

(** ** Reading the solution back *)

Lemma values_of_columns (o : Outcome) (first : nat) :
  values_of o (columns first) =
  match solution o with
  | Some s => Ok (map (fun t => X s (first + t)%nat) HOURS)
  | None => Raise AttributeError
  end.
Proof.
  unfold values_of. destruct (solution o) as [s|] eqn:Hs.
  - apply mapM_total. intros t Ht. apply In_HOURS in Ht.
    rewrite columns_get by exact Ht. cbn [rbind].
    unfold get_X. rewrite Hs. reflexivity.
  - unfold HOURS. simpl. unfold get_X. rewrite Hs. reflexivity.
Qed.

Lemma build_model_dicts
  (Lmin_t Lmax_t Pt_PV pt Lt_ref max_import_kW max_export_kW tau_imp tau_exp
     alpha : pyval) (B : Built) :
  build_model Lmin_t Lmax_t Pt_PV pt Lt_ref max_import_kW max_export_kW
    tau_imp tau_exp alpha = Ok B ->
  b_Lt B = columns 0 /\ b_ut B = columns 24 /\ b_ct B = columns 48 /\
  b_gt_imp B = columns 72 /\ b_gt_exp B = columns 96 /\
  b_HCt B = columns 120 /\ b_Dt B = columns 144.
Proof.
  rewrite build_model_eq. intros H.
  apply rbind_Ok_inv in H as (lo & _ & H).
  apply rbind_Ok_inv in H as (hi & _ & H).
  apply rbind_Ok_inv in H as (im & _ & H).
  apply rbind_Ok_inv in H as (ex & _ & H).
  apply rbind_Ok_inv in H as (cs & _ & H).
  apply rbind_Ok_inv in H as (a & _ & H).
  injection H as <-. simpl. repeat split.
Qed.

(** ** The trace of [run_model_1b] *)

Ltac trace_all :=
  repeat match goal with
  | |- Forall _ (fst (mbind _ _)) => apply all_mbind; [|intros]
  | |- Forall _ (fst (tell _)) => apply all_tell; reflexivity
  | |- Forall _ (fst (lift _)) => apply all_lift
  | |- Forall _ (fst (mret _)) => apply all_mret
  | |- Forall _ (fst (plt_plot _ _ _)) => apply all_plt_plot; reflexivity
  | |- Forall _ (fst (plt_savefig _ _ _)) => apply all_plt_savefig; reflexivity
  | |- Forall _ (fst (if ?c then _ else _)) => destruct c
  end.

Section RunTrace.

Variable optimize : GRBModel -> Outcome.
Variable savefig : string -> list piece -> option exc.

(** The directory is made first; the solver is called once, on the model
    that was built, or not at all when building raises; everything after
    is console output, drawing, and figures saved under the folder. *)
Lemma run_model_1b_trace
  (scenario Lmin_t Lmax_t Pt_PV pt Lt_ref max_import_kW max_export_kW
     tau_imp tau_exp : pyval) (alpha : option pyval) (model_prefix : option string) :
  exists rest,
    fst (run_model_1b optimize savefig scenario Lmin_t Lmax_t Pt_PV pt Lt_ref
           max_import_kW max_export_kW tau_imp tau_exp alpha model_prefix) =
    MakeDirs "src/scenario-results" ::
      match build_model Lmin_t Lmax_t Pt_PV pt Lt_ref max_import_kW
              max_export_kW tau_imp tau_exp
              (match alpha with Some a => a | None => PNum 10 end) with
      | Ok B => Optimize (b_model B) :: rest
      | Raise _ => []
      end /\
    Forall (fun e => after_solve e = true) rest.
Proof.
  unfold run_model_1b, makedirs. cbv zeta.
  rewrite mbind_tell. cbv beta. rewrite mbind_lift.
  destruct (build_model _ _ _ _ _ _ _ _ _ _) as [B|e].
  - rewrite mbind_tell. cbv beta. cbn [fst].
    eexists. split; [reflexivity|]. trace_all.
  - exists []. split; [reflexivity | constructor].
Qed.

End RunTrace.

(** * The runs of [run_model_1b], case by case *)

Ltac run_step :=
  first [ rewrite mbind_lift
        | rewrite mbind_tell
        | rewrite plt_plot_eq, ?has_24_floats ];
  cbv beta iota; cbn [fst snd].

Section RunEffects.

Variable optimize : GRBModel -> Outcome.
Variable savefig : string -> list piece -> option exc.
Variables scenario Lmin_t Lmax_t Pt_PV pt Lt_ref : pyval.
Variables max_import_kW max_export_kW tau_imp tau_exp : pyval.
Variable alpha : option pyval.
Variable model_prefix : option string.

Lemma run_model_1b_build_failure (e : exc) :
  build_model Lmin_t Lmax_t Pt_PV pt Lt_ref max_import_kW max_export_kW
    tau_imp tau_exp (match alpha with Some a => a | None => PNum 10 end) = Raise e ->
  run_model_1b optimize savefig scenario Lmin_t Lmax_t Pt_PV pt Lt_ref
    max_import_kW max_export_kW tau_imp tau_exp alpha model_prefix =
  ([MakeDirs "src/scenario-results"], Raise e).
Proof.
  intros HB. unfold run_model_1b, makedirs. cbv zeta.
  rewrite mbind_tell. cbv beta. rewrite mbind_lift, HB. reflexivity.
Qed.

(** A run whose model is built and whose solver holds a solution, with
    the point at which a plot of the wrong length or a figure that cannot
    be written stops it. *)
Lemma run_model_1b_with_solution (B : Built) (s : Solution) :
  build_model Lmin_t Lmax_t Pt_PV pt Lt_ref max_import_kW max_export_kW
    tau_imp tau_exp (match alpha with Some a => a | None => PNum 10 end) = Ok B ->
  solution (optimize (b_model B)) = Some s ->
  let o := optimize (b_model B) in
  let prefix := match model_prefix with Some p => p | None => "1b" end in
  let dir := "src/scenario-results" in
  let solved :=
    MakeDirs dir :: Optimize (b_model B) ::
      status_report o scenario ++ Figure :: solution_curves s in
  let profiles :=
    [Plot HOURS Pt_PV "PV Production (Pt_PV)";
     Plot HOURS Lt_ref "Reference Load (Lt_ref)"] in
  let first_saved :=
    [SaveFig dir (figure_name prefix scenario "-AllDecisionVariables.png"); Show; Close;
     Figure] in
  let prices := Plot HOURS pt "Energy Price" :: grid_curves s in
  let second_saved :=
    [SaveFig dir (figure_name prefix scenario "-EnergyPriceVsGrid.png"); Show; Close] in
  run_model_1b optimize savefig scenario Lmin_t Lmax_t Pt_PV pt Lt_ref
    max_import_kW max_export_kW tau_imp tau_exp alpha model_prefix =
  if has_24 Pt_PV then
    if has_24 Lt_ref then
      match savefig dir (figure_name prefix scenario "-AllDecisionVariables.png") with
      | Some e => (solved ++ profiles, Raise e)
      | None =>
          if has_24 pt then
            match savefig dir (figure_name prefix scenario "-EnergyPriceVsGrid.png") with
            | Some e => (solved ++ profiles ++ first_saved ++ prices, Raise e)
            | None =>
                (solved ++ profiles ++ first_saved ++ prices ++ second_saved,
                 Ok (result_of o s))
            end
          else (solved ++ profiles ++ first_saved, Raise ValueError)
      end
    else (solved ++ [Plot HOURS Pt_PV "PV Production (Pt_PV)"], Raise ValueError)
  else (solved, Raise ValueError).
Proof.
  intros HB Hs. cbv zeta.
  unfold run_model_1b, makedirs. cbv zeta.
  rewrite mbind_tell. cbv beta. rewrite mbind_lift, HB.
  apply build_model_dicts in HB as (-> & -> & -> & -> & -> & _ & _).
  rewrite mbind_tell. cbv beta.
  rewrite !values_of_columns, Hs.
  match goal with
  | |- context [mbind (if ?c then ?a else ?b) ?k] =>
      replace (if c then a else b)
        with (status_report (optimize (b_model B)) scenario, Ok tt)
  end.
  2:{ unfold status_report, get_ObjVal. rewrite Hs.
      destruct (Z.eqb _ GRB_OPTIMAL); [rewrite mbind_lift; reflexivity|].
      destruct (Z.eqb _ GRB_INFEASIBLE); [reflexivity|].
      destruct (Z.eqb _ GRB_UNBOUNDED); reflexivity. }
  rewrite mbind_pair. cbv beta. cbn [fst snd].
  unfold get_ObjVal. rewrite Hs.
  unfold solution_curves, grid_curves, figure_name, result_of, plt_savefig.
  unfold L_, u_, c_, g_imp_, g_exp_.
  generalize (status_report (optimize (b_model B)) scenario) as report.
  intros report.
  repeat run_step.
  destruct (has_24 Pt_PV); repeat run_step; [|reflexivity].
  destruct (has_24 Lt_ref); repeat run_step;
    [|cbn [app]; rewrite <- ?app_assoc; reflexivity].
  destruct (savefig _ [_; _; _; Lit "-AllDecisionVariables.png"]);
    repeat run_step; [cbn [app]; rewrite <- ?app_assoc; reflexivity|].
  destruct (has_24 pt); repeat run_step;
    [|cbn [app]; rewrite <- ?app_assoc; reflexivity].
  destruct (savefig _ [_; _; _; Lit "-EnergyPriceVsGrid.png"]);
    repeat run_step; [cbn [app]; rewrite <- ?app_assoc; reflexivity|].
  destruct (Z.eqb _ GRB_OPTIMAL); cbn [rbind]; cbv beta iota;
    cbn [app mret fst snd]; rewrite <- ?app_assoc; reflexivity.
Qed.

End RunEffects.

Section Run.

Variable optimize : GRBModel -> Outcome.
Variable savefig : string -> list piece -> option exc.

(** Without a solution to read, [run_model_1b] raises at line 67, after
    the status line. *)
Lemma run_model_1b_no_solution
  (scenario Lmin_t Lmax_t Pt_PV pt Lt_ref max_import_kW max_export_kW
     tau_imp tau_exp : pyval) (alpha : option pyval) (model_prefix : option string)
  (B : Built) :
  build_model Lmin_t Lmax_t Pt_PV pt Lt_ref max_import_kW max_export_kW
    tau_imp tau_exp (match alpha with Some a => a | None => PNum 10 end) = Ok B ->
  solution (optimize (b_model B)) = None ->
  run_model_1b optimize savefig scenario Lmin_t Lmax_t Pt_PV pt Lt_ref
    max_import_kW max_export_kW tau_imp tau_exp alpha model_prefix =
  (MakeDirs "src/scenario-results" :: Optimize (b_model B) ::
     status_report (optimize (b_model B)) scenario,
   Raise AttributeError).
Proof.
  intros HB Hs. unfold run_model_1b, makedirs. cbv zeta.
  rewrite mbind_tell. cbv beta. rewrite mbind_lift, HB.
  apply build_model_dicts in HB as (-> & _).
  rewrite mbind_tell. cbv beta.
  rewrite values_of_columns, Hs.
  unfold status_report, get_ObjVal. rewrite Hs.
  destruct (Z.eqb (status (optimize (b_model B))) GRB_OPTIMAL).
  - rewrite !mbind_lift. reflexivity.
  - destruct (Z.eqb (status (optimize (b_model B))) GRB_INFEASIBLE);
      [|destruct (Z.eqb (status (optimize (b_model B))) GRB_UNBOUNDED)];
      rewrite mbind_tell; cbv beta; rewrite mbind_lift; reflexivity.
Qed.

(** What [run_model_1b] returns or raises, case by case. *)
Lemma run_model_1b_result
  (scenario Lmin_t Lmax_t Pt_PV pt Lt_ref max_import_kW max_export_kW
     tau_imp tau_exp : pyval) (alpha : option pyval) (model_prefix : option string) :
  snd (run_model_1b optimize savefig scenario Lmin_t Lmax_t Pt_PV pt Lt_ref
         max_import_kW max_export_kW tau_imp tau_exp alpha model_prefix) =
  match build_model Lmin_t Lmax_t Pt_PV pt Lt_ref max_import_kW max_export_kW
          tau_imp tau_exp (match alpha with Some a => a | None => PNum 10 end) with
  | Raise e => Raise e
  | Ok B =>
      let o := optimize (b_model B) in
      let prefix := match model_prefix with Some p => p | None => "1b" end in
      match solution o with
      | None => Raise AttributeError
      | Some s =>
          if has_24 Pt_PV && has_24 Lt_ref then
            match savefig "src/scenario-results"
                    (figure_name prefix scenario "-AllDecisionVariables.png") with
            | Some e => Raise e
            | None =>
                if has_24 pt then
                  match savefig "src/scenario-results"
                          (figure_name prefix scenario "-EnergyPriceVsGrid.png") with
                  | Some e => Raise e
                  | None => Ok (result_of o s)
                  end
                else Raise ValueError
            end
          else Raise ValueError
      end
  end.
Proof.
  destruct (build_model Lmin_t Lmax_t Pt_PV pt Lt_ref max_import_kW
              max_export_kW tau_imp tau_exp
              (match alpha with Some a => a | None => PNum 10 end))
    as [B|e] eqn:HB.
  - cbv zeta. destruct (solution (optimize (b_model B))) as [s|] eqn:Hs.
    + rewrite (run_model_1b_with_solution optimize savefig scenario Lmin_t Lmax_t
                 Pt_PV pt Lt_ref max_import_kW max_export_kW tau_imp tau_exp
                 alpha model_prefix B s HB Hs).
      cbv zeta.
      destruct (has_24 Pt_PV); [|reflexivity].
      destruct (has_24 Lt_ref); [|reflexivity].
      cbn [andb].
      destruct (savefig _ (figure_name _ _ "-AllDecisionVariables.png"));
        [reflexivity|].
      destruct (has_24 pt); [|reflexivity].
      destruct (savefig _ (figure_name _ _ "-EnergyPriceVsGrid.png"));
        reflexivity.
    + rewrite (run_model_1b_no_solution scenario Lmin_t Lmax_t
                 Pt_PV pt Lt_ref max_import_kW max_export_kW tau_imp tau_exp
                 alpha model_prefix B HB Hs).
      reflexivity.
  - rewrite (run_model_1b_build_failure optimize savefig scenario Lmin_t Lmax_t
               Pt_PV pt Lt_ref max_import_kW max_export_kW tau_imp tau_exp
               alpha model_prefix e HB).
    reflexivity.
Qed.

End Run.

Section Batch.

Variable optimize : GRBModel -> Outcome.
Variable savefig : string -> list piece -> option exc.

(** The arguments [main] passes for the record [sc]. *)
Lemma scenario_step_eq (Lmin_t Lmax_t Pt_PV Lt_ref sc : pyval) (rows : list row)
  (name pt imp exp ti te : pyval) :
  getitem_str sc "scenario" = Ok name ->
  getitem_str sc "energy_price_DKK_per_kWh" = Ok pt ->
  getitem_str sc "max_import_kW" = Ok imp ->
  getitem_str sc "max_export_kW" = Ok exp ->
  getitem_str sc "import_tariff_DKK/kWh" = Ok ti ->
  getitem_str sc "export_tariff_DKK/kWh" = Ok te ->
  scenario_step optimize savefig Lmin_t Lmax_t Pt_PV Lt_ref sc rows =
  mbind (tell (Print [Lit (nl ++ "--- Running "); Fmt name ""; Lit " ---"]))
    (fun _ =>
       mbind (run_model_1b optimize savefig name Lmin_t Lmax_t Pt_PV pt Lt_ref
                imp exp ti te None (Some "1b"))
         (fun result => mret (rows ++ [mkRow name (objective result)]))).
Proof.
  intros H1 H2 H3 H4 H5 H6. unfold scenario_step.
  rewrite H1, H2, H3, H4, H5, H6.
  rewrite mbind_lift. rewrite !mbind_tell. cbv beta.
  repeat (rewrite mbind_lift; cbv beta iota).
  reflexivity.
Qed.

Lemma scenario_model_inv (Lmax_t Pt_PV Lt_ref sc : pyval) (B : Built) :
  scenario_model Lmax_t Pt_PV Lt_ref sc = Ok B ->
  exists pt imp exp ti te,
    getitem_str sc "energy_price_DKK_per_kWh" = Ok pt /\
    getitem_str sc "max_import_kW" = Ok imp /\
    getitem_str sc "max_export_kW" = Ok exp /\
    getitem_str sc "import_tariff_DKK/kWh" = Ok ti /\
    getitem_str sc "export_tariff_DKK/kWh" = Ok te /\
    build_model (PNum 0) Lmax_t Pt_PV pt Lt_ref imp exp ti te (PNum 10) = Ok B.
Proof.
  unfold scenario_model. intros H.
  apply rbind_Ok_inv in H as (pt & Hpt & H).
  apply rbind_Ok_inv in H as (imp & Himp & H).
  apply rbind_Ok_inv in H as (exp & Hexp & H).
  apply rbind_Ok_inv in H as (ti & Hti & H).
  apply rbind_Ok_inv in H as (te & Hte & H).
  exists pt, imp, exp, ti, te. auto 10.
Qed.

Lemma main_eq (bus der appl usage : pyval) (scs : list pyval)
  (Lmin_t Lmax_t Pt_PV Lt_ref : pyval) :
  load_phase appl der usage = Ok (Lmin_t, Lmax_t, Pt_PV, Lt_ref) ->
  main optimize savefig bus der appl usage (PList scs) =
  mbind (mforM (scenario_step optimize savefig Lmin_t Lmax_t Pt_PV Lt_ref) scs [])
    (fun results_summary =>
       mbind match results_summary with
             | [] => tell (Print [Lit "No results found. Please run the scenarios first."])
             | _ => mbind (tell (Print [Lit (nl ++ "===== RESULTS SUMMARY =====")]))
                      (fun _ => tell (PrintFrame results_summary))
             end
         (fun _ => mret results_summary)).
Proof.
  intros H. unfold main. rewrite H. rewrite mbind_lift. cbv iota beta.
  unfold py_iter. rewrite mbind_lift. reflexivity.
Qed.

(** A scenario that solves to optimality adds its row and nothing else
    to the summary. *)
Lemma scenario_step_optimal (Lmax_t Pt_PV Lt_ref sc : pyval)
  (rows : list row) (r : row) :
  has_24 Pt_PV = true -> has_24 Lt_ref = true ->
  optimal_for optimize savefig Lmax_t Pt_PV Lt_ref sc r ->
  snd (scenario_step optimize savefig (PNum 0) Lmax_t Pt_PV Lt_ref sc rows) =
  Ok (rows ++ [r]).
Proof.
  intros HPV Href
    (pt & B & s & Hname & Hpt & H24 & HB & Hst & Hs & Hobj & Hfig1 & Hfig2).
  apply scenario_model_inv in HB as (pt' & imp & exp & ti & te & Hpt' & Himp & Hexp & Hti & Hte & HB).
  rewrite Hpt in Hpt'. injection Hpt' as <-.
  rewrite (scenario_step_eq _ _ _ _ _ _ _ _ _ _ _ _ Hname Hpt Himp Hexp Hti Hte).
  rewrite mbind_tell. cbv beta. cbn [snd]. rewrite mbind_snd.
  rewrite run_model_1b_result. rewrite HB. cbv zeta. rewrite Hs.
  rewrite HPV, Href, H24. cbn [andb]. rewrite Hfig1, Hfig2.
  unfold mret. cbn [snd]. unfold result_of. cbn [objective].
  rewrite Hst. cbn [Z.eqb].
  destruct r as [n o]. simpl in *. rewrite Hobj. reflexivity.
Qed.

Lemma batch_optimal (Lmax_t Pt_PV Lt_ref : pyval) (scs : list pyval)
  (rows : list row) :
  has_24 Pt_PV = true -> has_24 Lt_ref = true ->
  Forall2 (optimal_for optimize savefig Lmax_t Pt_PV Lt_ref) scs rows ->
  forall done,
  snd (mforM (scenario_step optimize savefig (PNum 0) Lmax_t Pt_PV Lt_ref) scs done) =
  Ok (done ++ rows).
Proof.
  intros HPV Href H. induction H as [|sc r scs rows Hsc _ IH]; intros done.
  - simpl. rewrite app_nil_r. reflexivity.
  - cbn [mforM]. rewrite mbind_snd.
    rewrite (scenario_step_optimal _ _ _ _ _ _ HPV Href Hsc).
    rewrite IH. rewrite <- app_assoc. reflexivity.
Qed.

End Batch.

(** ** The model handed to the solver *)

Lemma submitted_after_solve (tr : list event) :
  Forall (fun e => after_solve e = true) tr -> submitted tr = [].
Proof.
  induction 1 as [|e tr He _ IH]; [reflexivity|].
  unfold submitted in *. simpl. rewrite IH.
  destruct e; try reflexivity; discriminate.
Qed.

Lemma build_model_inv
  (Lmin_t Lmax_t Pt_PV pt Lt_ref max_import_kW max_export_kW tau_imp tau_exp
     alpha : pyval) (B : Built) :
  build_model Lmin_t Lmax_t Pt_PV pt Lt_ref max_import_kW max_export_kW
    tau_imp tau_exp alpha = Ok B ->
  exists lo hi im ex cs a,
    as_float Lmin_t = Ok lo /\ as_float Lmax_t = Ok hi /\
    as_float max_import_kW = Ok im /\ as_float max_export_kW = Ok ex /\
    mapM (read_hour Pt_PV pt Lt_ref tau_imp tau_exp) HOURS = Ok cs /\
    as_float alpha = Ok a /\
    b_model B = mkModel "Model_1b" (declared_vars lo hi im ex) (List.concat cs)
                  (quicksum (map (cost_term a) HOURS)) MINIMIZE.
Proof.
  rewrite build_model_eq. intros H.
  apply rbind_Ok_inv in H as (lo & Hlo & H).
  apply rbind_Ok_inv in H as (hi & Hhi & H).
  apply rbind_Ok_inv in H as (im & Him & H).
  apply rbind_Ok_inv in H as (ex & Hex & H).
  apply rbind_Ok_inv in H as (cs & Hcs & H).
  apply rbind_Ok_inv in H as (a & Ha & H).
  injection H as <-. exists lo, hi, im, ex, cs, a. simpl. auto 10.
Qed.

Lemma read_hour_inv (Pt_PV pt Lt_ref tau_imp tau_exp : pyval) (t : nat)
  (blk : list Constr) :
  read_hour Pt_PV pt Lt_ref tau_imp tau_exp t = Ok blk ->
  num_at Pt_PV t = Ok (val (num_at Pt_PV t)) /\
  num_at pt t = Ok (val (num_at pt t)) /\
  num_at Lt_ref t = Ok (val (num_at Lt_ref t)) /\
  as_float tau_imp = Ok (val (as_float tau_imp)) /\
  as_float tau_exp = Ok (val (as_float tau_exp)) /\
  blk = hour_block (val (num_at Pt_PV t))
          (val (num_at pt t) + val (as_float tau_imp))
          (val (num_at pt t) - val (as_float tau_exp))
          (val (num_at Lt_ref t)) t.
Proof.
  unfold read_hour, num_at, py_add, py_sub. intros H.
  destruct (getitem_int Pt_PV t) as [pv|]; [cbn [rbind] in *|discriminate].
  destruct (as_float pv) as [pvq|]; [cbn [rbind] in *|discriminate].
  destruct (getitem_int pt t) as [p|]; [cbn [rbind] in *|discriminate].
  destruct (as_float p) as [pq|]; [cbn [rbind] in *|discriminate].
  destruct (as_float tau_imp) as [ti|]; [cbn [rbind] in *|discriminate].
  destruct (as_float tau_exp) as [te|]; [cbn [rbind] in *|discriminate].
  destruct (getitem_int Lt_ref t) as [r|]; [cbn [rbind] in *|discriminate].
  destruct (as_float r) as [rq|]; [cbn [rbind] in *|discriminate].
  injection H as <-. cbn [val]. repeat split.
Qed.

(** The constraints of a built model are the 24 blocks, in hour order,
    and every read behind them succeeded. *)
Lemma build_model_constraints
  (Lmin_t Lmax_t Pt_PV pt Lt_ref max_import_kW max_export_kW tau_imp tau_exp
     alpha : pyval) (B : Built) :
  build_model Lmin_t Lmax_t Pt_PV pt Lt_ref max_import_kW max_export_kW
    tau_imp tau_exp alpha = Ok B ->
  (forall t, t < 24 ->
     num_at Pt_PV t = Ok (val (num_at Pt_PV t)) /\
     num_at pt t = Ok (val (num_at pt t)) /\
     num_at Lt_ref t = Ok (val (num_at Lt_ref t)) /\
     as_float tau_imp = Ok (val (as_float tau_imp)) /\
     as_float tau_exp = Ok (val (as_float tau_exp))) /\
  m_constrs (b_model B) =
    flat_map (fun t => hour_block (val (num_at Pt_PV t))
                         (val (num_at pt t) + val (as_float tau_imp))%Q
                         (val (num_at pt t) - val (as_float tau_exp))%Q
                         (val (num_at Lt_ref t)) t) HOURS.
Proof.
  intros HB.
  apply build_model_inv in HB
    as (lo & hi & im & ex & cs & a & _ & _ & _ & _ & Hcs & _ & ->).
  cbn [m_constrs]. split.
  - intros t Ht.
    destruct (mapM_Ok_nth _ _ _ Hcs t t (HOURS_nth t Ht)) as (blk & _ & Hblk).
    apply read_hour_inv in Hblk. tauto.
  - rewrite flat_map_concat_map. f_equal.
    apply (mapM_Ok_map _ _ _ _ Hcs).
    intros t blk _ Hblk. apply read_hour_inv in Hblk. tauto.
Qed.

Lemma hour_of_column (k t : nat) : (t < 24)%nat -> hour_of (k * 24 + t) = t.
Proof.
  intros H. unfold hour_of. rewrite Nat.add_comm, Nat.Div0.mod_add.
  apply Nat.mod_small, H.
Qed.

Lemma hour_block_vars (pv a b r : Q) (t : nat) (c : Constr) (v : Var) :
  (t < 24)%nat -> In c (hour_block pv a b r t) -> In v (constr_vars c) ->
  hour_of v = t.
Proof.
  intros Ht Hc Hv. unfold hour_block in Hc. simpl in Hc.
  pose proof (hour_of_column 0 t Ht) as H0.
  pose proof (hour_of_column 1 t Ht) as H1.
  pose proof (hour_of_column 2 t Ht) as H2.
  pose proof (hour_of_column 3 t Ht) as H3.
  pose proof (hour_of_column 4 t Ht) as H4.
  pose proof (hour_of_column 5 t Ht) as H5.
  pose proof (hour_of_column 6 t Ht) as H6.
  destruct Hc as [<-|[<-|[<-|[<-|[]]]]]; unfold constr_vars in Hv; simpl in Hv;
    repeat (destruct Hv as [<-|Hv]; [assumption|]); destruct Hv.
Qed.

Lemma hour_block_holds (pv a b r : Q) (t : nat) (x : Var -> Q) :
  Forall (holds x) (hour_block pv a b r t) <->
  (x (u_ t) + x (c_ t) == pv /\
   x (u_ t) + x (g_imp_ t) == x (L_ t) + x (g_exp_ t) /\
   a * x (g_imp_ t) - b * x (g_exp_ t) == x (HC_ t) /\
   (r - x (L_ t)) ^ 2 == x (D_ t))%Q.
Proof.
  unfold hour_block. rewrite !Forall_cons_iff. unfold holds. simpl.
  split.
  - intros (H1 & H2 & H3 & H4 & _). auto.
  - intros (H1 & H2 & H3 & H4). repeat split; auto.
Qed.

Lemma eval_quicksum (x : Var -> Q) (l : list expr) (e0 : expr) :
  eval x (fold_left Plus l e0) =
  fold_left (fun acc e => acc + eval x e)%Q l (eval x e0).
Proof. revert e0; induction l as [|e l IH]; intros e0; simpl; [reflexivity|apply IH]. Qed.

Lemma fold_left_over_map {A B C} (f : A -> B -> A) (g : C -> B) (l : list C) (a : A) :
  fold_left f (map g l) a = fold_left (fun acc c => f acc (g c)) l a.
Proof. revert a; induction l as [|c l IH]; intros a; simpl; [reflexivity|apply IH]. Qed.

Lemma eval_objective (a : Q) (x : Var -> Q) :
  eval x (quicksum (map (cost_term a) HOURS)) = total_cost a x.
Proof.
  unfold quicksum, total_cost. rewrite eval_quicksum.
  rewrite fold_left_over_map. reflexivity.
Qed.

Section Submitted.

Variable optimize : GRBModel -> Outcome.
Variable savefig : string -> list piece -> option exc.
Variables scenario Lmin_t Lmax_t Pt_PV pt Lt_ref : pyval.
Variables max_import_kW max_export_kW tau_imp tau_exp : pyval.
Variable alpha : option pyval.
Variable model_prefix : option string.

Lemma run_model_1b_submitted (m : GRBModel) :
  In m (submitted (fst (run_model_1b optimize savefig scenario Lmin_t Lmax_t Pt_PV pt
                          Lt_ref max_import_kW max_export_kW tau_imp tau_exp
                          alpha model_prefix))) ->
  exists B,
    build_model Lmin_t Lmax_t Pt_PV pt Lt_ref max_import_kW max_export_kW
      tau_imp tau_exp (match alpha with Some a => a | None => PNum 10 end) = Ok B /\
    m = b_model B.
Proof.
  destruct (run_model_1b_trace optimize savefig scenario Lmin_t Lmax_t Pt_PV pt Lt_ref
              max_import_kW max_export_kW tau_imp tau_exp alpha model_prefix)
    as (rest & -> & Hrest).
  destruct (build_model _ _ _ _ _ _ _ _ _ _) as [B|e].
  - unfold submitted. simpl. fold (submitted rest).
    rewrite (submitted_after_solve rest Hrest).
    intros [<-|[]]. exists B. auto.
  - intros [].
Qed.

End Submitted.

Section ModelShape.

Variable optimize : GRBModel -> Outcome.
Variable savefig : string -> list piece -> option exc.
Variables scenario Lmin_t Lmax_t Pt_PV pt Lt_ref : pyval.
Variables max_import_kW max_export_kW tau_imp tau_exp : pyval.
Variable alpha : option pyval.
Variable model_prefix : option string.

(** C3.  Every model that [run_model_1b] hands to the solver has, for
    each hour [t] of 0..23, exactly the four constraints
    [u_t + c_t = Pt_PV[t]], [u_t + g_imp_t = L_t + g_exp_t],
    [(price_t + import_tariff) * g_imp_t - (price_t - export_tariff) *
    g_exp_t = HC_t] and [(Lt_ref[t] - L_t)^2 = D_t], in hour order and
    nothing else; a point satisfies the constraints exactly when the four
    equations hold at every hour, and no constraint mentions variables of
    two different hours. *)
Theorem hourly_constraints (m : GRBModel) :
  In m (submitted (fst (run_model_1b optimize savefig scenario Lmin_t Lmax_t Pt_PV pt
                          Lt_ref max_import_kW max_export_kW tau_imp tau_exp
                          alpha model_prefix))) ->
  let PV := fun t => val (num_at Pt_PV t) in
  let price := fun t => val (num_at pt t) in
  let ref := fun t => val (num_at Lt_ref t) in
  let ti := val (as_float tau_imp) in
  let te := val (as_float tau_exp) in
  (forall t, t < 24 ->
     num_at Pt_PV t = Ok (PV t) /\ num_at pt t = Ok (price t) /\
     num_at Lt_ref t = Ok (ref t)) /\
  as_float tau_imp = Ok ti /\
  as_float tau_exp = Ok te /\
  m_constrs m =
    flat_map (fun t => hour_block (PV t) (price t + ti)%Q (price t - te)%Q
                         (ref t) t) HOURS /\
  (forall x : Var -> Q,
     Forall (holds x) (m_constrs m) <->
     forall t, t < 24 ->
       (x (u_ t) + x (c_ t) == PV t /\
        x (u_ t) + x (g_imp_ t) == x (L_ t) + x (g_exp_ t) /\
        (price t + ti) * x (g_imp_ t) - (price t - te) * x (g_exp_ t)
          == x (HC_ t) /\
        (ref t - x (L_ t)) ^ 2 == x (D_ t))%Q) /\
  (forall c, In c (m_constrs m) ->
     exists t, t < 24 /\ forall v, In v (constr_vars c) -> hour_of v = t).
Proof.
  intros Hm PV price ref ti te.
  apply run_model_1b_submitted in Hm as (B & HB & ->).
  destruct (build_model_constraints _ _ _ _ _ _ _ _ _ _ _ HB) as (Hreads & Hshape).
  fold PV price ref ti te in Hreads, Hshape.
  split; [|split; [|split; [|split; [|split]]]].
  - intros t Ht. destruct (Hreads t Ht) as (H1 & H2 & H3 & _). auto.
  - destruct (Hreads 0 ltac:(lia)) as (_ & _ & _ & H4 & _). exact H4.
  - destruct (Hreads 0 ltac:(lia)) as (_ & _ & _ & _ & H5). exact H5.
  - exact Hshape.
  - intros x. rewrite Hshape, Forall_flat_map, Forall_forall.
    split.
    + intros H t Ht. apply hour_block_holds, H, In_HOURS, Ht.
    + intros H t Ht. apply hour_block_holds, H, In_HOURS, Ht.
  - intros c Hc. rewrite Hshape in Hc. apply in_flat_map in Hc as (t & Ht & Hc).
    apply In_HOURS in Ht. exists t. split; [exact Ht|].
    intros v Hv. eapply hour_block_vars; eauto.
Qed.

(** C4.  The objective of every model that [run_model_1b] hands to the
    solver is to minimise the sum over the 24 hours of
    [alpha * D_t + HC_t], and [alpha] is 10 when the caller gives none. *)
Theorem objective_is_weighted_sum (m : GRBModel) :
  In m (submitted (fst (run_model_1b optimize savefig scenario Lmin_t Lmax_t Pt_PV pt
                          Lt_ref max_import_kW max_export_kW tau_imp tau_exp
                          alpha model_prefix))) ->
  exists a : Q,
    as_float (match alpha with Some v => v | None => PNum 10 end) = Ok a /\
    (alpha = None -> a = 10%Q) /\
    m_sense m = MINIMIZE /\
    m_obj m = quicksum (map (fun t => Plus (Scale a (V (D_ t))) (V (HC_ t))) HOURS) /\
    (forall x : Var -> Q,
       eval x (m_obj m) =
       fold_left (fun acc t => acc + (a * x (D_ t) + x (HC_ t)))%Q HOURS 0%Q).
Proof.
  intros Hm.
  apply run_model_1b_submitted in Hm as (B & HB & ->).
  apply build_model_inv in HB
    as (lo & hi & im & ex & cs & a & _ & _ & _ & _ & _ & Ha & ->).
  exists a. cbn [m_sense m_obj].
  split; [exact Ha|]. split; [|split; [reflexivity|split; [reflexivity|]]].
  - intros ->. cbn in Ha. injection Ha as <-. reflexivity.
  - intros x. apply eval_objective.
Qed.

End ModelShape.

(** ** Views of the trace of a run *)

Lemma submitted_app (a b : list event) :
  submitted (a ++ b) = submitted a ++ submitted b.
Proof. apply flat_map_app. Qed.

Lemma figures_saved_app (a b : list event) :
  figures_saved (a ++ b) = figures_saved a ++ figures_saved b.
Proof. apply flat_map_app. Qed.

Lemma console_app (a b : list event) : console (a ++ b) = console a ++ console b.
Proof. apply filter_app. Qed.

Lemma status_report_views (o : Outcome) (scenario : pyval) :
  submitted (status_report o scenario) = [] /\
  figures_saved (status_report o scenario) = [] /\
  console (status_report o scenario) = status_report o scenario.
Proof.
  unfold status_report.
  destruct (Z.eqb (status o) GRB_OPTIMAL);
    [destruct (solution o)
    |destruct (Z.eqb (status o) GRB_INFEASIBLE);
      [|destruct (Z.eqb (status o) GRB_UNBOUNDED)]];
    repeat split.
Qed.

Section RunViews.

Variable optimize : GRBModel -> Outcome.
Variable savefig : string -> list piece -> option exc.
Variables scenario Lmin_t Lmax_t Pt_PV pt Lt_ref : pyval.
Variables max_import_kW max_export_kW tau_imp tau_exp : pyval.
Variable alpha : option pyval.
Variable model_prefix : option string.

Local Abbreviation run :=
  (run_model_1b optimize savefig scenario Lmin_t Lmax_t Pt_PV pt Lt_ref
     max_import_kW max_export_kW tau_imp tau_exp alpha model_prefix).

Local Abbreviation built :=
  (build_model Lmin_t Lmax_t Pt_PV pt Lt_ref max_import_kW max_export_kW
     tau_imp tau_exp (match alpha with Some a => a | None => PNum 10 end)).

(** The solver is called once, on the model that was built. *)
Lemma run_model_1b_submitted_list :
  submitted (fst run) =
  match built with
  | Ok B => [b_model B]
  | Raise _ => []
  end.
Proof.
  destruct (run_model_1b_trace optimize savefig scenario Lmin_t Lmax_t Pt_PV pt Lt_ref
              max_import_kW max_export_kW tau_imp tau_exp alpha model_prefix)
    as (rest & -> & Hrest).
  destruct (build_model _ _ _ _ _ _ _ _ _ _) as [B|e]; [|reflexivity].
  unfold submitted. simpl. fold (submitted rest).
  rewrite (submitted_after_solve rest Hrest). reflexivity.
Qed.

(** What a run prints: the status line of the solve, and nothing when
    the model could not be built. *)
Lemma run_model_1b_console :
  console (fst run) =
  match built with
  | Ok B => status_report (optimize (b_model B)) scenario
  | Raise _ => []
  end.
Proof.
  destruct (build_model _ _ _ _ _ _ _ _ _ _) as [B|e] eqn:HB.
  - destruct (status_report_views (optimize (b_model B)) scenario)
      as (_ & _ & Hc).
    destruct (solution (optimize (b_model B))) as [s|] eqn:Hs.
    + rewrite (run_model_1b_with_solution optimize savefig scenario Lmin_t Lmax_t
                 Pt_PV pt Lt_ref max_import_kW max_export_kW tau_imp tau_exp
                 alpha model_prefix B s HB Hs).
      destruct (has_24 Pt_PV);
        [destruct (has_24 Lt_ref);
         [destruct (savefig _ (figure_name _ _ "-AllDecisionVariables.png"));
          [|destruct (has_24 pt);
            [destruct (savefig _ (figure_name _ _ "-EnergyPriceVsGrid.png"))|]]|]|];
        cbn [fst app]; unfold console, solution_curves, grid_curves in *;
        cbn [filter]; rewrite ?filter_app, Hc; cbn [filter app];
        rewrite ?app_nil_r; reflexivity.
    + rewrite (run_model_1b_no_solution optimize savefig scenario Lmin_t Lmax_t
                 Pt_PV pt Lt_ref max_import_kW max_export_kW tau_imp tau_exp
                 alpha model_prefix B HB Hs).
      cbn [fst]. unfold console in *. cbn [filter]. exact Hc.
  - rewrite (run_model_1b_build_failure optimize savefig scenario Lmin_t Lmax_t
               Pt_PV pt Lt_ref max_import_kW max_export_kW tau_imp tau_exp
               alpha model_prefix e HB).
    reflexivity.
Qed.


End RunViews.

(** ** The declared variables, column by column *)

Lemma nth_error_skip {A} (l1 l2 : list A) (k t : nat) :
  List.length l1 = k -> nth_error (l1 ++ l2) (k + t) = nth_error l2 t.
Proof.
  intros <-. induction l1 as [|a l1 IH]; simpl; [reflexivity | exact IH].
Qed.

Lemma family_length (lb ub : xfloat) (name : nat -> string) :
  List.length (family lb ub name) = 24.
Proof. reflexivity. Qed.

Lemma family_nth (lb ub : xfloat) (name : nat -> string) (rest : list VarDecl)
  (t : nat) :
  t < 24 ->
  nth_error (family lb ub name ++ rest) t = Some (mkVar lb ub CONTINUOUS (name t)).
Proof.
  intros Ht. rewrite nth_error_app1 by (rewrite family_length; exact Ht).
  unfold family. rewrite nth_error_map, (HOURS_nth t Ht). reflexivity.
Qed.

Ltac skip_family :=
  rewrite (nth_error_skip _ _ 24) by apply family_length.

Lemma declared_vars_columns (lo hi im ex : Q) (t : nat) :
  t < 24 ->
  nth_error (declared_vars lo hi im ex) (L_ t) =
    Some (mkVar (Fin lo) (Fin hi) CONTINUOUS ("L" ++ str_of_nat t)) /\
  nth_error (declared_vars lo hi im ex) (u_ t) =
    Some (mkVar (Fin 0) PosInf CONTINUOUS ("u" ++ str_of_nat t)) /\
  nth_error (declared_vars lo hi im ex) (c_ t) =
    Some (mkVar (Fin 0) PosInf CONTINUOUS ("c" ++ str_of_nat t)) /\
  nth_error (declared_vars lo hi im ex) (g_imp_ t) =
    Some (mkVar (Fin 0) (Fin im) CONTINUOUS ("g" ++ str_of_nat t ++ "_imp")) /\
  nth_error (declared_vars lo hi im ex) (g_exp_ t) =
    Some (mkVar (Fin 0) (Fin ex) CONTINUOUS ("g" ++ str_of_nat t ++ "_exp")) /\
  nth_error (declared_vars lo hi im ex) (HC_ t) =
    Some (mkVar NegInf PosInf CONTINUOUS ("HC" ++ str_of_nat t)) /\
  nth_error (declared_vars lo hi im ex) (D_ t) =
    Some (mkVar (Fin 0) PosInf CONTINUOUS ("D" ++ str_of_nat t)).
Proof.
  intros Ht. unfold declared_vars, L_, u_, c_, g_imp_, g_exp_, HC_, D_.
  repeat split.
  - apply family_nth, Ht.
  - skip_family. apply family_nth, Ht.
  - change (48 + t) with (24 + (24 + t)).
    do 2 skip_family. apply family_nth, Ht.
  - change (72 + t) with (24 + (24 + (24 + t))).
    do 3 skip_family. apply family_nth, Ht.
  - change (96 + t) with (24 + (24 + (24 + (24 + t)))).
    do 4 skip_family. apply family_nth, Ht.
  - change (120 + t) with (24 + (24 + (24 + (24 + (24 + t))))).
    do 5 skip_family. apply family_nth, Ht.
  - change (144 + t) with (24 + (24 + (24 + (24 + (24 + (24 + t)))))).
    do 6 skip_family.
    rewrite <- (app_nil_r (family _ _ _)). apply family_nth, Ht.
Qed.

(** ** The trace of the batch *)

Lemma all_mforM {A S} (P : event -> Prop) (f : A -> S -> M S) (l : list A) :
  (forall a, In a l -> forall s, Forall P (fst (f a s))) ->
  forall s, Forall P (fst (mforM f l s)).
Proof.
  induction l as [|a l IH]; intros H s; simpl.
  - constructor.
  - apply all_mbind.
    + apply H. left. reflexivity.
    + intros s'. apply IH. intros a' Ha'. apply H. right. exact Ha'.
Qed.

Lemma submitted_Forall (Q : GRBModel -> Prop) (tr : list event) :
  Forall (fun e => match e with Optimize m => Q m | _ => True end) tr ->
  forall m, In m (submitted tr) -> Q m.
Proof.
  induction 1 as [|e tr He _ IH]; intros m Hm; [destruct Hm|].
  unfold submitted in Hm. simpl in Hm. apply in_app_or in Hm as [Hm|Hm].
  - destruct e; try destruct Hm as [<-|[]]; try destruct Hm. exact He.
  - apply IH, Hm.
Qed.

Section BatchTrace.

Variable optimize : GRBModel -> Outcome.
Variable savefig : string -> list piece -> option exc.

(** A pass of the loop hands one model to the solver, the model of its
    scenario record, or none, and then it raises. *)
Lemma scenario_step_submits (Lmax_t Pt_PV Lt_ref sc : pyval) (rows : list row) :
  (exists B,
     scenario_model Lmax_t Pt_PV Lt_ref sc = Ok B /\
     submitted (fst (scenario_step optimize savefig (PNum 0) Lmax_t Pt_PV Lt_ref
                       sc rows)) = [b_model B]) \/
  (submitted (fst (scenario_step optimize savefig (PNum 0) Lmax_t Pt_PV Lt_ref
                     sc rows)) = [] /\
   exists e,
     snd (scenario_step optimize savefig (PNum 0) Lmax_t Pt_PV Lt_ref sc rows) =
     Raise e).
Proof.
  unfold scenario_step, scenario_model.
  destruct (getitem_str sc "scenario") as [name|e];
    [|right; rewrite mbind_lift; split; [reflexivity | eexists; reflexivity]].
  rewrite mbind_lift, mbind_tell. cbv beta. cbn [fst snd].
  change (submitted (?e :: ?l)) with (submitted [e] ++ submitted l).
  cbn [submitted flat_map app].
  rewrite mbind_lift. cbv beta iota.
  destruct (getitem_str sc "energy_price_DKK_per_kWh") as [pt|e];
    rewrite mbind_lift; cbv beta iota;
    [|right; split; [reflexivity | eexists; reflexivity]].
  destruct (getitem_str sc "max_import_kW") as [imp|e];
    rewrite mbind_lift; cbv beta iota;
    [|right; split; [reflexivity | eexists; reflexivity]].
  destruct (getitem_str sc "max_export_kW") as [exp|e];
    rewrite mbind_lift; cbv beta iota;
    [|right; split; [reflexivity | eexists; reflexivity]].
  destruct (getitem_str sc "import_tariff_DKK/kWh") as [ti|e];
    rewrite mbind_lift; cbv beta iota;
    [|right; split; [reflexivity | eexists; reflexivity]].
  destruct (getitem_str sc "export_tariff_DKK/kWh") as [te|e];
    rewrite mbind_lift; cbv beta iota;
    [|right; split; [reflexivity | eexists; reflexivity]].
  cbn [rbind]. rewrite mbind_fst, mbind_snd, submitted_app.
  rewrite run_model_1b_submitted_list.
  destruct (build_model (PNum 0) Lmax_t Pt_PV pt Lt_ref imp exp ti te (PNum 10))
    as [B|e] eqn:HB.
  - left. exists B. split; [reflexivity|].
    destruct (snd (run_model_1b _ _ _ _ _ _ _ _ _ _ _ _ _ _));
      [rewrite mbind_lift|]; reflexivity.
  - right.
    rewrite (run_model_1b_build_failure optimize savefig name (PNum 0) Lmax_t
               Pt_PV pt Lt_ref imp exp ti te None (Some "1b") e HB).
    cbn [snd]. split; [reflexivity | eexists; reflexivity].
Qed.

(** The models the loop hands to the solver are those of the first
    scenario records of the list, one each and in the order of the list. *)
Lemma batch_submitted_at (Lmax_t Pt_PV Lt_ref : pyval) (scs : list pyval) :
  forall (done : list row) (i : nat) (m : GRBModel),
  nth_error
    (submitted
       (fst (mforM (scenario_step optimize savefig (PNum 0) Lmax_t Pt_PV Lt_ref)
               scs done))) i = Some m ->
  exists sc B,
    nth_error scs i = Some sc /\
    scenario_model Lmax_t Pt_PV Lt_ref sc = Ok B /\
    m = b_model B.
Proof.
  induction scs as [|sc scs IH]; intros done i m Hm.
  - destruct i; discriminate Hm.
  - cbn [mforM] in Hm. rewrite mbind_fst, submitted_app in Hm.
    destruct (scenario_step_submits Lmax_t Pt_PV Lt_ref sc done)
      as [(B & HB & Hsub)|(Hsub & e & Hraise)]; rewrite Hsub in Hm.
    + destruct i as [|i]; cbn [app nth_error] in Hm.
      * injection Hm as <-. exists sc, B. auto.
      * destruct (snd (scenario_step _ _ _ _ _ _ _ _)) as [rows1|e].
        -- apply IH in Hm as (sc' & B' & Hsc' & HB' & ->).
           exists sc', B'. auto.
        -- destruct i; discriminate Hm.
    + rewrite Hraise in Hm. destruct i; discriminate Hm.
Qed.

(** C5.  The [i]-th model the batch hands to the solver is the model of
    the [i]-th scenario record of the list, and it declares, for each
    hour [t], [L_t] in [[0, Lmax_t]] (the lower bound [Lmin_t] is the 0.0
    of line 139), [g_imp_t] in [[0, max_import_kW]], [g_exp_t] in
    [[0, max_export_kW]], [u_t], [c_t] and [D_t] in [[0, +inf)], and
    [HC_t] in [(-inf, +inf)]; these are all its variables.  [Lmax_t] is
    the appliance value of the load phase and the two caps are those of
    that scenario record. *)
Theorem declared_bounds (bus der appl usage scenarios : pyval) (i : nat)
  (m : GRBModel) :
  nth_error (submitted (fst (main optimize savefig bus der appl usage scenarios))) i =
    Some m ->
  exists (Lmax_v Pt_PV Lt_ref sc imp_v exp_v : pyval) (scs : list pyval)
         (B : Built) (Lmax imp exp : Q),
    load_phase appl der usage = Ok (PNum 0, Lmax_v, Pt_PV, Lt_ref) /\
    as_float Lmax_v = Ok Lmax /\
    py_iter scenarios = Ok scs /\ nth_error scs i = Some sc /\
    scenario_model Lmax_v Pt_PV Lt_ref sc = Ok B /\ m = b_model B /\
    getitem_str sc "max_import_kW" = Ok imp_v /\ as_float imp_v = Ok imp /\
    getitem_str sc "max_export_kW" = Ok exp_v /\ as_float exp_v = Ok exp /\
    List.length (m_vars m) = 7 * 24 /\
    forall t, t < 24 ->
      nth_error (m_vars m) (L_ t) =
        Some (mkVar (Fin 0) (Fin Lmax) CONTINUOUS ("L" ++ str_of_nat t)) /\
      nth_error (m_vars m) (u_ t) =
        Some (mkVar (Fin 0) PosInf CONTINUOUS ("u" ++ str_of_nat t)) /\
      nth_error (m_vars m) (c_ t) =
        Some (mkVar (Fin 0) PosInf CONTINUOUS ("c" ++ str_of_nat t)) /\
      nth_error (m_vars m) (g_imp_ t) =
        Some (mkVar (Fin 0) (Fin imp) CONTINUOUS ("g" ++ str_of_nat t ++ "_imp")) /\
      nth_error (m_vars m) (g_exp_ t) =
        Some (mkVar (Fin 0) (Fin exp) CONTINUOUS ("g" ++ str_of_nat t ++ "_exp")) /\
      nth_error (m_vars m) (HC_ t) =
        Some (mkVar NegInf PosInf CONTINUOUS ("HC" ++ str_of_nat t)) /\
      nth_error (m_vars m) (D_ t) =
        Some (mkVar (Fin 0) PosInf CONTINUOUS ("D" ++ str_of_nat t)).
Proof.
  unfold main.
  destruct (load_phase appl der usage) as [[[[Lmin_t Lmax_v] Pt_PV] Lt_ref]|e] eqn:Hload;
    [|rewrite mbind_lift; destruct i; discriminate].
  assert (Lmin_t = PNum 0) as ->.
  { unfold load_phase in Hload.
    repeat match type of Hload with
           | rbind ?c _ = Ok _ => destruct c; cbn [rbind] in Hload; [|discriminate]
           end.
    injection Hload as <- _ _ _. reflexivity. }
  rewrite mbind_lift. cbv beta iota.
  destruct (py_iter scenarios) as [scs|e] eqn:Hiter;
    [|rewrite mbind_lift; destruct i; discriminate].
  rewrite mbind_lift, mbind_fst, submitted_app.
  replace (submitted
             match snd (mforM (scenario_step optimize savefig (PNum 0) Lmax_v Pt_PV
                                 Lt_ref) scs []) with
             | Ok a => _
             | Raise _ => []
             end) with (@nil GRBModel).
  2:{ destruct (snd (mforM _ _ _)) as [rows|e]; [|reflexivity].
      destruct rows; [reflexivity|]. rewrite mbind_fst, mbind_tell. reflexivity. }
  rewrite app_nil_r. intros Hm.
  apply batch_submitted_at in Hm as (sc & B & Hsc & HB & ->).
  pose proof HB as HB'.
  apply scenario_model_inv in HB'
    as (pt & imp_v & exp_v & ti & te & _ & Himp & Hexp & _ & _ & HB').
  apply build_model_inv in HB'
    as (lo & hi & im & ex & cs & a & Hlo & Hhi & Him & Hex & _ & _ & Hmodel).
  cbn in Hlo. injection Hlo as <-.
  exists Lmax_v, Pt_PV, Lt_ref, sc, imp_v, exp_v, scs, B, hi, im, ex.
  rewrite Hmodel. cbn [m_vars].
  repeat (split; [assumption || reflexivity|]).
  intros t Ht. apply declared_vars_columns, Ht.
Qed.

End BatchTrace.

(** ** What [run_model_1b] returns *)

Section Results.

Variable optimize : GRBModel -> Outcome.
Variable savefig : string -> list piece -> option exc.
Variables scenario Lmin_t Lmax_t Pt_PV pt Lt_ref : pyval.
Variables max_import_kW max_export_kW tau_imp tau_exp : pyval.
Variable alpha : option pyval.
Variable model_prefix : option string.

Lemma run_model_1b_Ok_inv (r : ScenarioResult) :
  snd (run_model_1b optimize savefig scenario Lmin_t Lmax_t Pt_PV pt Lt_ref
         max_import_kW max_export_kW tau_imp tau_exp alpha model_prefix) = Ok r ->
  exists B s,
    build_model Lmin_t Lmax_t Pt_PV pt Lt_ref max_import_kW max_export_kW
      tau_imp tau_exp (match alpha with Some a => a | None => PNum 10 end) = Ok B /\
    solution (optimize (b_model B)) = Some s /\
    r = result_of (optimize (b_model B)) s.
Proof.
  rewrite run_model_1b_result.
  destruct (build_model _ _ _ _ _ _ _ _ _ _) as [B|e] eqn:HB; [|discriminate].
  cbv zeta.
  destruct (solution (optimize (b_model B))) as [s|] eqn:Hs; [|discriminate].
  destruct (has_24 Pt_PV && has_24 Lt_ref); [|discriminate].
  destruct (savefig _ (figure_name _ _ "-AllDecisionVariables.png"));
    [discriminate|].
  destruct (has_24 pt); [|discriminate].
  destruct (savefig _ (figure_name _ _ "-EnergyPriceVsGrid.png"));
    [discriminate|].
  intros H. injection H as <-. exists B, s. auto.
Qed.

(** C6.  In the result [run_model_1b] returns, [objective] is [None]
    exactly when the status of the solve is not OPTIMAL, and it is the
    solver's [ObjVal] when the status is OPTIMAL. *)
Theorem objective_null_iff_not_optimal (r : ScenarioResult) :
  snd (run_model_1b optimize savefig scenario Lmin_t Lmax_t Pt_PV pt Lt_ref
         max_import_kW max_export_kW tau_imp tau_exp alpha model_prefix) = Ok r ->
  exists B s,
    build_model Lmin_t Lmax_t Pt_PV pt Lt_ref max_import_kW max_export_kW
      tau_imp tau_exp (match alpha with Some a => a | None => PNum 10 end) = Ok B /\
    solution (optimize (b_model B)) = Some s /\
    (objective r = None <-> status (optimize (b_model B)) <> GRB_OPTIMAL) /\
    (status (optimize (b_model B)) = GRB_OPTIMAL -> objective r = Some (ObjVal s)).
Proof.
  intros H. apply run_model_1b_Ok_inv in H as (B & s & HB & Hs & ->).
  exists B, s. split; [exact HB|]. split; [exact Hs|].
  unfold result_of. cbn [objective].
  destruct (Z.eqb_spec (status (optimize (b_model B))) GRB_OPTIMAL) as [He|Hne].
  - split; [|reflexivity]. split; [discriminate | contradiction].
  - split; [|contradiction]. split; [intros _; exact Hne | reflexivity].
Qed.

(** C9.  In the result [run_model_1b] returns, each of the five
    trajectories has 24 entries, and entry [t] is the value [X] the
    solver holds for the variable of hour [t] of its own family: [Lt[t]]
    is the variable named "L<t>" of the solved model, [ut[t]] the one
    named "u<t>", [ct[t]] "c<t>", [gt_imp[t]] "g<t>_imp" and [gt_exp[t]]
    "g<t>_exp", for [t] = 0..23 in this order. *)
Theorem trajectories_have_24_entries (r : ScenarioResult) :
  snd (run_model_1b optimize savefig scenario Lmin_t Lmax_t Pt_PV pt Lt_ref
         max_import_kW max_export_kW tau_imp tau_exp alpha model_prefix) = Ok r ->
  exists B s,
    build_model Lmin_t Lmax_t Pt_PV pt Lt_ref max_import_kW max_export_kW
      tau_imp tau_exp (match alpha with Some a => a | None => PNum 10 end) = Ok B /\
    solution (optimize (b_model B)) = Some s /\
    (Lt_values r = map (fun t => X s (L_ t)) HOURS /\
     ut_values r = map (fun t => X s (u_ t)) HOURS /\
     ct_values r = map (fun t => X s (c_ t)) HOURS /\
     gt_imp_values r = map (fun t => X s (g_imp_ t)) HOURS /\
     gt_exp_values r = map (fun t => X s (g_exp_ t)) HOURS) /\
    (List.length (Lt_values r) = 24 /\ List.length (ut_values r) = 24 /\
     List.length (ct_values r) = 24 /\ List.length (gt_imp_values r) = 24 /\
     List.length (gt_exp_values r) = 24) /\
    forall t, t < 24 ->
      (nth_error (Lt_values r) t = Some (X s (L_ t)) /\
       hdict_get (b_Lt B) t = Ok (L_ t) /\
       option_map v_name (nth_error (m_vars (b_model B)) (L_ t)) =
         Some ("L" ++ str_of_nat t)%string) /\
      (nth_error (ut_values r) t = Some (X s (u_ t)) /\
       hdict_get (b_ut B) t = Ok (u_ t) /\
       option_map v_name (nth_error (m_vars (b_model B)) (u_ t)) =
         Some ("u" ++ str_of_nat t)%string) /\
      (nth_error (ct_values r) t = Some (X s (c_ t)) /\
       hdict_get (b_ct B) t = Ok (c_ t) /\
       option_map v_name (nth_error (m_vars (b_model B)) (c_ t)) =
         Some ("c" ++ str_of_nat t)%string) /\
      (nth_error (gt_imp_values r) t = Some (X s (g_imp_ t)) /\
       hdict_get (b_gt_imp B) t = Ok (g_imp_ t) /\
       option_map v_name (nth_error (m_vars (b_model B)) (g_imp_ t)) =
         Some ("g" ++ str_of_nat t ++ "_imp")%string) /\
      (nth_error (gt_exp_values r) t = Some (X s (g_exp_ t)) /\
       hdict_get (b_gt_exp B) t = Ok (g_exp_ t) /\
       option_map v_name (nth_error (m_vars (b_model B)) (g_exp_ t)) =
         Some ("g" ++ str_of_nat t ++ "_exp")%string).
Proof.
  intros H. apply run_model_1b_Ok_inv in H as (B & s & HB & Hs & ->).
  exists B, s. split; [exact HB|]. split; [exact Hs|].
  unfold result_of.
  cbn [Lt_values ut_values ct_values gt_imp_values gt_exp_values].
  split; [repeat split|]. split; [repeat split|].
  intros t Ht.
  pose proof HB as Hd.
  apply build_model_dicts in Hd as (-> & -> & -> & -> & -> & _ & _).
  apply build_model_inv in HB
    as (lo & hi & im & ex & cs & a & _ & _ & _ & _ & _ & _ & ->).
  cbn [m_vars].
  destruct (declared_vars_columns lo hi im ex t Ht)
    as (-> & -> & -> & -> & -> & _ & _).
  rewrite !columns_get by exact Ht.
  rewrite !nth_error_map, (HOURS_nth t Ht). cbn [option_map v_name].
  repeat split.
Qed.

End Results.

(** ** The summary *)

Section Summary.

Variable optimize : GRBModel -> Outcome.
Variable savefig : string -> list piece -> option exc.

(** C7 (amended).  When the load phase succeeds, the PV profile, the
    reference load and the price curve of every scenario are lists of
    exactly 24 entries, every scenario record of the list solves to
    optimality and its two figures can be written, [main] ends with a
    summary of exactly one row per scenario, in the order of the list:
    row [i] carries the name and the objective of scenario [i], and it is
    this table that is printed last. *)
Theorem summary_has_one_row_per_scenario
  (bus der appl usage : pyval) (scs : list pyval)
  (Lmax_t Pt_PV Lt_ref : pyval) (rows : list row) :
  load_phase appl der usage = Ok (PNum 0, Lmax_t, Pt_PV, Lt_ref) ->
  has_24 Pt_PV = true ->
  has_24 Lt_ref = true ->
  Forall2 (optimal_for optimize savefig Lmax_t Pt_PV Lt_ref) scs rows ->
  snd (main optimize savefig bus der appl usage (PList scs)) = Ok rows /\
  List.length rows = List.length scs /\
  (forall i sc, nth_error scs i = Some sc ->
     exists r, nth_error rows i = Some r /\
               getitem_str sc "scenario" = Ok (Scenario r) /\
               Primal_Objective r <> None) /\
  (scs <> [] ->
     exists tr, fst (main optimize savefig bus der appl usage (PList scs)) =
                tr ++ [PrintFrame rows]).
Proof.
  intros Hload HPV Href Hall.
  pose proof (batch_optimal optimize savefig Lmax_t Pt_PV Lt_ref scs rows HPV Href Hall [])
    as Hloop.
  cbn [app] in Hloop.
  rewrite (main_eq optimize savefig bus der appl usage scs _ _ _ _ Hload).
  split; [|split; [|split]].
  - rewrite mbind_snd, Hloop, mbind_snd.
    destruct rows; reflexivity.
  - symmetry. eapply Forall2_length; eauto.
  - clear Hloop. induction Hall as [|sc r scs rows Hsc _ IH]; intros i sc' Hi.
    + destruct i; discriminate.
    + destruct i as [|i]; cbn in Hi.
      * injection Hi as <-. exists r. split; [reflexivity|].
        destruct Hsc as (pt & B & s & Hname & _ & _ & _ & _ & _ & Hobj & _ & _).
        split; [exact Hname|]. rewrite Hobj. discriminate.
      * apply IH, Hi.
  - intros Hne.
    rewrite mbind_fst, Hloop.
    destruct rows as [|r rows].
    + inversion Hall; subst. contradiction.
    + rewrite mbind_fst. cbn [snd fst mret]. rewrite mbind_tell.
      cbn [fst snd tell]. rewrite app_nil_r.
      exists (fst (mforM (scenario_step optimize savefig (PNum 0) Lmax_t Pt_PV Lt_ref) scs [])
              ++ [Print [Lit (nl ++ "===== RESULTS SUMMARY =====")]]).
      rewrite <- app_assoc. reflexivity.
Qed.

(** C8.  On the empty scenario list, once the load phase has succeeded,
    [main] produces no summary row and prints the no-results message and
    nothing else: no summary table. *)
Theorem empty_list_reports_no_results
  (bus der appl usage : pyval) (loaded : pyval * pyval * pyval * pyval) :
  load_phase appl der usage = Ok loaded ->
  main optimize savefig bus der appl usage (PList []) =
  ([Print [Lit "No results found. Please run the scenarios first."]], Ok []).
Proof.
  intros Hload. destruct loaded as [[[Lmin_t Lmax_t] Pt_PV] Lt_ref].
  rewrite (main_eq optimize savefig bus der appl usage [] _ _ _ _ Hload).
  reflexivity.
Qed.

End Summary.

(** ** Outcomes without a solution *)

Lemma negative_pv_infeasible (B : Built) (x : Var -> Q) :
  scenario_model (PNum 3) negative_pv (profile 1 24) sc_base = Ok B ->
  ~ feasible (b_model B) x.
Proof.
  intros HB (Hbounds & Hcs).
  apply scenario_model_inv in HB
    as (pt & imp & exp & ti & te & _ & _ & _ & _ & _ & HB).
  destruct (build_model_constraints _ _ _ _ _ _ _ _ _ _ _ HB) as (_ & Hshape).
  apply build_model_inv in HB
    as (lo & hi & im & ex & cs & a & _ & _ & _ & _ & _ & _ & Hm).
  rewrite Hshape in Hcs. rewrite Forall_flat_map, Forall_forall in Hcs.
  specialize (Hcs 0 ltac:(apply In_HOURS; lia)).
  apply hour_block_holds in Hcs as (Hpv & _).
  change (val (num_at negative_pv 0)) with (-1)%Q in Hpv.
  rewrite Hm in Hbounds. cbn [m_vars] in Hbounds.
  destruct (declared_vars_columns lo hi im ex 0 ltac:(lia))
    as (_ & Hu & Hc & _).
  apply Hbounds in Hu as (Hu & _). apply Hbounds in Hc as (Hc & _).
  unfold within, above, v_lb in Hu, Hc. unfold u_, c_ in *. cbn [Nat.add] in *. lra.
Qed.

Lemma scenario_model_record (Lmax_t Pt_PV Lt_ref : pyval) (name : string)
  (price : pyval) (imp exp tau_i tau_e : Q) :
  scenario_model Lmax_t Pt_PV Lt_ref (scenario_record name price imp exp tau_i tau_e) =
  build_model (PNum 0) Lmax_t Pt_PV price Lt_ref (PNum imp) (PNum exp)
    (PNum tau_i) (PNum tau_e) (PNum 10).
Proof. reflexivity. Qed.

Lemma mbind_raise {A B} (tr : list event) (e : exc) (k : A -> M B) :
  mbind (tr, Raise e) k = (tr, Raise e).
Proof. reflexivity. Qed.

Section NoSolution.

Variable optimize : GRBModel -> Outcome.
Variable savefig : string -> list piece -> option exc.

(** C1 (the code against the claim).  On a PV profile with a negative
    first hour the model of scenario "Base" has no feasible point, so a
    sound solver holds no solution for it; [run_model_1b] then raises
    [AttributeError] at line 67, right after the status line, and the
    batch stops there: the second scenario is never run and no summary
    is printed. *)
Theorem infeasible_scenario_aborts_batch :
  sound optimize ->
  exists B,
    scenario_model (PNum 3) negative_pv (profile 1 24) sc_base = Ok B /\
    (forall x, ~ feasible (b_model B) x) /\
    sample_main optimize negative_pv [sc_base; sc_high] =
    ([Print [Lit (nl ++ "--- Running "); Fmt (PStr "Base") ""; Lit " ---"];
      MakeDirs "src/scenario-results";
      Optimize (b_model B)]
       ++ status_report (optimize (b_model B)) (PStr "Base"),
     Raise AttributeError).
Proof.
  intros Hsound.
  assert (HB : exists B,
            scenario_model (PNum 3) negative_pv (profile 1 24) sc_base = Ok B)
    by (eexists; vm_compute; reflexivity).
  destruct HB as (B & HB). exists B.
  split; [exact HB|].
  assert (Hinf : forall x, ~ feasible (b_model B) x)
    by (intros x; apply negative_pv_infeasible, HB).
  split; [exact Hinf|].
  assert (Hs : solution (optimize (b_model B)) = None).
  { destruct (solution (optimize (b_model B))) as [s|] eqn:Hs; [|reflexivity].
    exfalso. apply (Hinf (X s)). apply Hsound, Hs. }
  unfold sc_base in HB. rewrite scenario_model_record in HB.
  unfold sample_main.
  rewrite (main_eq optimize disk_ok PNone (production_bundle negative_pv)
             (appliance_bundle 3) (preference_bundle (profile 1 24))
             [sc_base; sc_high] (PNum 0) (PNum 3) negative_pv (profile 1 24)
             eq_refl).
  cbn [mforM].
  rewrite (scenario_step_eq optimize disk_ok (PNum 0) (PNum 3) negative_pv (profile 1 24)
             sc_base [] (PStr "Base")
             (profile 1 24) (PNum 5) (PNum 5) (PNum (1#2)) (PNum (1#4))
             eq_refl eq_refl eq_refl eq_refl eq_refl eq_refl).
  rewrite (run_model_1b_no_solution optimize disk_ok (PStr "Base") (PNum 0) (PNum 3)
             negative_pv (profile 1 24) (profile 1 24) (PNum 5) (PNum 5)
             (PNum (1#2)) (PNum (1#4)) None (Some "1b") B HB Hs).
  rewrite mbind_tell. cbv beta.
  rewrite !mbind_raise.
  reflexivity.
Qed.

End NoSolution.

(** ** The load phase *)

Ltac split_lookup :=
  cbn [resolve getitem_str getitem_int rbind];
  first
    [ reflexivity
    | eexists; split; [|reflexivity]; unfold lookup_error; tauto
    | match goal with
      | |- context [dict_find ?k ?kv] => destruct (dict_find k kv) as [[]|]
      | |- context [nth_error ?l ?i] => destruct (nth_error l i) as [[]|]
      | |- context [String.get ?i ?s] => destruct (String.get i s)
      end; split_lookup ].

Lemma lookup_Lmax (appl : pyval) :
  match resolve appl path_Lmax with
  | Some v =>
      (a <- getitem_str appl "load" ;; b <- getitem_int a 0 ;;
       getitem_str b "max_load_kWh_per_hour") = Ok v
  | None =>
      exists e, lookup_error e /\
        (a <- getitem_str appl "load" ;; b <- getitem_int a 0 ;;
         getitem_str b "max_load_kWh_per_hour") = Raise e
  end.
Proof. unfold path_Lmax. destruct appl; split_lookup. Qed.

Lemma lookup_PV (der : pyval) :
  match resolve der path_PV with
  | Some v =>
      (a <- getitem_int der 0 ;; getitem_str a "hourly_profile_ratio") = Ok v
  | None =>
      exists e, lookup_error e /\
        (a <- getitem_int der 0 ;; getitem_str a "hourly_profile_ratio") = Raise e
  end.
Proof. unfold path_PV. destruct der; split_lookup. Qed.

Lemma lookup_ref (usage : pyval) :
  match resolve usage path_ref with
  | Some v =>
      (a <- getitem_int usage 0 ;; b <- getitem_str a "load_preferences" ;;
       c <- getitem_int b 0 ;; getitem_str c "hourly_profile_ratio") = Ok v
  | None =>
      exists e, lookup_error e /\
        (a <- getitem_int usage 0 ;; b <- getitem_str a "load_preferences" ;;
         c <- getitem_int b 0 ;; getitem_str c "hourly_profile_ratio") = Raise e
  end.
Proof. unfold path_ref. destruct usage; split_lookup. Qed.

Section LoadPhase.

Variable optimize : GRBModel -> Outcome.
Variable savefig : string -> list piece -> option exc.

(** C2 (amended).  The load phase reads three fields: the appliance
    limit, the PV profile and the reference-load profile.  When one of
    them is absent it fails with a Python lookup error (KeyError,
    IndexError or TypeError) and [main] stops before anything is printed,
    made or solved; when all three are present it returns them as they
    are, whatever their length, and reads no field of any scenario
    record. *)
Theorem load_phase_reads_three_fields (bus der appl usage scenarios : pyval) :
  match resolve appl path_Lmax, resolve der path_PV, resolve usage path_ref with
  | Some Lmax_t, Some Pt_PV, Some Lt_ref =>
      load_phase appl der usage = Ok (PNum 0, Lmax_t, Pt_PV, Lt_ref)
  | _, _, _ =>
      exists e, lookup_error e /\
        load_phase appl der usage = Raise e /\
        main optimize savefig bus der appl usage scenarios = ([], Raise e)
  end.
Proof.
  pose proof (lookup_Lmax appl) as H1.
  pose proof (lookup_PV der) as H2.
  pose proof (lookup_ref usage) as H3.
  unfold main, load_phase.
  destruct (resolve appl path_Lmax) as [v1|].
  - rewrite H1. cbn [rbind].
    destruct (resolve der path_PV) as [v2|].
    + rewrite H2. cbn [rbind].
      destruct (resolve usage path_ref) as [v3|].
      * rewrite H3. reflexivity.
      * destruct H3 as (e & He & ->). exists e. auto.
    + destruct H2 as (e & He & ->). exists e. auto.
  - destruct H1 as (e & He & ->). exists e. auto.
Qed.

End LoadPhase.

(** C2 (the claim fails).  A PV profile of 23 entries passes the load
    phase; the first scenario is then started (its line is printed and
    the results directory is made) before the short profile raises
    [IndexError] inside the constraint loop. *)
Lemma load_phase_accepts_short_profile :
  load_phase (appliance_bundle 3) (production_bundle (profile 1 23))
    (preference_bundle (profile 1 24)) =
    Ok (PNum 0, PNum 3, profile 1 23, profile 1 24) /\
  sample_main (solver_const 5) (profile 1 23) [sc_base; sc_high] =
    ([Print [Lit (nl ++ "--- Running "); Fmt (PStr "Base") ""; Lit " ---"];
      MakeDirs "src/scenario-results"],
     Raise IndexError).
Proof. split; vm_compute; reflexivity. Qed.

(** ** Effects of one run *)

Section Effects.

Variable optimize : GRBModel -> Outcome.
Variable savefig : string -> list piece -> option exc.
Variables scenario Lmin_t Lmax_t Pt_PV pt Lt_ref : pyval.
Variables max_import_kW max_export_kW tau_imp tau_exp : pyval.
Variable alpha : option pyval.
Variable model_prefix : option string.


End Effects.


(** C7 (the claim fails).  With a PV profile of 25 entries both
    scenarios of the list solve to optimality: the model of each is
    built and the solver answers OPTIMAL with a solution.  The batch
    still ends without a summary: the first scenario prints its success
    line, then the plot of the PV profile against the 24 hours raises
    [ValueError]; no row is returned, no figure is saved and nothing of
    the summary is printed. *)
Lemma optimal_scenarios_without_summary :
  load_phase (appliance_bundle 3) (production_bundle (profile 1 25))
    (preference_bundle (profile 1 24)) =
    Ok (PNum 0, PNum 3, profile 1 25, profile 1 24) /\
  (forall sc, In sc [sc_base; sc_high] ->
     exists B s,
       scenario_model (PNum 3) (profile 1 25) (profile 1 24) sc = Ok B /\
       status (solver_const 5 (b_model B)) = GRB_OPTIMAL /\
       solution (solver_const 5 (b_model B)) = Some s /\
       ObjVal s = 5%Q) /\
  snd (sample_main (solver_const 5) (profile 1 25) [sc_base; sc_high]) =
    Raise ValueError /\
  console (fst (sample_main (solver_const 5) (profile 1 25) [sc_base; sc_high])) =
    (Print [Lit (nl ++ "--- Running "); Fmt (PStr "Base") ""; Lit " ---"] ::
       status_report (solver_const 5 sample_model) (PStr "Base")) /\
  status_report (solver_const 5 sample_model) (PStr "Base") =
    [Print [Lit "Optimization "; Fmt (PStr "Base") "";
            Lit " successful! Objective = "; Fmt (PNum 5) ".3f"]] /\
  figures_saved
    (fst (sample_main (solver_const 5) (profile 1 25) [sc_base; sc_high])) = [] /\
  Forall (fun e => summary_output e = false)
    (fst (sample_main (solver_const 5) (profile 1 25) [sc_base; sc_high])).
Proof.
  split; [reflexivity|]. split.
  - intros sc [<-|[<-|[]]]; eexists; eexists;
      (split; [vm_compute; reflexivity|]); repeat split.
  - split; [vm_compute; reflexivity|].
    split; [vm_compute; reflexivity|].
    split; [vm_compute; reflexivity|].
    split; [vm_compute; reflexivity|].
    vm_compute. repeat constructor.
Qed.

(** ** The theorems at work on the sample inputs *)

Local Abbreviation base_call o :=
  (run_model_1b o disk_ok (PStr "Base") (PNum 0) (PNum 3) (profile 1 24)
     (profile 1 24) (profile 1 24) (PNum 5) (PNum 5) (PNum (1#2))
     (PNum (1#4)) None (Some "1b")).

Local Abbreviation batch_call o scs :=
  (main o disk_ok PNone (production_bundle (profile 1 24)) (appliance_bundle 3)
     (preference_bundle (profile 1 24)) (PList scs)).

Lemma infeasible_scenario_aborts_batch_witness :
  sound solver_infeasible /\
  exists B,
    scenario_model (PNum 3) negative_pv (profile 1 24) sc_base = Ok B /\
    (forall x, ~ feasible (b_model B) x) /\
    sample_main solver_infeasible negative_pv [sc_base; sc_high] =
    ([Print [Lit (nl ++ "--- Running "); Fmt (PStr "Base") ""; Lit " ---"];
      MakeDirs "src/scenario-results";
      Optimize (b_model B)]
       ++ status_report (solver_infeasible (b_model B)) (PStr "Base"),
     Raise AttributeError).
Proof.
  split.
  - intros m s H. discriminate H.
  - apply (infeasible_scenario_aborts_batch solver_infeasible).
    intros m s H. discriminate H.
Defined.

Lemma hourly_constraints_witness :
  In sample_model (submitted (fst (base_call (solver_const 5)))) /\
  List.length (m_constrs sample_model) = 96.
Proof.
  assert (H : In sample_model (submitted (fst (base_call (solver_const 5)))))
    by (vm_compute; left; reflexivity).
  split; [exact H|].
  destruct (hourly_constraints (solver_const 5) disk_ok (PStr "Base") (PNum 0) (PNum 3)
              (profile 1 24) (profile 1 24) (profile 1 24) (PNum 5) (PNum 5)
              (PNum (1#2)) (PNum (1#4)) None (Some "1b") sample_model H)
    as (_ & _ & _ & Hshape & _).
  rewrite Hshape. reflexivity.
Defined.

Lemma objective_is_weighted_sum_witness :
  In sample_model (submitted (fst (base_call (solver_const 5)))) /\
  m_sense sample_model = MINIMIZE.
Proof.
  assert (H : In sample_model (submitted (fst (base_call (solver_const 5)))))
    by (vm_compute; left; reflexivity).
  split; [exact H|].
  destruct (objective_is_weighted_sum (solver_const 5) disk_ok (PStr "Base") (PNum 0)
              (PNum 3) (profile 1 24) (profile 1 24) (profile 1 24) (PNum 5)
              (PNum 5) (PNum (1#2)) (PNum (1#4)) None (Some "1b") sample_model H)
    as (a & _ & _ & Hsense & _).
  exact Hsense.
Defined.

Lemma declared_bounds_witness :
  exists m,
    nth_error
      (submitted (fst (batch_call (solver_const 5) [sc_base; sc_tight]))) 1 =
      Some m /\
    nth_error (m_vars m) (g_imp_ 0) =
      Some (mkVar (Fin 0) (Fin 2) CONTINUOUS "g0_imp") /\
    nth_error (m_vars m) (g_exp_ 0) =
      Some (mkVar (Fin 0) (Fin 1) CONTINUOUS "g0_exp") /\
    nth_error (m_vars m) (L_ 0) =
      Some (mkVar (Fin 0) (Fin 3) CONTINUOUS "L0").
Proof.
  assert (H : exists m,
            nth_error
              (submitted (fst (batch_call (solver_const 5) [sc_base; sc_tight])))
              1 = Some m)
    by (eexists; vm_compute; reflexivity).
  destruct H as (m & H). exists m. split; [exact H|].
  destruct (declared_bounds (solver_const 5) disk_ok PNone
              (production_bundle (profile 1 24)) (appliance_bundle 3)
              (preference_bundle (profile 1 24)) (PList [sc_base; sc_tight])
              1 m H)
    as (Lmax_v & Pt_PV & Lt_ref & sc & imp_v & exp_v & scs & B & Lmax & imp & exp &
        Hload & HLmax & Hiter & Hsc & _ & _ & Himp & Himpf & Hexp & Hexpf & _ &
        Hvars).
  injection Hload as <- _ _. injection HLmax as <-.
  injection Hiter as <-. injection Hsc as <-.
  injection Himp as <-. injection Himpf as <-.
  injection Hexp as <-. injection Hexpf as <-.
  destruct (Hvars 0 ltac:(lia)) as (HL & _ & _ & Hgi & Hge & _).
  split; [exact Hgi|]. split; [exact Hge | exact HL].
Defined.

Lemma objective_null_iff_not_optimal_witness :
  (snd (base_call (solver_const 5)) =
     Ok (result_of (solver_const 5 sample_model) (mkSolution (fun _ => 0%Q) 5)) /\
   objective (result_of (solver_const 5 sample_model)
                (mkSolution (fun _ => 0%Q) 5)) = Some 5%Q) /\
  (snd (base_call solver_timeout) =
     Ok (result_of (solver_timeout sample_model) (mkSolution (fun _ => 0%Q) 7)) /\
   objective (result_of (solver_timeout sample_model)
                (mkSolution (fun _ => 0%Q) 7)) = None).
Proof.
  split.
  - assert (H : snd (base_call (solver_const 5)) =
                Ok (result_of (solver_const 5 sample_model)
                      (mkSolution (fun _ => 0%Q) 5)))
      by (vm_compute; reflexivity).
    split; [exact H|].
    destruct (objective_null_iff_not_optimal (solver_const 5) disk_ok (PStr "Base")
                (PNum 0) (PNum 3) (profile 1 24) (profile 1 24) (profile 1 24)
                (PNum 5) (PNum 5) (PNum (1#2)) (PNum (1#4)) None (Some "1b") _ H)
      as (B & s & _ & Hs & _ & Hopt).
    rewrite (Hopt eq_refl). injection Hs as <-. reflexivity.
  - assert (H : snd (base_call solver_timeout) =
                Ok (result_of (solver_timeout sample_model)
                      (mkSolution (fun _ => 0%Q) 7)))
      by (vm_compute; reflexivity).
    split; [exact H|].
    destruct (objective_null_iff_not_optimal solver_timeout disk_ok (PStr "Base")
                (PNum 0) (PNum 3) (profile 1 24) (profile 1 24) (profile 1 24)
                (PNum 5) (PNum 5) (PNum (1#2)) (PNum (1#4)) None (Some "1b") _ H)
      as (B & s & _ & _ & Hiff & _).
    apply Hiff. intros E. discriminate E.
Defined.

Lemma trajectories_have_24_entries_witness :
  snd (base_call (solver_const 5)) =
    Ok (result_of (solver_const 5 sample_model) (mkSolution (fun _ => 0%Q) 5)) /\
  List.length (Lt_values (result_of (solver_const 5 sample_model)
                            (mkSolution (fun _ => 0%Q) 5))) = 24 /\
  exists B,
    build_model (PNum 0) (PNum 3) (profile 1 24) (profile 1 24) (profile 1 24)
      (PNum 5) (PNum 5) (PNum (1#2)) (PNum (1#4)) (PNum 10) = Ok B /\
    hdict_get (b_gt_exp B) 23 = Ok (g_exp_ 23) /\
    option_map v_name (nth_error (m_vars (b_model B)) (g_exp_ 23)) =
      Some "g23_exp".
Proof.
  assert (H : snd (base_call (solver_const 5)) =
              Ok (result_of (solver_const 5 sample_model)
                    (mkSolution (fun _ => 0%Q) 5)))
    by (vm_compute; reflexivity).
  split; [exact H|].
  destruct (trajectories_have_24_entries (solver_const 5) disk_ok (PStr "Base") (PNum 0)
              (PNum 3) (profile 1 24) (profile 1 24) (profile 1 24) (PNum 5)
              (PNum 5) (PNum (1#2)) (PNum (1#4)) None (Some "1b") _ H)
    as (B & s & HB & _ & _ & (HL & _) & Hat).
  split; [exact HL|]. exists B. split; [exact HB|].
  destruct (Hat 23 ltac:(lia)) as (_ & _ & _ & _ & (_ & Hget & Hname)).
  split; [exact Hget | exact Hname].
Defined.

Lemma sample_scenarios_optimal :
  Forall2 (optimal_for (solver_const 5) disk_ok (PNum 3) (profile 1 24) (profile 1 24))
    [sc_base; sc_high]
    [mkRow (PStr "Base") (Some 5%Q); mkRow (PStr "High") (Some 5%Q)].
Proof.
  constructor; [|constructor; [|constructor]].
  - exists (profile 1 24). eexists. eexists.
    split; [reflexivity|]. split; [reflexivity|]. split; [reflexivity|].
    split; [vm_compute; reflexivity|]. split; [reflexivity|].
    split; [reflexivity|]. split; [reflexivity|]. split; reflexivity.
  - exists (profile 2 24). eexists. eexists.
    split; [reflexivity|]. split; [reflexivity|]. split; [reflexivity|].
    split; [vm_compute; reflexivity|]. split; [reflexivity|].
    split; [reflexivity|]. split; [reflexivity|]. split; reflexivity.
Qed.

Lemma summary_has_one_row_per_scenario_witness :
  load_phase (appliance_bundle 3) (production_bundle (profile 1 24))
    (preference_bundle (profile 1 24)) =
    Ok (PNum 0, PNum 3, profile 1 24, profile 1 24) /\
  has_24 (profile 1 24) = true /\
  Forall2 (optimal_for (solver_const 5) disk_ok (PNum 3) (profile 1 24) (profile 1 24))
    [sc_base; sc_high]
    [mkRow (PStr "Base") (Some 5%Q); mkRow (PStr "High") (Some 5%Q)] /\
  snd (batch_call (solver_const 5) [sc_base; sc_high]) =
    Ok [mkRow (PStr "Base") (Some 5%Q); mkRow (PStr "High") (Some 5%Q)].
Proof.
  assert (Hload : load_phase (appliance_bundle 3)
                    (production_bundle (profile 1 24))
                    (preference_bundle (profile 1 24)) =
                  Ok (PNum 0, PNum 3, profile 1 24, profile 1 24))
    by reflexivity.
  assert (H24 : has_24 (profile 1 24) = true) by reflexivity.
  split; [exact Hload|]. split; [exact H24|].
  split; [exact sample_scenarios_optimal|].
  apply (summary_has_one_row_per_scenario (solver_const 5) disk_ok PNone
           (production_bundle (profile 1 24)) (appliance_bundle 3)
           (preference_bundle (profile 1 24)) [sc_base; sc_high]
           (PNum 3) (profile 1 24) (profile 1 24) _ Hload H24 H24
           sample_scenarios_optimal).
Defined.

Lemma empty_list_reports_no_results_witness :
  load_phase (appliance_bundle 3) (production_bundle (profile 1 24))
    (preference_bundle (profile 1 24)) =
    Ok (PNum 0, PNum 3, profile 1 24, profile 1 24) /\
  batch_call (solver_const 5) [] =
    ([Print [Lit "No results found. Please run the scenarios first."]], Ok []).
Proof.
  assert (Hload : load_phase (appliance_bundle 3)
                    (production_bundle (profile 1 24))
                    (preference_bundle (profile 1 24)) =
                  Ok (PNum 0, PNum 3, profile 1 24, profile 1 24))
    by reflexivity.
  split; [exact Hload|].
  apply (empty_list_reports_no_results (solver_const 5) disk_ok PNone
           (production_bundle (profile 1 24)) (appliance_bundle 3)
           (preference_bundle (profile 1 24)) _ Hload).
Defined.


(** * Further properties of the script *)

(** ** Properties of one run *)

Section RunProperties.

Variable optimize : GRBModel -> Outcome.
Variable savefig : string -> list piece -> option exc.
Variables scenario Lmin_t Lmax_t Pt_PV pt Lt_ref : pyval.
Variables max_import_kW max_export_kW tau_imp tau_exp : pyval.
Variable alpha : option pyval.
Variable model_prefix : option string.

Local Abbreviation run :=
  (run_model_1b optimize savefig scenario Lmin_t Lmax_t Pt_PV pt Lt_ref
     max_import_kW max_export_kW tau_imp tau_exp alpha model_prefix).

Local Abbreviation built :=
  (build_model Lmin_t Lmax_t Pt_PV pt Lt_ref max_import_kW max_export_kW
     tau_imp tau_exp (match alpha with Some a => a | None => PNum 10 end)).

(** X1.  A run of [run_model_1b] that returns has done exactly this, in
    this order: made the results directory, called the solver once on the
    model it built, printed the status line, drawn the first figure (the
    five solution curves, then the PV profile and the reference load),
    saved it as "<prefix>-scenario-<scenario>-AllDecisionVariables.png",
    shown and closed it, drawn the second figure (the price curve, then
    grid import and export), saved it as
    "<prefix>-scenario-<scenario>-EnergyPriceVsGrid.png", shown and
    closed it. *)
Theorem completed_run_effects (r : ScenarioResult) :
  snd run = Ok r ->
  exists B s,
    built = Ok B /\
    solution (optimize (b_model B)) = Some s /\
    fst run =
      MakeDirs "src/scenario-results" :: Optimize (b_model B) ::
      status_report (optimize (b_model B)) scenario ++
      Figure :: solution_curves s ++
      [Plot HOURS Pt_PV "PV Production (Pt_PV)";
       Plot HOURS Lt_ref "Reference Load (Lt_ref)";
       SaveFig "src/scenario-results"
         (figure_name (match model_prefix with Some p => p | None => "1b" end)
            scenario "-AllDecisionVariables.png"); Show; Close; Figure;
       Plot HOURS pt "Energy Price"] ++
      grid_curves s ++
      [SaveFig "src/scenario-results"
         (figure_name (match model_prefix with Some p => p | None => "1b" end)
            scenario "-EnergyPriceVsGrid.png"); Show; Close].
Proof.
  intros H.
  destruct (build_model Lmin_t Lmax_t Pt_PV pt Lt_ref max_import_kW
              max_export_kW tau_imp tau_exp
              (match alpha with Some a => a | None => PNum 10 end))
    as [B|e] eqn:HB.
  - destruct (solution (optimize (b_model B))) as [s|] eqn:Hs.
    + exists B, s. split; [reflexivity|]. split; [exact Hs|].
      revert H.
      rewrite (run_model_1b_with_solution optimize savefig scenario Lmin_t Lmax_t
                 Pt_PV pt Lt_ref max_import_kW max_export_kW tau_imp tau_exp
                 alpha model_prefix B s HB Hs).
      destruct (has_24 Pt_PV); [|discriminate].
      destruct (has_24 Lt_ref); [|discriminate].
      destruct (savefig _ (figure_name _ _ "-AllDecisionVariables.png"));
        [discriminate|].
      destruct (has_24 pt); [|discriminate].
      destruct (savefig _ (figure_name _ _ "-EnergyPriceVsGrid.png"));
        [discriminate|].
      intros _. cbn [fst]. cbn [app]. rewrite <- !app_assoc. reflexivity.
    + rewrite (run_model_1b_no_solution optimize savefig scenario Lmin_t Lmax_t
                 Pt_PV pt Lt_ref max_import_kW max_export_kW tau_imp tau_exp
                 alpha model_prefix B HB Hs) in H.
      discriminate H.
  - rewrite (run_model_1b_build_failure optimize savefig scenario Lmin_t Lmax_t
               Pt_PV pt Lt_ref max_import_kW max_export_kW tau_imp tau_exp
               alpha model_prefix e HB) in H.
    discriminate H.
Qed.

(** X2.  The lengths of the profiles are checked nowhere but by the
    plots: when the model is built and the solver holds a solution, but
    the PV profile, the reference load or the price curve is not a list
    of exactly 24 entries, [run_model_1b] does not return, and it fails
    only after the solver has been called on the model.  It raises
    [ValueError] at the plot of the first profile of the wrong length,
    in the order PV, reference load, price; when only the price curve is
    wrong, the first figure is saved before that plot, and if this save
    fails its error is the one raised. *)
Theorem wrong_length_profile_stops_at_plot (B : Built) (s : Solution) :
  built = Ok B ->
  solution (optimize (b_model B)) = Some s ->
  has_24 Pt_PV && has_24 Lt_ref && has_24 pt = false ->
  submitted (fst run) = [b_model B] /\
  snd run =
    (if has_24 Pt_PV && has_24 Lt_ref then
       match savefig "src/scenario-results"
               (figure_name (match model_prefix with Some p => p | None => "1b" end)
                  scenario "-AllDecisionVariables.png") with
       | Some e => Raise e
       | None => Raise ValueError
       end
     else Raise ValueError).
Proof.
  intros HB Hs Hlen. split.
  - rewrite run_model_1b_submitted_list, HB. reflexivity.
  - rewrite run_model_1b_result, HB. cbv zeta. rewrite Hs.
    destruct (has_24 Pt_PV && has_24 Lt_ref); [|reflexivity].
    cbn [andb] in Hlen. rewrite Hlen. reflexivity.
Qed.

(** X3.  What one run prints is exactly the status line of its solve:
    the success line with the objective when the status is OPTIMAL, the
    infeasible line for status 3, the unbounded line for status 5, and
    the line with the status number otherwise; a run whose model cannot
    be built prints nothing. *)
Theorem console_is_status_line :
  console (fst run) =
  match built with
  | Ok B => status_report (optimize (b_model B)) scenario
  | Raise _ => []
  end.
Proof. apply run_model_1b_console. Qed.

(** X4.  A solve that ends with status INF_OR_UNBD (4) is not announced
    as infeasible or unbounded: the only line printed is the generic one
    with the status number. *)
Theorem inf_or_unbd_reported_by_number (B : Built) :
  built = Ok B ->
  status (optimize (b_model B)) = GRB_INF_OR_UNBD ->
  console (fst run) =
  [Print [Lit "Optimization ended with status: "; Fmt (PNum 4) ""]].
Proof.
  intros HB Hst.
  rewrite (run_model_1b_console optimize savefig scenario Lmin_t Lmax_t Pt_PV pt Lt_ref
             max_import_kW max_export_kW tau_imp tau_exp alpha model_prefix).
  rewrite HB. unfold status_report. rewrite Hst. reflexivity.
Qed.


End RunProperties.

(** ** Reading the profiles *)


Lemma mapM_ext {A B} (f g : A -> res B) (l : list A) :
  (forall a, In a l -> f a = g a) -> mapM f l = mapM g l.
Proof.
  induction l as [|a l IH]; intros H; [reflexivity|].
  cbn [mapM]. rewrite (H a (or_introl eq_refl)).
  rewrite IH by (intros a' Ha'; apply H; right; exact Ha'). reflexivity.
Qed.



Section Profiles.

Variable optimize : GRBModel -> Outcome.
Variable savefig : string -> list piece -> option exc.
Variable scenario : pyval.
Variable alpha : option pyval.
Variable model_prefix : option string.


End Profiles.

(** X7.  The model reads the entries 0..23 of the three profiles and no
    other: on lists of numbers, the model built from the profiles is the
    model built from their first 24 entries. *)
Theorem entries_after_hour_23_are_not_read
  (a b c : list Q) (Lmin_t Lmax_t max_import_kW max_export_kW tau_imp tau_exp
     alpha : pyval) :
  build_model Lmin_t Lmax_t (floats a) (floats b) (floats c)
    max_import_kW max_export_kW tau_imp tau_exp alpha =
  build_model Lmin_t Lmax_t (floats (firstn 24 a)) (floats (firstn 24 b))
    (floats (firstn 24 c)) max_import_kW max_export_kW tau_imp tau_exp alpha.
Proof.
  rewrite !build_model_eq.
  rewrite (mapM_ext
             (read_hour (floats a) (floats b) (floats c) tau_imp tau_exp)
             (read_hour (floats (firstn 24 a)) (floats (firstn 24 b))
                (floats (firstn 24 c)) tau_imp tau_exp)); [reflexivity|].
  intros t Ht. apply In_HOURS in Ht.
  unfold read_hour, floats, getitem_int.
  rewrite !nth_error_map, !nth_error_firstn.
  apply Nat.ltb_lt in Ht. rewrite Ht. reflexivity.
Qed.

(** ** The loop over the scenarios *)

Section Loop.

Variable optimize : GRBModel -> Outcome.
Variable savefig : string -> list piece -> option exc.

(** X8.  A scenario record that lacks one of the six keys the loop reads
    is not run: the loop raises [KeyError] before [run_model_1b] is
    called, so no directory is made and no model is handed to the
    solver; when the missing key is "scenario" itself, not even the
    "--- Running" line is printed. *)
Theorem incomplete_scenario_record_is_not_run
  (Lmin_t Lmax_t Pt_PV Lt_ref : pyval) (kv : list (string * pyval))
  (rows : list row) (k : string) :
  In k scenario_keys ->
  dict_find k kv = None ->
  snd (scenario_step optimize savefig Lmin_t Lmax_t Pt_PV Lt_ref (PDict kv) rows) =
    Raise KeyError /\
  dirs_made (fst (scenario_step optimize savefig Lmin_t Lmax_t Pt_PV Lt_ref
                    (PDict kv) rows)) = [] /\
  submitted (fst (scenario_step optimize savefig Lmin_t Lmax_t Pt_PV Lt_ref
                    (PDict kv) rows)) = [] /\
  (k = "scenario" ->
   fst (scenario_step optimize savefig Lmin_t Lmax_t Pt_PV Lt_ref (PDict kv) rows) = []).
Proof.
  intros Hin Hk. unfold scenario_step, getitem_str.
  destruct (dict_find "scenario" kv) as [v1|] eqn:H1;
    [|rewrite mbind_lift; repeat split].
  rewrite mbind_lift, mbind_tell. cbv beta. cbn [fst snd].
  rewrite mbind_lift. cbv beta iota.
  assert (Hk1 : k <> "scenario") by (intros ->; congruence).
  destruct (dict_find "energy_price_DKK_per_kWh" kv) as [v2|] eqn:H2;
    rewrite mbind_lift; cbv beta iota;
    [|repeat split; contradiction].
  destruct (dict_find "max_import_kW" kv) as [v3|] eqn:H3;
    rewrite mbind_lift; cbv beta iota;
    [|repeat split; contradiction].
  destruct (dict_find "max_export_kW" kv) as [v4|] eqn:H4;
    rewrite mbind_lift; cbv beta iota;
    [|repeat split; contradiction].
  destruct (dict_find "import_tariff_DKK/kWh" kv) as [v5|] eqn:H5;
    rewrite mbind_lift; cbv beta iota;
    [|repeat split; contradiction].
  destruct (dict_find "export_tariff_DKK/kWh" kv) as [v6|] eqn:H6;
    rewrite mbind_lift; cbv beta iota;
    [|repeat split; contradiction].
  exfalso. unfold scenario_keys in Hin. simpl in Hin.
  destruct Hin as [<-|[<-|[<-|[<-|[<-|[<-|[]]]]]]]; congruence.
Qed.

End Loop.

(** ** The batch as a whole *)

Section BatchRows.

Variable optimize : GRBModel -> Outcome.
Variable savefig : string -> list piece -> option exc.

(** The row a pass of the loop adds, whatever the status of its solve. *)
Lemma scenario_step_Ok_inv (Lmax_t Pt_PV Lt_ref sc : pyval)
  (done rows : list row) :
  snd (scenario_step optimize savefig (PNum 0) Lmax_t Pt_PV Lt_ref sc done) = Ok rows ->
  exists r B s,
    rows = done ++ [r] /\
    getitem_str sc "scenario" = Ok (Scenario r) /\
    scenario_model Lmax_t Pt_PV Lt_ref sc = Ok B /\
    solution (optimize (b_model B)) = Some s /\
    Primal_Objective r =
      (if Z.eqb (status (optimize (b_model B))) GRB_OPTIMAL
       then Some (ObjVal s) else None).
Proof.
  unfold scenario_step, scenario_model.
  destruct (getitem_str sc "scenario") as [name|e];
    [|rewrite mbind_lift; discriminate].
  rewrite mbind_lift, mbind_tell. cbv beta. cbn [fst snd].
  rewrite mbind_lift. cbv beta iota.
  destruct (getitem_str sc "energy_price_DKK_per_kWh") as [pt|e];
    rewrite mbind_lift; cbv beta iota; [|discriminate].
  destruct (getitem_str sc "max_import_kW") as [imp|e];
    rewrite mbind_lift; cbv beta iota; [|discriminate].
  destruct (getitem_str sc "max_export_kW") as [exp|e];
    rewrite mbind_lift; cbv beta iota; [|discriminate].
  destruct (getitem_str sc "import_tariff_DKK/kWh") as [ti|e];
    rewrite mbind_lift; cbv beta iota; [|discriminate].
  destruct (getitem_str sc "export_tariff_DKK/kWh") as [te|e];
    rewrite mbind_lift; cbv beta iota; [|discriminate].
  cbn [rbind]. rewrite mbind_snd.
  destruct (snd (run_model_1b optimize savefig name (PNum 0) Lmax_t Pt_PV pt Lt_ref
                   imp exp ti te None (Some "1b"))) as [result|e] eqn:Hrun;
    [|discriminate].
  rewrite mbind_lift. cbn [snd mret]. intros H. injection H as <-.
  apply run_model_1b_Ok_inv in Hrun as (B & s & HB & Hs & ->).
  exists (mkRow name (objective (result_of (optimize (b_model B)) s))), B, s.
  repeat split; assumption.
Qed.

Lemma batch_rows (Lmax_t Pt_PV Lt_ref : pyval) (scs : list pyval) :
  forall done rows,
  snd (mforM (scenario_step optimize savefig (PNum 0) Lmax_t Pt_PV Lt_ref) scs done) =
    Ok rows ->
  exists new,
    rows = done ++ new /\
    Forall2 (fun sc r =>
               exists B s,
                 getitem_str sc "scenario" = Ok (Scenario r) /\
                 scenario_model Lmax_t Pt_PV Lt_ref sc = Ok B /\
                 solution (optimize (b_model B)) = Some s /\
                 Primal_Objective r =
                   (if Z.eqb (status (optimize (b_model B))) GRB_OPTIMAL
                    then Some (ObjVal s) else None))
      scs new.
Proof.
  induction scs as [|sc scs IH]; intros done rows H.
  - cbn in H. injection H as <-. exists []. rewrite app_nil_r. split; constructor.
  - cbn [mforM] in H. rewrite mbind_snd in H.
    destruct (snd (scenario_step optimize savefig (PNum 0) Lmax_t Pt_PV Lt_ref sc done))
      as [rows1|e] eqn:Hstep; [|discriminate].
    apply scenario_step_Ok_inv in Hstep
      as (r & B & s & -> & Hname & HB & Hs & Hobj).
    apply IH in H as (new & -> & Hnew).
    exists (r :: new). split; [rewrite <- app_assoc; reflexivity|].
    constructor; [exists B, s; auto | exact Hnew].
Qed.

Lemma load_phase_Lmin (appl der usage Lmin_t Lmax_t Pt_PV Lt_ref : pyval) :
  load_phase appl der usage = Ok (Lmin_t, Lmax_t, Pt_PV, Lt_ref) ->
  Lmin_t = PNum 0.
Proof.
  unfold load_phase. intros Hload.
  repeat match type of Hload with
         | rbind ?c _ = Ok _ => destruct c; cbn [rbind] in Hload; [|discriminate]
         end.
  injection Hload as <- _ _ _. reflexivity.
Qed.

(** X9.  A batch that runs to its end has one summary row per scenario,
    in the order of the list, whatever the statuses: row [i] carries the
    id of scenario [i]; the solver held a solution for its model; and
    its objective is the solver's [ObjVal] when the status is OPTIMAL
    and null otherwise. *)
Theorem completed_batch_has_a_row_per_scenario
  (bus der appl usage scenarios : pyval) (rows : list row) :
  snd (main optimize savefig bus der appl usage scenarios) = Ok rows ->
  exists Lmax_t Pt_PV Lt_ref scs,
    load_phase appl der usage = Ok (PNum 0, Lmax_t, Pt_PV, Lt_ref) /\
    py_iter scenarios = Ok scs /\
    Forall2 (fun sc r =>
               exists B s,
                 getitem_str sc "scenario" = Ok (Scenario r) /\
                 scenario_model Lmax_t Pt_PV Lt_ref sc = Ok B /\
                 solution (optimize (b_model B)) = Some s /\
                 Primal_Objective r =
                   (if Z.eqb (status (optimize (b_model B))) GRB_OPTIMAL
                    then Some (ObjVal s) else None))
      scs rows.
Proof.
  unfold main.
  destruct (load_phase appl der usage)
    as [[[[Lmin_t Lmax_t] Pt_PV] Lt_ref]|e] eqn:Hload;
    [|rewrite mbind_lift; discriminate].
  pose proof (load_phase_Lmin _ _ _ _ _ _ _ Hload) as ->.
  rewrite mbind_lift. cbv beta iota.
  destruct (py_iter scenarios) as [scs|e] eqn:Hiter;
    [|rewrite mbind_lift; discriminate].
  rewrite mbind_lift, mbind_snd.
  destruct (snd (mforM (scenario_step optimize savefig (PNum 0) Lmax_t Pt_PV Lt_ref)
                   scs [])) as [rows'|e] eqn:Hloop; [|discriminate].
  rewrite mbind_snd.
  assert (Hout : forall c : M unit,
                   (c = tell (Print [Lit "No results found. Please run the scenarios first."]) \/
                    c = mbind (tell (Print [Lit (nl ++ "===== RESULTS SUMMARY =====")]))
                          (fun _ => tell (PrintFrame rows'))) ->
                   snd c = Ok tt).
  { intros c [->| ->]; [reflexivity|]. rewrite mbind_tell. reflexivity. }
  rewrite Hout by (destruct rows'; auto).
  cbn [snd mret]. intros H. injection H as <-.
  apply batch_rows in Hloop as (new & -> & Hnew).
  exists Lmax_t, Pt_PV, Lt_ref, scs. auto.
Qed.

(** Nothing a pass of the loop does is summary output. *)
Lemma scenario_step_no_summary (Lmin_t Lmax_t Pt_PV Lt_ref sc : pyval)
  (rows : list row) :
  Forall (fun e => summary_output e = false)
    (fst (scenario_step optimize savefig Lmin_t Lmax_t Pt_PV Lt_ref sc rows)).
Proof.
  unfold scenario_step, run_model_1b, makedirs. cbv zeta.
  repeat match goal with
  | |- Forall _ (fst (mbind _ _)) => apply all_mbind; [|intros]
  | |- Forall _ (fst (tell _)) => apply all_tell; reflexivity
  | |- Forall _ (fst (lift _)) => apply all_lift
  | |- Forall _ (fst (mret _)) => apply all_mret
  | |- Forall _ (fst (plt_plot _ _ _)) => apply all_plt_plot; reflexivity
  | |- Forall _ (fst (plt_savefig _ _ _)) => apply all_plt_savefig; reflexivity
  | |- Forall _ (fst (if ?c then _ else _)) => destruct c
  end.
Qed.

(** X10.  The summary is all or nothing: when the batch ends with an
    exception, whichever scenario raised it, nothing of the closing
    output has been printed, neither the table nor the "no results"
    line, so the objectives of the scenarios solved before are lost. *)
Theorem failed_batch_prints_no_summary
  (bus der appl usage scenarios : pyval) (e : exc) :
  snd (main optimize savefig bus der appl usage scenarios) = Raise e ->
  Forall (fun ev => summary_output ev = false)
    (fst (main optimize savefig bus der appl usage scenarios)).
Proof.
  unfold main.
  destruct (load_phase appl der usage)
    as [[[[Lmin_t Lmax_t] Pt_PV] Lt_ref]|e0];
    [|rewrite mbind_lift; constructor].
  rewrite mbind_lift. cbv beta iota.
  destruct (py_iter scenarios) as [scs|e0];
    [|rewrite mbind_lift; constructor].
  rewrite mbind_lift, mbind_snd, mbind_fst.
  destruct (snd (mforM (scenario_step optimize savefig Lmin_t Lmax_t Pt_PV Lt_ref)
                   scs [])) as [rows'|e0] eqn:Hloop.
  - rewrite mbind_snd.
    destruct rows'; [|rewrite mbind_tell]; discriminate.
  - intros _. rewrite app_nil_r.
    apply all_mforM. intros sc _ rows. apply scenario_step_no_summary.
Qed.

End BatchRows.

(** ** The input files *)

Section Files.

Variable optimize : GRBModel -> Outcome.
Variable savefig : string -> list piece -> option exc.

(** X11.  The script reads its five files in a fixed order (bus
    parameters, DER production, appliance parameters, usage preferences,
    scenarios) and stops at the first one it cannot read, with
    [FileNotFoundError] when the file is missing and [JSONDecodeError]
    when it is not JSON, before anything is printed, made or solved. *)
Theorem script_stops_at_first_unreadable_file (fs : string -> file)
  (path : string) :
  find (fun p => negb (readable (fs p))) input_files = Some path ->
  script optimize savefig fs =
  ([], inl (match fs path with
            | Missing => FileNotFoundError path
            | _ => JSONDecodeError path
            end)).
Proof.
  unfold input_files, script, load_json. cbn [find].
  destruct (fs bus_params_json) eqn:H1; cbn [readable negb];
    try (intros H; injection H as <-; rewrite H1; reflexivity).
  destruct (fs DER_production_json) eqn:H2; cbn [readable negb];
    try (intros H; injection H as <-; rewrite H2; reflexivity).
  destruct (fs appliance_params_json) eqn:H3; cbn [readable negb];
    try (intros H; injection H as <-; rewrite H3; reflexivity).
  destruct (fs usage_preferences_json) eqn:H4; cbn [readable negb];
    try (intros H; injection H as <-; rewrite H4; reflexivity).
  destruct (fs scenarios_json) eqn:H5; cbn [readable negb];
    try (intros H; injection H as <-; rewrite H5; reflexivity).
  discriminate.
Qed.

(** X12.  The bus parameters are loaded and never used: the file must
    be there and be JSON, but two sets of input files that differ only
    in what it holds give the same run. *)
Theorem bus_params_content_is_unused (fs fs' : string -> file)
  (v v' : pyval) :
  fs bus_params_json = Parsed v ->
  fs' bus_params_json = Parsed v' ->
  (forall p, p <> bus_params_json -> fs' p = fs p) ->
  script optimize savefig fs' = script optimize savefig fs.
Proof.
  intros Hb Hb' Hsame. unfold script, load_json.
  rewrite Hb, Hb'.
  rewrite !Hsame by (unfold bus_params_json, DER_production_json,
                       appliance_params_json, usage_preferences_json,
                       scenarios_json; discriminate).
  destruct (fs DER_production_json); reflexivity.
Qed.

End Files.

(** ** What the model admits *)

Lemma declared_vars_length (lo hi im ex : Q) :
  List.length (declared_vars lo hi im ex) = 168.
Proof. reflexivity. Qed.

(** Every declared variable belongs to one of the seven families. *)
Lemma declared_vars_nth (lo hi im ex : Q) (v : Var) (d : VarDecl) :
  nth_error (declared_vars lo hi im ex) v = Some d ->
  exists t, t < 24 /\
    ((v = L_ t /\ v_lb d = Fin lo /\ v_ub d = Fin hi) \/
     (v = u_ t /\ v_lb d = Fin 0 /\ v_ub d = PosInf) \/
     (v = c_ t /\ v_lb d = Fin 0 /\ v_ub d = PosInf) \/
     (v = g_imp_ t /\ v_lb d = Fin 0 /\ v_ub d = Fin im) \/
     (v = g_exp_ t /\ v_lb d = Fin 0 /\ v_ub d = Fin ex) \/
     (v = HC_ t /\ v_lb d = NegInf /\ v_ub d = PosInf) \/
     (v = D_ t /\ v_lb d = Fin 0 /\ v_ub d = PosInf)).
Proof.
  intros H.
  assert (Hv : v < 168).
  { rewrite <- (declared_vars_length lo hi im ex).
    apply nth_error_Some. rewrite H. discriminate. }
  exists (v mod 24).
  assert (Ht : v mod 24 < 24) by (apply Nat.mod_upper_bound; discriminate).
  split; [exact Ht|].
  pose proof (Nat.div_mod_eq v 24) as Hdiv.
  assert (Hq : v / 24 < 7) by (apply Nat.Div0.div_lt_upper_bound; exact Hv).
  destruct (declared_vars_columns lo hi im ex (v mod 24) Ht)
    as (H0 & H1 & H2 & H3 & H4 & H5 & H6).
  unfold L_, u_, c_, g_imp_, g_exp_, HC_, D_ in *.
  destruct (v / 24) as [|[|[|[|[|[|[|q]]]]]]] eqn:Eq; [| | | | | | |lia].
  - left. replace (v mod 24) with v in * by lia.
    rewrite H0 in H. injection H as <-. auto.
  - right; left. replace (24 + v mod 24) with v in * by lia.
    rewrite H1 in H. injection H as <-. auto.
  - do 2 right; left. replace (48 + v mod 24) with v in * by lia.
    rewrite H2 in H. injection H as <-. auto.
  - do 3 right; left. replace (72 + v mod 24) with v in * by lia.
    rewrite H3 in H. injection H as <-. auto.
  - do 4 right; left. replace (96 + v mod 24) with v in * by lia.
    rewrite H4 in H. injection H as <-. auto.
  - do 5 right; left. replace (120 + v mod 24) with v in * by lia.
    rewrite H5 in H. injection H as <-. auto.
  - do 6 right. replace (144 + v mod 24) with v in * by lia.
    rewrite H6 in H. injection H as <-. auto.
Qed.

Lemma idle_point_columns (pv ref : nat -> Q) (t : nat) :
  t < 24 ->
  idle_point pv ref (L_ t) = 0%Q /\
  idle_point pv ref (u_ t) = 0%Q /\
  idle_point pv ref (c_ t) = pv t /\
  idle_point pv ref (g_imp_ t) = 0%Q /\
  idle_point pv ref (g_exp_ t) = 0%Q /\
  idle_point pv ref (HC_ t) = 0%Q /\
  idle_point pv ref (D_ t) = (ref t * ref t)%Q.
Proof.
  intros Ht. unfold idle_point, L_, u_, c_, g_imp_, g_exp_, HC_, D_.
  repeat split;
    repeat match goal with
           | |- context [Nat.ltb ?a ?b] =>
               destruct (Nat.ltb_spec a b); try lia
           end;
    try reflexivity.
  - replace (48 + t - 48) with t by lia. reflexivity.
  - replace (144 + t - 144) with t by lia. reflexivity.
Qed.

Lemma fold_left_Qplus_ext (f g : nat -> Q) (l : list nat) :
  (forall t, In t l -> f t == g t)%Q ->
  forall acc acc', (acc == acc')%Q ->
  (fold_left (fun a t => a + f t) l acc ==
   fold_left (fun a t => a + g t) l acc')%Q.
Proof.
  induction l as [|t l IH]; intros H acc acc' Hacc; [exact Hacc|].
  cbn [fold_left]. apply IH.
  - intros t' Ht'. apply H. right. exact Ht'.
  - rewrite Hacc, (H t (or_introl eq_refl)). reflexivity.
Qed.

(** The idle point satisfies the four constraints of every hour. *)
Lemma idle_point_holds (pv ref a b : nat -> Q) (t : nat) :
  t < 24 ->
  Forall (holds (idle_point pv ref)) (hour_block (pv t) (a t) (b t) (ref t) t).
Proof.
  intros Ht. apply hour_block_holds.
  pose proof (idle_point_columns pv ref t Ht)
    as (I0 & I1 & I2 & I3 & I4 & I5 & I6).
  rewrite I0, I1, I2, I3, I4, I5, I6.
  repeat split; simpl; ring.
Qed.

Section Admits.

Variables Lmin_t Lmax_t Pt_PV pt Lt_ref : pyval.
Variables max_import_kW max_export_kW tau_imp tau_exp alpha : pyval.

Local Abbreviation built :=
  (build_model Lmin_t Lmax_t Pt_PV pt Lt_ref max_import_kW max_export_kW
     tau_imp tau_exp alpha).

(** X13.  The model has no feasible point as soon as the PV profile is
    negative at one hour: [u_t + c_t = Pt_PV[t]] cannot hold with
    [u_t >= 0] and [c_t >= 0]. *)
Theorem negative_pv_hour_makes_model_infeasible (B : Built) (t : nat) :
  built = Ok B ->
  t < 24 ->
  (val (num_at Pt_PV t) < 0)%Q ->
  forall x, ~ feasible (b_model B) x.
Proof.
  intros HB Ht Hneg x (Hbounds & Hcs).
  destruct (build_model_constraints _ _ _ _ _ _ _ _ _ _ _ HB) as (_ & Hshape).
  apply build_model_inv in HB
    as (lo & hi & im & ex & cs & a & _ & _ & _ & _ & _ & _ & Hm).
  rewrite Hshape in Hcs. rewrite Forall_flat_map, Forall_forall in Hcs.
  specialize (Hcs t ltac:(apply In_HOURS; exact Ht)).
  apply hour_block_holds in Hcs as (Hpv & _).
  rewrite Hm in Hbounds. cbn [m_vars] in Hbounds.
  destruct (declared_vars_columns lo hi im ex t Ht) as (_ & Hu & Hc & _).
  apply Hbounds in Hu as (Hu & _). apply Hbounds in Hc as (Hc & _).
  unfold within, above, v_lb in Hu, Hc. lra.
Qed.

(** X14.  Otherwise the model always has a feasible point, whatever the
    prices, the tariffs and the caps of the scenario: when the PV
    profile is nowhere negative, the load bounds admit 0 and the two
    caps are not negative, leaving the household idle (no load, no
    exchange with the grid, all production curtailed) satisfies every
    bound and every constraint.  Zero import and export caps do not
    make a scenario infeasible. *)
Theorem idle_point_is_feasible (B : Built) :
  built = Ok B ->
  (val (as_float Lmin_t) <= 0)%Q ->
  (0 <= val (as_float Lmax_t))%Q ->
  (0 <= val (as_float max_import_kW))%Q ->
  (0 <= val (as_float max_export_kW))%Q ->
  (forall t, t < 24 -> (0 <= val (num_at Pt_PV t))%Q) ->
  feasible (b_model B)
    (idle_point (fun t => val (num_at Pt_PV t))
       (fun t => val (num_at Lt_ref t))).
Proof.
  intros HB Hlo Hhi Him Hex Hpv.
  destruct (build_model_constraints _ _ _ _ _ _ _ _ _ _ _ HB) as (_ & Hshape).
  apply build_model_inv in HB
    as (lo & hi & im & ex & cs & a & Elo & Ehi & Eim & Eex & _ & _ & Hm).
  rewrite Elo in Hlo. rewrite Ehi in Hhi. rewrite Eim in Him.
  rewrite Eex in Hex. cbn [val] in Hlo, Hhi, Him, Hex.
  split.
  - rewrite Hm. cbn [m_vars]. intros v d Hd.
    apply declared_vars_nth in Hd as (t & Ht & Hd).
    pose proof (idle_point_columns (fun t => val (num_at Pt_PV t))
                  (fun t => val (num_at Lt_ref t)) t Ht)
      as (I0 & I1 & I2 & I3 & I4 & I5 & I6).
    specialize (Hpv t Ht).
    unfold within.
    destruct Hd as [(-> & -> & ->)|[(-> & -> & ->)|[(-> & -> & ->)|
                   [(-> & -> & ->)|[(-> & -> & ->)|[(-> & -> & ->)|
                    (-> & -> & ->)]]]]]];
      cbn [above below];
      rewrite ?I0, ?I1, ?I2, ?I3, ?I4, ?I5, ?I6;
      split; try exact I; try lra.
    apply Qle_trans with (y := (0 * 0)%Q); [lra|].
    destruct (Qlt_le_dec (val (num_at Lt_ref t)) 0%Q) as [Hn|Hp]; nra.
  - rewrite Hshape, Forall_flat_map, Forall_forall. intros t Ht.
    apply In_HOURS in Ht.
    apply (idle_point_holds (fun t => val (num_at Pt_PV t))
             (fun t => val (num_at Lt_ref t))
             (fun t => (val (num_at pt t) + val (as_float tau_imp))%Q)
             (fun t => (val (num_at pt t) - val (as_float tau_exp))%Q) t Ht).
Qed.

(** X15.  At every point that satisfies the constraints of the model,
    the objective handed to the solver is the bill of the day: the sum
    over the 24 hours of [alpha] times the squared distance of the load
    to the reference load, plus what the import costs at price plus
    import tariff, minus what the export earns at price minus export
    tariff. *)
Theorem objective_is_discomfort_plus_energy_cost (B : Built) (x : Var -> Q) :
  built = Ok B ->
  Forall (holds x) (m_constrs (b_model B)) ->
  (eval x (m_obj (b_model B)) ==
   bill (val (as_float alpha))
     (fun t => val (num_at Lt_ref t)) (fun t => val (num_at pt t))
     (val (as_float tau_imp)) (val (as_float tau_exp)) x)%Q.
Proof.
  intros HB Hcs.
  destruct (build_model_constraints _ _ _ _ _ _ _ _ _ _ _ HB) as (_ & Hshape).
  apply build_model_inv in HB
    as (lo & hi & im & ex & cs & a & _ & _ & _ & _ & _ & Ea & Hm).
  rewrite Hshape in Hcs. rewrite Forall_flat_map, Forall_forall in Hcs.
  rewrite Hm. cbn [m_obj]. rewrite eval_objective, Ea. cbn [val].
  unfold total_cost, bill.
  apply fold_left_Qplus_ext; [|reflexivity].
  intros t Ht. specialize (Hcs t Ht).
  apply hour_block_holds in Hcs as (_ & _ & Hcost & Hdis).
  rewrite <- Hcost, <- Hdis. simpl. ring.
Qed.

End Admits.

(** ** Names in the model *)

Lemma NoDup_by_nodup (l : list string) : nodup string_dec l = l -> NoDup l.
Proof. intros H. rewrite <- H. apply NoDup_nodup. Qed.

Lemma declared_names_distinct (lo hi im ex : Q) :
  NoDup (map v_name (declared_vars lo hi im ex)).
Proof. apply NoDup_by_nodup. vm_compute. reflexivity. Qed.

Lemma constraint_names_distinct (pv a b r : nat -> Q) :
  NoDup (map c_name (flat_map (fun t => hour_block (pv t) (a t) (b t) (r t) t)
                       HOURS)).
Proof. apply NoDup_by_nodup. vm_compute. reflexivity. Qed.

Section Names.

Variable optimize : GRBModel -> Outcome.
Variable savefig : string -> list piece -> option exc.
Variables scenario Lmin_t Lmax_t Pt_PV pt Lt_ref : pyval.
Variables max_import_kW max_export_kW tau_imp tau_exp : pyval.
Variable alpha : option pyval.
Variable model_prefix : option string.

(** X16.  In every model [run_model_1b] hands to the solver, the 168
    variables have pairwise distinct names ("L0".."L23", "u0".., "c0"..,
    "g0_imp".., "g0_exp".., "HC0".., "D0"..) and so have the 96
    constraints ("PV_allocation_t", "Energy_balance_t", "Hourly_cost_t",
    "Discomfort_t"): a name identifies one variable or one constraint. *)
Theorem model_names_are_distinct (m : GRBModel) :
  In m (submitted (fst (run_model_1b optimize savefig scenario Lmin_t Lmax_t Pt_PV pt
                          Lt_ref max_import_kW max_export_kW tau_imp tau_exp
                          alpha model_prefix))) ->
  NoDup (map v_name (m_vars m)) /\ NoDup (map c_name (m_constrs m)) /\
  List.length (m_vars m) = 168 /\ List.length (m_constrs m) = 96.
Proof.
  intros Hm. apply run_model_1b_submitted in Hm as (B & HB & ->).
  destruct (build_model_constraints _ _ _ _ _ _ _ _ _ _ _ HB) as (_ & Hshape).
  apply build_model_inv in HB
    as (lo & hi & im & ex & cs & a & _ & _ & _ & _ & _ & _ & Hm).
  rewrite Hshape. rewrite Hm. cbn [m_vars].
  split; [apply declared_names_distinct|].
  split; [apply (constraint_names_distinct
                   (fun t => val (num_at Pt_PV t))
                   (fun t => (val (num_at pt t) + val (as_float tau_imp))%Q)
                   (fun t => (val (num_at pt t) - val (as_float tau_exp))%Q)
                   (fun t => val (num_at Lt_ref t)))|].
  split; reflexivity.
Qed.

End Names.

(** ** One solve per scenario *)

Section Solves.

Variable optimize : GRBModel -> Outcome.
Variable savefig : string -> list piece -> option exc.

Lemma scenario_step_submitted_list (Lmax_t Pt_PV Lt_ref sc : pyval)
  (done rows : list row) :
  snd (scenario_step optimize savefig (PNum 0) Lmax_t Pt_PV Lt_ref sc done) = Ok rows ->
  exists B,
    scenario_model Lmax_t Pt_PV Lt_ref sc = Ok B /\
    submitted (fst (scenario_step optimize savefig (PNum 0) Lmax_t Pt_PV Lt_ref sc done)) =
      [b_model B].
Proof.
  unfold scenario_step, scenario_model.
  destruct (getitem_str sc "scenario") as [name|e];
    [|rewrite mbind_lift; discriminate].
  rewrite mbind_lift, mbind_tell. cbv beta. cbn [fst snd].
  rewrite mbind_lift. cbv beta iota.
  destruct (getitem_str sc "energy_price_DKK_per_kWh") as [pt|e];
    rewrite mbind_lift; cbv beta iota; [|discriminate].
  destruct (getitem_str sc "max_import_kW") as [imp|e];
    rewrite mbind_lift; cbv beta iota; [|discriminate].
  destruct (getitem_str sc "max_export_kW") as [exp|e];
    rewrite mbind_lift; cbv beta iota; [|discriminate].
  destruct (getitem_str sc "import_tariff_DKK/kWh") as [ti|e];
    rewrite mbind_lift; cbv beta iota; [|discriminate].
  destruct (getitem_str sc "export_tariff_DKK/kWh") as [te|e];
    rewrite mbind_lift; cbv beta iota; [|discriminate].
  cbn [rbind]. rewrite mbind_snd, mbind_fst.
  destruct (snd (run_model_1b optimize savefig name (PNum 0) Lmax_t Pt_PV pt Lt_ref
                   imp exp ti te None (Some "1b"))) as [result|e] eqn:Hrun;
    [|discriminate].
  intros _. rewrite mbind_lift. cbn [fst mret]. rewrite app_nil_r.
  apply run_model_1b_Ok_inv in Hrun as (B & s & HB & _ & _).
  exists B. split; [exact HB|].
  change (submitted (?e :: ?l)) with (submitted [e] ++ submitted l).
  rewrite run_model_1b_submitted_list. rewrite HB.
  reflexivity.
Qed.

Lemma batch_submitted (Lmax_t Pt_PV Lt_ref : pyval) (scs : list pyval) :
  forall done rows,
  snd (mforM (scenario_step optimize savefig (PNum 0) Lmax_t Pt_PV Lt_ref) scs done) =
    Ok rows ->
  Forall2 (fun sc m => exists B, scenario_model Lmax_t Pt_PV Lt_ref sc = Ok B /\
                                 m = b_model B)
    scs
    (submitted
       (fst (mforM (scenario_step optimize savefig (PNum 0) Lmax_t Pt_PV Lt_ref)
               scs done))).
Proof.
  induction scs as [|sc scs IH]; intros done rows H.
  - constructor.
  - cbn [mforM] in *. rewrite mbind_snd in H. rewrite mbind_fst.
    destruct (snd (scenario_step optimize savefig (PNum 0) Lmax_t Pt_PV Lt_ref sc done))
      as [rows1|e] eqn:Hstep; [|discriminate].
    rewrite submitted_app.
    destruct (scenario_step_submitted_list _ _ _ _ _ _ Hstep) as (B & HB & ->).
    constructor; [exists B; auto|].
    apply (IH rows1 rows H).
Qed.

(** X17.  A batch that runs to its end has called the solver exactly
    once per scenario, in the order of the list, each time on the model
    of that scenario built on the values of the load phase. *)
Theorem completed_batch_solves_each_scenario_once
  (bus der appl usage scenarios : pyval) (rows : list row) :
  snd (main optimize savefig bus der appl usage scenarios) = Ok rows ->
  exists Lmax_t Pt_PV Lt_ref scs,
    load_phase appl der usage = Ok (PNum 0, Lmax_t, Pt_PV, Lt_ref) /\
    py_iter scenarios = Ok scs /\
    Forall2 (fun sc m => exists B, scenario_model Lmax_t Pt_PV Lt_ref sc = Ok B /\
                                   m = b_model B)
      scs (submitted (fst (main optimize savefig bus der appl usage scenarios))).
Proof.
  unfold main.
  destruct (load_phase appl der usage)
    as [[[[Lmin_t Lmax_t] Pt_PV] Lt_ref]|e] eqn:Hload;
    [|rewrite mbind_lift; discriminate].
  pose proof (load_phase_Lmin _ _ _ _ _ _ _ Hload) as ->.
  rewrite mbind_lift. cbv beta iota.
  destruct (py_iter scenarios) as [scs|e] eqn:Hiter;
    [|rewrite mbind_lift; discriminate].
  rewrite mbind_lift, mbind_snd, mbind_fst.
  destruct (snd (mforM (scenario_step optimize savefig (PNum 0) Lmax_t Pt_PV Lt_ref)
                   scs [])) as [rows'|e] eqn:Hloop; [|discriminate].
  intros _. exists Lmax_t, Pt_PV, Lt_ref, scs.
  split; [reflexivity|]. split; [reflexivity|].
  rewrite submitted_app.
  replace (submitted (fst (mbind _ _))) with (@nil GRBModel).
  - rewrite app_nil_r. apply (batch_submitted _ _ _ _ _ _ Hloop).
  - destruct rows'; [reflexivity|]. rewrite mbind_tell. reflexivity.
Qed.

End Solves.

(** ** The further properties at work on the sample inputs *)

Lemma completed_run_effects_witness :
  snd (base_call (solver_const 5)) =
    Ok (result_of (solver_const 5 sample_model) (mkSolution (fun _ => 0%Q) 5)) /\
  exists B s,
    build_model (PNum 0) (PNum 3) (profile 1 24) (profile 1 24) (profile 1 24)
      (PNum 5) (PNum 5) (PNum (1#2)) (PNum (1#4)) (PNum 10) = Ok B /\
    solution (solver_const 5 (b_model B)) = Some s.
Proof.
  assert (H : snd (base_call (solver_const 5)) =
              Ok (result_of (solver_const 5 sample_model)
                    (mkSolution (fun _ => 0%Q) 5)))
    by (vm_compute; reflexivity).
  split; [exact H|].
  destruct (completed_run_effects (solver_const 5) disk_ok (PStr "Base") (PNum 0)
              (PNum 3) (profile 1 24) (profile 1 24) (profile 1 24) (PNum 5)
              (PNum 5) (PNum (1#2)) (PNum (1#4)) None (Some "1b") _ H)
    as (B & s & HB & Hs & _).
  exists B, s. split; [exact HB | exact Hs].
Defined.

Lemma wrong_length_profile_stops_at_plot_witness :
  exists B,
    build_model (PNum 0) (PNum 3) (profile 1 24) (profile 1 25) (profile 1 24)
      (PNum 5) (PNum 5) (PNum (1#2)) (PNum (1#4)) (PNum 10) = Ok B /\
    has_24 (profile 1 24) && has_24 (profile 1 24) && has_24 (profile 1 25) =
      false /\
    submitted
      (fst (run_model_1b (solver_const 5) disk_no_subdirs (PStr "a/b") (PNum 0)
              (PNum 3) (profile 1 24) (profile 1 25) (profile 1 24) (PNum 5)
              (PNum 5) (PNum (1#2)) (PNum (1#4)) None (Some "1b"))) =
      [b_model B] /\
    snd (run_model_1b (solver_const 5) disk_no_subdirs (PStr "a/b") (PNum 0)
           (PNum 3) (profile 1 24) (profile 1 25) (profile 1 24) (PNum 5)
           (PNum 5) (PNum (1#2)) (PNum (1#4)) None (Some "1b")) = Raise OSError /\
    snd (run_model_1b (solver_const 5) disk_ok (PStr "a/b") (PNum 0)
           (PNum 3) (profile 1 24) (profile 1 25) (profile 1 24) (PNum 5)
           (PNum 5) (PNum (1#2)) (PNum (1#4)) None (Some "1b")) = Raise ValueError.
Proof.
  assert (HB : exists B,
            build_model (PNum 0) (PNum 3) (profile 1 24) (profile 1 25)
              (profile 1 24) (PNum 5) (PNum 5) (PNum (1#2)) (PNum (1#4))
              (PNum 10) = Ok B)
    by (eexists; vm_compute; reflexivity).
  destruct HB as (B & HB). exists B.
  split; [exact HB|]. split; [reflexivity|].
  destruct (wrong_length_profile_stops_at_plot (solver_const 5) disk_no_subdirs
              (PStr "a/b") (PNum 0) (PNum 3) (profile 1 24) (profile 1 25)
              (profile 1 24) (PNum 5) (PNum 5) (PNum (1#2)) (PNum (1#4)) None
              (Some "1b") B (mkSolution (fun _ => 0%Q) 5) HB eq_refl eq_refl)
    as (Hsub & Hraise).
  destruct (wrong_length_profile_stops_at_plot (solver_const 5) disk_ok
              (PStr "a/b") (PNum 0) (PNum 3) (profile 1 24) (profile 1 25)
              (profile 1 24) (PNum 5) (PNum 5) (PNum (1#2)) (PNum (1#4)) None
              (Some "1b") B (mkSolution (fun _ => 0%Q) 5) HB eq_refl eq_refl)
    as (_ & Hvalue).
  split; [exact Hsub|]. split; [exact Hraise | exact Hvalue].
Defined.

Lemma inf_or_unbd_reported_by_number_witness :
  exists B,
    build_model (PNum 0) (PNum 3) (profile 1 24) (profile 1 24) (profile 1 24)
      (PNum 5) (PNum 5) (PNum (1#2)) (PNum (1#4)) (PNum 10) = Ok B /\
    console (fst (base_call (fun _ => mkOutcome GRB_INF_OR_UNBD None))) =
    [Print [Lit "Optimization ended with status: "; Fmt (PNum 4) ""]].
Proof.
  assert (HB : exists B,
            build_model (PNum 0) (PNum 3) (profile 1 24) (profile 1 24)
              (profile 1 24) (PNum 5) (PNum 5) (PNum (1#2)) (PNum (1#4))
              (PNum 10) = Ok B)
    by (eexists; vm_compute; reflexivity).
  destruct HB as (B & HB). exists B. split; [exact HB|].
  apply (inf_or_unbd_reported_by_number
           (fun _ => mkOutcome GRB_INF_OR_UNBD None) disk_ok (PStr "Base")
           (PNum 0) (PNum 3) (profile 1 24) (profile 1 24) (profile 1 24)
           (PNum 5) (PNum 5) (PNum (1#2)) (PNum (1#4)) None (Some "1b")
           B HB eq_refl).
Defined.


Lemma incomplete_scenario_record_is_not_run_witness :
  In "max_import_kW" scenario_keys /\
  dict_find "max_import_kW" [("scenario", PStr "Base")] = None /\
  snd (scenario_step (solver_const 5) disk_ok (PNum 0) (PNum 3) (profile 1 24)
         (profile 1 24) (PDict [("scenario", PStr "Base")]) []) =
    Raise KeyError.
Proof.
  assert (Hin : In "max_import_kW" scenario_keys)
    by (right; right; left; reflexivity).
  assert (Hk : dict_find "max_import_kW" [("scenario", PStr "Base")] = None)
    by reflexivity.
  split; [exact Hin|]. split; [exact Hk|].
  apply (incomplete_scenario_record_is_not_run (solver_const 5) disk_ok (PNum 0)
           (PNum 3) (profile 1 24) (profile 1 24) [("scenario", PStr "Base")]
           [] "max_import_kW" Hin Hk).
Defined.

Lemma completed_batch_has_a_row_per_scenario_witness :
  snd (batch_call (solver_const 5) [sc_base; sc_high]) =
    Ok [mkRow (PStr "Base") (Some 5%Q); mkRow (PStr "High") (Some 5%Q)] /\
  exists Lmax_t Pt_PV Lt_ref scs,
    load_phase (appliance_bundle 3) (production_bundle (profile 1 24))
      (preference_bundle (profile 1 24)) = Ok (PNum 0, Lmax_t, Pt_PV, Lt_ref) /\
    py_iter (PList [sc_base; sc_high]) = Ok scs.
Proof.
  assert (H : snd (batch_call (solver_const 5) [sc_base; sc_high]) =
              Ok [mkRow (PStr "Base") (Some 5%Q); mkRow (PStr "High") (Some 5%Q)])
    by (vm_compute; reflexivity).
  split; [exact H|].
  destruct (completed_batch_has_a_row_per_scenario (solver_const 5) disk_ok PNone
              (production_bundle (profile 1 24)) (appliance_bundle 3)
              (preference_bundle (profile 1 24)) (PList [sc_base; sc_high]) _ H)
    as (Lmax_t & Pt_PV & Lt_ref & scs & Hload & Hiter & _).
  exists Lmax_t, Pt_PV, Lt_ref, scs. split; [exact Hload | exact Hiter].
Defined.

Lemma failed_batch_prints_no_summary_witness :
  snd (main (solver_const 5) disk_ok PNone (production_bundle (profile 1 23))
         (appliance_bundle 3) (preference_bundle (profile 1 24))
         (PList [sc_base; sc_high])) = Raise IndexError /\
  Forall (fun ev => summary_output ev = false)
    (fst (main (solver_const 5) disk_ok PNone (production_bundle (profile 1 23))
            (appliance_bundle 3) (preference_bundle (profile 1 24))
            (PList [sc_base; sc_high]))).
Proof.
  assert (H : snd (main (solver_const 5) disk_ok PNone
                     (production_bundle (profile 1 23)) (appliance_bundle 3)
                     (preference_bundle (profile 1 24))
                     (PList [sc_base; sc_high])) = Raise IndexError)
    by (vm_compute; reflexivity).
  split; [exact H|].
  apply (failed_batch_prints_no_summary (solver_const 5) disk_ok PNone
           (production_bundle (profile 1 23)) (appliance_bundle 3)
           (preference_bundle (profile 1 24)) (PList [sc_base; sc_high])
           IndexError H).
Defined.

Lemma script_stops_at_first_unreadable_file_witness :
  find (fun p => negb (readable
                         (sample_files (Parsed PNone) Missing Garbled
                            (Parsed PNone) (Parsed (PList [])) p)))
    input_files = Some DER_production_json /\
  script (solver_const 5) disk_ok
    (sample_files (Parsed PNone) Missing Garbled (Parsed PNone)
       (Parsed (PList []))) =
  ([], inl (FileNotFoundError DER_production_json)).
Proof.
  assert (H : find (fun p => negb (readable
                                     (sample_files (Parsed PNone) Missing
                                        Garbled (Parsed PNone)
                                        (Parsed (PList [])) p)))
                input_files = Some DER_production_json)
    by reflexivity.
  split; [exact H|].
  apply (script_stops_at_first_unreadable_file (solver_const 5) disk_ok
           (sample_files (Parsed PNone) Missing Garbled (Parsed PNone)
              (Parsed (PList [])))
           DER_production_json H).
Defined.

Lemma bus_params_content_is_unused_witness :
  script (solver_const 5) disk_ok
    (sample_files (Parsed (PNum 1)) (Parsed (production_bundle (profile 1 24)))
       (Parsed (appliance_bundle 3)) (Parsed (preference_bundle (profile 1 24)))
       (Parsed (PList []))) =
  script (solver_const 5) disk_ok
    (sample_files (Parsed PNone) (Parsed (production_bundle (profile 1 24)))
       (Parsed (appliance_bundle 3)) (Parsed (preference_bundle (profile 1 24)))
       (Parsed (PList []))).
Proof.
  apply (bus_params_content_is_unused (solver_const 5) disk_ok _ _ PNone (PNum 1));
    [reflexivity | reflexivity |].
  intros p Hp. unfold sample_files.
  destruct (String.eqb_spec p bus_params_json) as [E|_];
    [contradiction | reflexivity].
Defined.

Lemma negative_pv_hour_makes_model_infeasible_witness :
  exists B,
    build_model (PNum 0) (PNum 3) negative_pv (profile 1 24) (profile 1 24)
      (PNum 5) (PNum 5) (PNum (1#2)) (PNum (1#4)) (PNum 10) = Ok B /\
    (val (num_at negative_pv 0) < 0)%Q /\
    forall x, ~ feasible (b_model B) x.
Proof.
  assert (HB : exists B,
            build_model (PNum 0) (PNum 3) negative_pv (profile 1 24)
              (profile 1 24) (PNum 5) (PNum 5) (PNum (1#2)) (PNum (1#4))
              (PNum 10) = Ok B)
    by (eexists; vm_compute; reflexivity).
  destruct HB as (B & HB). exists B.
  assert (Hneg : (val (num_at negative_pv 0) < 0)%Q) by reflexivity.
  split; [exact HB|]. split; [exact Hneg|].
  apply (negative_pv_hour_makes_model_infeasible (PNum 0) (PNum 3) negative_pv
           (profile 1 24) (profile 1 24) (PNum 5) (PNum 5) (PNum (1#2))
           (PNum (1#4)) (PNum 10) B 0 HB ltac:(lia) Hneg).
Defined.

Lemma profile_nonnegative (t : nat) :
  t < 24 -> (0 <= val (num_at (profile 1 24) t))%Q.
Proof.
  intros Ht. unfold profile, num_at, getitem_int.
  rewrite nth_error_repeat by exact Ht. cbn. discriminate.
Qed.

Lemma idle_point_is_feasible_witness :
  exists B,
    build_model (PNum 0) (PNum 3) (profile 1 24) (profile 1 24) (profile 1 24)
      (PNum 0) (PNum 0) (PNum (1#2)) (PNum (1#4)) (PNum 10) = Ok B /\
    feasible (b_model B)
      (idle_point (fun t => val (num_at (profile 1 24) t))
         (fun t => val (num_at (profile 1 24) t))).
Proof.
  assert (HB : exists B,
            build_model (PNum 0) (PNum 3) (profile 1 24) (profile 1 24)
              (profile 1 24) (PNum 0) (PNum 0) (PNum (1#2)) (PNum (1#4))
              (PNum 10) = Ok B)
    by (eexists; vm_compute; reflexivity).
  destruct HB as (B & HB). exists B. split; [exact HB|].
  apply (idle_point_is_feasible (PNum 0) (PNum 3) (profile 1 24) (profile 1 24)
           (profile 1 24) (PNum 0) (PNum 0) (PNum (1#2)) (PNum (1#4)) (PNum 10)
           B HB);
    [cbn; lra | cbn; lra | cbn; lra | cbn; lra | exact profile_nonnegative].
Defined.

Lemma objective_is_discomfort_plus_energy_cost_witness :
  exists B,
    build_model (PNum 0) (PNum 3) (profile 1 24) (profile 1 24) (profile 1 24)
      (PNum 5) (PNum 5) (PNum (1#2)) (PNum (1#4)) (PNum 10) = Ok B /\
    Forall (holds (idle_point (fun t => val (num_at (profile 1 24) t))
                     (fun t => val (num_at (profile 1 24) t))))
      (m_constrs (b_model B)) /\
    (eval (idle_point (fun t => val (num_at (profile 1 24) t))
             (fun t => val (num_at (profile 1 24) t)))
       (m_obj (b_model B)) ==
     bill (val (as_float (PNum 10)))
       (fun t => val (num_at (profile 1 24) t))
       (fun t => val (num_at (profile 1 24) t))
       (val (as_float (PNum (1#2)))) (val (as_float (PNum (1#4))))
       (idle_point (fun t => val (num_at (profile 1 24) t))
          (fun t => val (num_at (profile 1 24) t))))%Q.
Proof.
  assert (HB : exists B,
            build_model (PNum 0) (PNum 3) (profile 1 24) (profile 1 24)
              (profile 1 24) (PNum 5) (PNum 5) (PNum (1#2)) (PNum (1#4))
              (PNum 10) = Ok B)
    by (eexists; vm_compute; reflexivity).
  destruct HB as (B & HB). exists B.
  assert (Hcs : Forall (holds (idle_point
                                 (fun t => val (num_at (profile 1 24) t))
                                 (fun t => val (num_at (profile 1 24) t))))
                  (m_constrs (b_model B))).
  { destruct (build_model_constraints _ _ _ _ _ _ _ _ _ _ _ HB) as (_ & ->).
    rewrite Forall_flat_map, Forall_forall. intros t Ht.
    apply In_HOURS in Ht.
    apply (idle_point_holds (fun t => val (num_at (profile 1 24) t))
             (fun t => val (num_at (profile 1 24) t))
             (fun t => (val (num_at (profile 1 24) t) +
                        val (as_float (PNum (1#2))))%Q)
             (fun t => (val (num_at (profile 1 24) t) -
                        val (as_float (PNum (1#4))))%Q) t Ht). }
  split; [exact HB|]. split; [exact Hcs|].
  apply (objective_is_discomfort_plus_energy_cost (PNum 0) (PNum 3)
           (profile 1 24) (profile 1 24) (profile 1 24) (PNum 5) (PNum 5)
           (PNum (1#2)) (PNum (1#4)) (PNum 10) B _ HB Hcs).
Defined.

Lemma model_names_are_distinct_witness :
  In sample_model (submitted (fst (base_call (solver_const 5)))) /\
  NoDup (map v_name (m_vars sample_model)).
Proof.
  assert (H : In sample_model (submitted (fst (base_call (solver_const 5)))))
    by (vm_compute; left; reflexivity).
  split; [exact H|].
  apply (model_names_are_distinct (solver_const 5) disk_ok (PStr "Base") (PNum 0)
           (PNum 3) (profile 1 24) (profile 1 24) (profile 1 24) (PNum 5)
           (PNum 5) (PNum (1#2)) (PNum (1#4)) None (Some "1b") sample_model H).
Defined.

Lemma completed_batch_solves_each_scenario_once_witness :
  snd (batch_call (solver_const 5) [sc_base; sc_high]) =
    Ok [mkRow (PStr "Base") (Some 5%Q); mkRow (PStr "High") (Some 5%Q)] /\
  List.length (submitted (fst (batch_call (solver_const 5) [sc_base; sc_high]))) =
    2.
Proof.
  assert (H : snd (batch_call (solver_const 5) [sc_base; sc_high]) =
              Ok [mkRow (PStr "Base") (Some 5%Q); mkRow (PStr "High") (Some 5%Q)])
    by (vm_compute; reflexivity).
  split; [exact H|].
  destruct (completed_batch_solves_each_scenario_once (solver_const 5) disk_ok PNone
              (production_bundle (profile 1 24)) (appliance_bundle 3)
              (preference_bundle (profile 1 24)) (PList [sc_base; sc_high]) _ H)
    as (Lmax_t & Pt_PV & Lt_ref & scs & _ & Hiter & Hall).
  injection Hiter as <-.
  symmetry. apply (Forall2_length Hall).
Defined.
